(** * Payroll payment orchestration of the University HRIS

    A shallow embedding of [src/lib/payroll.ts], [src/lib/flutterwave.ts]
    and of the [POST] handler of [src/app/api/finance/banks/route.ts].

    The TypeScript code is asynchronous but strictly sequential (every
    promise is awaited before the next statement runs), so a call is a
    function from the world before it to a result and the world after
    it.  The world holds the database tables, the pending database
    faults, the log of calls made to the payment providers, the instants
    that the readings of the time give and the state of the lazily
    initialised Flutterwave client. *)

From Stdlib Require Import String Ascii List ZArith QArith Qround Qabs Bool Lia.
From Stdlib Require Import DecimalString.
Import ListNotations.

Local Open Scope string_scope.
Local Open Scope list_scope.

(* ===================================================================== *)
(** * JavaScript values *)
(* ===================================================================== *)

Module JS.

(** A JavaScript [number].  The finite doubles are taken as the exact
    rationals they denote; the three special values are kept apart,
    because the comparisons of the code treat them differently.  The
    sign of zero is dropped: no test of the code can tell [-0] from
    [0]. *)
Inductive number : Type :=
| Fin (q : Q)
| NaN
| PosInf
| NegInf.

(** [typeof n === 'number']: every inhabitant of [number] is one. *)
Definition typeof_number (_ : number) : bool := true.

(** [n <= 0].  Any comparison with [NaN] is false. *)
Definition le_zero (n : number) : bool :=
  match n with
  | Fin q => Qle_bool q 0
  | NaN => false
  | PosInf => false
  | NegInf => true
  end.

(** [n === 0]. *)
Definition is_zero (n : number) : bool :=
  match n with
  | Fin q => Qeq_bool q 0
  | _ => false
  end.

(** [Math.round]: the nearest integer, ties towards [+Infinity]; the
    special values are returned as they are. *)
Definition Math_round (n : number) : number :=
  match n with
  | Fin q => Fin (inject_Z (Qfloor (q + (1 # 2))))
  | _ => n
  end.

(** ** Arithmetic on doubles *)

(** [2^e] for an integer exponent. *)
Definition pow2 (e : Z) : Q :=
  if (0 <=? e)%Z then inject_Z (2 ^ e) else Qinv (inject_Z (2 ^ (- e))).

(** The integer nearest to [x >= 0]; of two that are equally near, the
    even one. *)
Definition round_half_even (x : Q) : Z :=
  let f := Qfloor x in
  match Qcompare (x - inject_Z f) (1 # 2) with
  | Lt => f
  | Gt => (f + 1)%Z
  | Eq => if Z.even f then f else (f + 1)%Z
  end.

(** The exponent of [a > 0]: the [e] with [2^e <= a < 2^(e+1)]. *)
Definition exponent (a : Q) : Z :=
  let e := (Z.log2 (Qnum a) - Z.log2 (Zpos (Qden a)))%Z in
  if Qle_bool (pow2 e) a then e else (e - 1)%Z.

(** The double nearest to the real number [q], as IEEE 754 rounds to
    nearest with ties to even: 53 bits of precision, exponents from
    -1022, below which the spacing stays that of the subnormal numbers,
    up to 1023, beyond which the result is infinite. *)
Definition round_to_double (q : Q) : number :=
  match Qnum q with
  | Z0 => Fin 0
  | _ =>
      let a := Qabs q in
      let e := Z.max (exponent a) (-1022) in
      let ulp := pow2 (e - 52) in
      let r := Qred (inject_Z (round_half_even (a / ulp)) * ulp)%Q in
      if Qle_bool (pow2 1024) r
      then (if Qle_bool 0 q then PosInf else NegInf)
      else Fin (if Qle_bool 0 q then r else Qred (- r)%Q)
  end.

(** [a - b]: the difference of two finite doubles is the double nearest
    to their exact difference. *)
Definition sub (a b : number) : number :=
  match a, b with
  | NaN, _ | _, NaN => NaN
  | Fin x, Fin y => round_to_double (x - y)
  | Fin _, PosInf => NegInf
  | Fin _, NegInf => PosInf
  | PosInf, PosInf => NaN
  | PosInf, _ => PosInf
  | NegInf, NegInf => NaN
  | NegInf, _ => NegInf
  end.

(** [Number(n)] applied to a number. *)
Definition Number (n : number) : number := n.

(** An optional string property ([string | undefined]).  It is falsy
    when absent and when empty. *)
Definition truthy (o : option string) : bool :=
  match o with
  | Some s => negb (String.eqb s "")
  | None => false
  end.

(** The string behind an optional property that has been tested. *)
Definition text (o : option string) : string :=
  match o with Some s => s | None => "" end.

(** [a || b] on optional strings. *)
Definition or_else (a b : option string) : option string :=
  if truthy a then a else b.

(** A value read from a JSON body or from a provider's answer. *)
Inductive value : Type :=
| VUndefined
| VNull
| VBool (b : bool)
| VNum (n : number)
| VStr (s : string)
| VObject.

(** [!v] is [negb (value_truthy v)]. *)
Definition value_truthy (v : value) : bool :=
  match v with
  | VUndefined | VNull => false
  | VBool b => b
  | VNum (Fin q) => negb (Qeq_bool q 0)
  | VNum NaN => false
  | VNum _ => true
  | VStr s => negb (String.eqb s "")
  | VObject => true
  end.

(** [v === 0]. *)
Definition strict_eq_zero (v : value) : bool :=
  match v with
  | VNum n => is_zero n
  | _ => false
  end.

(** ** Characters and the three regular-expression replacements *)

(** [\d] without the unicode flag: the ten ASCII digits. *)
Definition is_digit (c : ascii) : bool :=
  let n := nat_of_ascii c in (48 <=? n)%nat && (n <=? 57)%nat.

(** [\s] restricted to the code units a [string] of this model can
    hold: tab, line feed, vertical tab, form feed, carriage return,
    space and the no-break space. *)
Definition is_space (c : ascii) : bool :=
  let n := nat_of_ascii c in
  ((9 <=? n)%nat && (n <=? 13)%nat) || (n =? 32)%nat || (n =? 160)%nat.

(** Keep the characters on which [keep] holds. *)
Fixpoint filter_chars (keep : ascii -> bool) (s : string) : string :=
  match s with
  | EmptyString => EmptyString
  | String c rest =>
      if keep c then String c (filter_chars keep rest)
      else filter_chars keep rest
  end.

(** [s.replace(/\s+/g, '')]: every run of white space is deleted. *)
Definition remove_spaces (s : string) : string :=
  filter_chars (fun c => negb (is_space c)) s.

(** [s.replace(/\D/g, '')]: every character that is not a digit is
    deleted. *)
Definition remove_non_digits (s : string) : string :=
  filter_chars is_digit s.

(** [s.replace(/^(\+?254)/, '254')]: an optional plus sign followed by
    254 at the very start is replaced by 254; without such a prefix the
    string is returned as it is. *)
Definition normalise_254 (s : string) : string :=
  if String.prefix "+254" s then "254" ++ String.substring 4 (String.length s - 4) s
  else if String.prefix "254" s then "254" ++ String.substring 3 (String.length s - 3) s
  else s.

(** [s.trim()]: white space is removed from both ends. *)
Fixpoint trim_start (s : string) : string :=
  match s with
  | EmptyString => EmptyString
  | String c rest => if is_space c then trim_start rest else s
  end.

Fixpoint trim_end (s : string) : string :=
  match s with
  | EmptyString => EmptyString
  | String c rest =>
      match trim_end rest with
      | EmptyString => if is_space c then EmptyString else String c EmptyString
      | kept => String c kept
      end
  end.

Definition trim (s : string) : string := trim_end (trim_start s).

(** Every character of [s] satisfies [p]. *)
Fixpoint all_chars (p : ascii -> bool) (s : string) : bool :=
  match s with
  | EmptyString => true
  | String c rest => p c && all_chars p rest
  end.

End JS.

(* ===================================================================== *)
(** * Dates *)
(* ===================================================================== *)

Module Dates.

(** A [Date], read in local civil time: the year, the month index
    (0 for January, as [getMonth] counts) and the milliseconds elapsed
    since the start of that month.  Dates are ordered as instants, which
    is the lexicographic order of the three fields (no change of the
    clock for daylight saving is taken into account). *)
Record Date : Type := mkDate { year : Z; month : Z; ms : Z }.

Definition getFullYear (d : Date) : Z := year d.
Definition getMonth (d : Date) : Z := month d.

(** The year that the constructor takes for its first argument: a year
    from 0 to 99 stands for a year of the twentieth century. *)
Definition constructor_year (y : Z) : Z :=
  if (0 <=? y)%Z && (y <=? 99)%Z then (1900 + y)%Z else y.

(** [new Date(y, m, 1)]: local midnight on the first day of month [m]
    of the year that [y] stands for; a month index outside 0..11 carries
    into the year. *)
Definition new_Date (y m : Z) : Date :=
  {| year := (constructor_year y + m / 12)%Z; month := (m mod 12)%Z;
     ms := 0%Z |}.

Definition ltb (a b : Date) : bool :=
  (year a <? year b)%Z
  || ((year a =? year b)%Z
      && ((month a <? month b)%Z
          || ((month a =? month b)%Z && (ms a <? ms b)%Z))).

Definition leb (a b : Date) : bool := negb (ltb b a).

Definition is_leap_year (y : Z) : bool :=
  (y mod 4 =? 0)%Z && (negb (y mod 100 =? 0)%Z || (y mod 400 =? 0)%Z).

Definition days_in_month (y m : Z) : Z :=
  if (m =? 1)%Z then (if is_leap_year y then 29 else 28)%Z
  else if (m =? 3)%Z || (m =? 5)%Z || (m =? 8)%Z || (m =? 10)%Z then 30%Z
  else 31%Z.

(** A date that the runtime can produce: the month index is in range
    and the milliseconds stay within the month. *)
Definition well_formed (d : Date) : Prop :=
  (0 <= month d < 12)%Z
  /\ (0 <= ms d < days_in_month (year d) (month d) * 86400000)%Z.

(** Two dates of the same calendar month. *)
Definition same_calendar_month (a b : Date) : Prop :=
  year a = year b /\ month a = month b.

End Dates.
Export Dates.

(* ===================================================================== *)
(** * Database rows, provider messages and the world *)
(* ===================================================================== *)

(** The Prisma schema is not part of the sources at hand; a row carries
    the columns that the code reads or writes. *)

Record User : Type := {
  user_id : string;
  user_name : option string;
  user_role : string
}.

Record Bank : Type := {
  bank_id : string;
  bank_name : string;
  bank_code : string;
  bank_createdAt : Date
}.

Record Employee : Type := {
  emp_id : string;
  emp_userId : string;
  emp_staffNo : option string;
  emp_salary : JS.number;
  emp_bankId : option string
}.

(** An employee row with [include: { user: true, bank: true }]. *)
Record EmployeeWithRelations : Type := {
  employee_row : Employee;
  employee_user : option User;
  employee_bank : option Bank
}.

Record Payslip : Type := {
  ps_id : string;
  ps_employeeId : string;
  ps_month : Date;
  ps_grossSalary : JS.number;
  ps_deductions : JS.number;
  ps_netPay : JS.number;
  ps_paid : bool;
  ps_payoutRef : option string
}.

Record Payout : Type := {
  po_ref : string;
  po_employeeId : string;
  po_amount : JS.number;
  po_status : string;
  po_type : string;
  po_bank : option string;
  po_transactionId : option string;
  po_createdAt : Date
}.

Record Notification : Type := {
  nt_title : string;
  nt_message : string;
  nt_type : string;
  nt_recipientId : string
}.

Record Activity : Type := {
  ac_employeeId : string;
  ac_actionType : string;
  ac_description : string;
  ac_module : string;
  ac_action : string;
  ac_bankId : string;
  ac_bankName : string;
  ac_bankCode : string
}.

Record Database : Type := {
  employees : list Employee;
  users : list User;
  banks : list Bank;
  payslips : list Payslip;
  payouts : list Payout;
  notifications : list Notification;
  activities : list Activity
}.

(** The payload of [flutterwave.Transfer.initiate]. *)
Record TransferPayload : Type := {
  account_number : string;
  amount : JS.number;
  account_bank : string;
  narration : string;
  currency : string;
  beneficiary_name : string
}.

(** The properties the code reads from an object of a Flutterwave answer. *)
Record FlwData : Type := {
  fd_id : option string;
  fd_reference : option string;
  fd_flwRef : option string;
  fd_status : option string
}.

(** A Flutterwave answer: its [data] property, its [body.data] property
    (both absent when falsy) and the properties of the answer itself. *)
Record FlwResponse : Type := {
  fr_data : option FlwData;
  fr_body_data : option FlwData;
  fr_self : FlwData
}.

(** The answer of [initiateMpesaPayment]. *)
Record MpesaResponse : Type := {
  ConversationID : option string
}.

(** The answer of [verifyMpesaPayment]: [Result.ResultCode], or nothing
    when the answer has no [Result] object. *)
Record MpesaVerification : Type := {
  Result_ResultCode : option JS.value
}.

(** A call that leaves the process for a payment provider. *)
Inductive Call : Type :=
| FlwTransferInitiate (payload : TransferPayload)
| FlwTransactionVerify (id : option string)
| MpesaInitiate (amount : JS.number) (phone description : string)
| MpesaVerify (transactionId : option string).

(** What an awaited call yields: a value, or a thrown [Error] with its
    message. *)
Inductive Result (A : Type) : Type :=
| Ok (a : A)
| Throw (message : string).
Arguments Ok {A} a.
Arguments Throw {A} message.

Record World : Type := {
  db : Database;
  (** The outcome planned for the coming database calls, first call
      first: [Some m] makes the call reject with message [m] and leaves
      the tables as they are, [None] lets it run.  Calls beyond the plan
      run. *)
  faults : list (option string);
  (** The provider calls made so far, oldest first. *)
  calls : list Call;
  (** The instant that the next reading of the time gives, be it
      [Date.now()] or the stamp that the database puts on a new row. *)
  clock : Date;
  (** The instants that the readings after it give, next reading first;
      when they are used up, the time stays at the last instant. *)
  ticks : list Date;
  (** Counter behind the generated primary keys. *)
  next_id : nat;
  (** Module state of [flutterwave.ts]. *)
  initialized : bool;
  flutterwaveInstance : bool
}.

(** Everything the code obtains from outside its own sources: the
    process environment, the payment providers (each answer may depend on
    the calls made before), and the text renderings of the runtime. *)
Record Env : Type := {
  FLUTTERWAVE_PUBLIC_KEY : option string;
  FLUTTERWAVE_SECRET_KEY : option string;
  (** Whether [import('flutterwave-node-v3')] and the construction of the
      client succeed. *)
  flutterwave_loads : bool;
  Transfer_initiate : list Call -> TransferPayload -> Result FlwResponse;
  Transaction_verify : list Call -> option string -> Result FlwResponse;
  (** [initiateMpesaPayment] and [verifyMpesaPayment] of [./daraja]. *)
  daraja_initiate : list Call -> JS.number -> string -> string -> Result MpesaResponse;
  daraja_verify : list Call -> option string -> Result MpesaVerification;
  (** [`${n}`] for a number [n]. *)
  number_text : JS.number -> string;
  (** [d.toLocaleString('default', { month: 'long', year: 'numeric' })]. *)
  month_year_text : Date -> string;
  (** [`${t}`] for the number [t] that [Date.now()] gives at an
      instant. *)
  timestamp_text : Date -> string;
  (** The primary key generated from the counter. *)
  generated_id : nat -> string
}.

(* ===================================================================== *)
(** * Awaited computations *)
(* ===================================================================== *)

(** An [async] function body: it runs in a world and leaves a result and
    the world it has reached.  A thrown error keeps the world reached so
    far; nothing is rolled back. *)
Definition Async (A : Type) : Type := World -> Result A * World.

Definition ret {A : Type} (a : A) : Async A := fun w => (Ok a, w).

Definition throw {A : Type} (message : string) : Async A :=
  fun w => (Throw message, w).

Definition bind {A B : Type} (m : Async A) (k : A -> Async B) : Async B :=
  fun w =>
    match m w with
    | (Ok a, w') => k a w'
    | (Throw e, w') => (Throw e, w')
    end.

(** [try { body } catch (error) { handler }]. *)
Definition try_catch {A : Type} (body : Async A) (handler : string -> Async A)
  : Async A :=
  fun w =>
    match body w with
    | (Ok a, w') => (Ok a, w')
    | (Throw e, w') => handler e w'
    end.

Declare Scope async_scope.
Delimit Scope async_scope with async.
Notation "x <- m ;; k" := (bind m (fun x => k))
  (at level 61, m at next level, right associativity) : async_scope.
Notation "m ;;; k" := (bind m (fun _ => k))
  (at level 61, right associativity) : async_scope.
Local Open Scope async_scope.

(** [for (const x of xs) { await body(x) }]: one iteration after the
    other; an iteration that throws ends the loop. *)
Fixpoint for_of {A B : Type} (xs : list A) (body : A -> Async B) : Async unit :=
  match xs with
  | [] => ret tt
  | x :: rest => body x ;;; for_of rest body
  end.

(** ** Updates of the world *)

Definition set_db (d : Database) (w : World) : World :=
  {| db := d; faults := faults w; calls := calls w; clock := clock w;
     ticks := ticks w; next_id := next_id w; initialized := initialized w;
     flutterwaveInstance := flutterwaveInstance w |}.

Definition set_faults (f : list (option string)) (w : World) : World :=
  {| db := db w; faults := f; calls := calls w; clock := clock w;
     ticks := ticks w; next_id := next_id w; initialized := initialized w;
     flutterwaveInstance := flutterwaveInstance w |}.

Definition log_call (c : Call) (w : World) : World :=
  {| db := db w; faults := faults w; calls := calls w ++ [c]; clock := clock w;
     ticks := ticks w; next_id := next_id w; initialized := initialized w;
     flutterwaveInstance := flutterwaveInstance w |}.

Definition bump_id (w : World) : World :=
  {| db := db w; faults := faults w; calls := calls w; clock := clock w;
     ticks := ticks w; next_id := S (next_id w); initialized := initialized w;
     flutterwaveInstance := flutterwaveInstance w |}.

(** The instant that the reading after the next one gives. *)
Definition next_instant (w : World) : Date :=
  match ticks w with t :: _ => t | [] => clock w end.

(** A reading of the time has been made: the next reading gives the
    next instant. *)
Definition advance (w : World) : World :=
  {| db := db w; faults := faults w; calls := calls w;
     clock := next_instant w;
     ticks := tl (ticks w);
     next_id := next_id w; initialized := initialized w;
     flutterwaveInstance := flutterwaveInstance w |}.

(** [Date.now()]. *)
Definition Date_now : Async Date := fun w => (Ok (clock w), advance w).

Definition set_flutterwave (inst init : bool) (w : World) : World :=
  {| db := db w; faults := faults w; calls := calls w; clock := clock w;
     ticks := ticks w; next_id := next_id w; initialized := init;
     flutterwaveInstance := inst |}.

Definition set_payslips (l : list Payslip) (d : Database) : Database :=
  {| employees := employees d; users := users d; banks := banks d;
     payslips := l; payouts := payouts d;
     notifications := notifications d; activities := activities d |}.

Definition set_payouts (l : list Payout) (d : Database) : Database :=
  {| employees := employees d; users := users d; banks := banks d;
     payslips := payslips d; payouts := l;
     notifications := notifications d; activities := activities d |}.

Definition set_notifications (l : list Notification) (d : Database) : Database :=
  {| employees := employees d; users := users d; banks := banks d;
     payslips := payslips d; payouts := payouts d;
     notifications := l; activities := activities d |}.

Definition set_banks (l : list Bank) (d : Database) : Database :=
  {| employees := employees d; users := users d; banks := l;
     payslips := payslips d; payouts := payouts d;
     notifications := notifications d; activities := activities d |}.

Definition set_activities (l : list Activity) (d : Database) : Database :=
  {| employees := employees d; users := users d; banks := banks d;
     payslips := payslips d; payouts := payouts d;
     notifications := notifications d; activities := l |}.

(* ===================================================================== *)
(** * The database client *)
(* ===================================================================== *)

Module Prisma.

(** Every call of the client first meets the fault plan. *)
Definition call {A : Type} (run : Async A) : Async A :=
  fun w =>
    match faults w with
    | Some message :: rest => (Throw message, set_faults rest w)
    | None :: rest => run (set_faults rest w)
    | [] => run w
    end.

(** A call that only reads. *)
Definition read {A : Type} (q : Database -> A) : Async A :=
  call (fun w => (Ok (q (db w)), w)).

(** A call that writes and cannot fail on its own. *)
Definition write (u : World -> Database) : Async unit :=
  call (fun w => (Ok tt, set_db (u w) w)).

(** The employee with key [id], joined with its user and its bank. *)
Definition employee_with_relations (id : string) (d : Database)
  : option EmployeeWithRelations :=
  match find (fun e => String.eqb (emp_id e) id) (employees d) with
  | None => None
  | Some e =>
      Some {| employee_row := e;
              employee_user :=
                find (fun u => String.eqb (user_id u) (emp_userId e)) (users d);
              employee_bank :=
                match emp_bankId e with
                | Some b => find (fun k => String.eqb (bank_id k) b) (banks d)
                | None => None
                end |}
  end.

(** [employee.findUnique({ where: { id }, include: { user, bank } })]. *)
Definition employee_findUnique_include (id : string)
  : Async (option EmployeeWithRelations) :=
  read (employee_with_relations id).

(** [employee.findUnique({ where: { id } })]. *)
Definition employee_findUnique (id : string) : Async (option Employee) :=
  read (fun d => find (fun e => String.eqb (emp_id e) id) (employees d)).

(** [employee.findFirst({ where: { userId } })]. *)
Definition employee_findFirst_userId (userId : string) : Async (option Employee) :=
  read (fun d => find (fun e => String.eqb (emp_userId e) userId) (employees d)).

(** [user.findFirst({ where: { role }, select: { id: true } })]. *)
Definition user_findFirst_role (role : string) : Async (option string) :=
  read (fun d =>
    option_map user_id (find (fun u => String.eqb (user_role u) role) (users d))).

(** [payslip.findFirst({ where: { employeeId, month: { gte, lt } } })]. *)
Definition payslip_findFirst_month (employeeId : string) (gte lt : Date)
  : Async (option Payslip) :=
  read (fun d =>
    find (fun p => String.eqb (ps_employeeId p) employeeId
                   && Dates.leb gte (ps_month p) && Dates.ltb (ps_month p) lt)
         (payslips d)).

(** [payslip.findFirst({ where: { payoutRef } })]. *)
Definition payslip_findFirst_payoutRef (payoutRef : string) : Async (option Payslip) :=
  read (fun d =>
    find (fun p => match ps_payoutRef p with
                   | Some r => String.eqb r payoutRef
                   | None => false
                   end) (payslips d)).

(** The [data] of a payslip update.  A property whose value is
    [undefined] leaves its column as it is. *)
Definition apply_payslip_data (paid : option bool) (payoutRef : option string)
    (p : Payslip) : Payslip :=
  {| ps_id := ps_id p; ps_employeeId := ps_employeeId p; ps_month := ps_month p;
     ps_grossSalary := ps_grossSalary p; ps_deductions := ps_deductions p;
     ps_netPay := ps_netPay p;
     ps_paid := match paid with Some b => b | None => ps_paid p end;
     ps_payoutRef := match payoutRef with Some r => Some r | None => ps_payoutRef p end |}.

(** [payslip.update({ where: { id }, data })]; it rejects when no row has
    the key. *)
Definition payslip_update (id : string) (paid : option bool)
    (payoutRef : option string) : Async unit :=
  call (fun w =>
    if existsb (fun p => String.eqb (ps_id p) id) (payslips (db w)) then
      (Ok tt,
       set_db (set_payslips
                 (map (fun p => if String.eqb (ps_id p) id
                                then apply_payslip_data paid payoutRef p else p)
                      (payslips (db w))) (db w)) w)
    else (Throw "Record to update not found.", w)).

(** [payslip.create({ data })]; the key is generated. *)
Definition payslip_create (E : Env) (employeeId : string) (month : Date)
    (grossSalary deductions netPay : JS.number) (paid : bool)
    (payoutRef : option string) : Async unit :=
  call (fun w =>
    (Ok tt,
     bump_id
       (set_db (set_payslips
                  (payslips (db w) ++
                   [{| ps_id := generated_id E (next_id w);
                       ps_employeeId := employeeId; ps_month := month;
                       ps_grossSalary := grossSalary; ps_deductions := deductions;
                       ps_netPay := netPay; ps_paid := paid;
                       ps_payoutRef := payoutRef |}]) (db w)) w))).

(** [payout.findUnique({ where: { ref } })].  The lookup by [ref] is
    what makes [ref] a unique column. *)
Definition payout_findUnique (ref : string) : Async (option Payout) :=
  read (fun d => find (fun p => String.eqb (po_ref p) ref) (payouts d)).

(** [payout.create({ data })]; the row is stamped with a reading of the
    time and rejected when its [ref] is taken. *)
Definition payout_create (ref employeeId : string) (amount : JS.number)
    (status type : string) (bank transactionId : option string) : Async unit :=
  call (fun w =>
    if existsb (fun p => String.eqb (po_ref p) ref) (payouts (db w)) then
      (Throw "Unique constraint failed on the fields: (`ref`)", w)
    else
      (Ok tt,
       set_db (set_payouts
                 (payouts (db w) ++
                  [{| po_ref := ref; po_employeeId := employeeId;
                      po_amount := amount; po_status := status;
                      po_type := type; po_bank := bank;
                      po_transactionId := transactionId;
                      po_createdAt := clock w |}]) (db w)) (advance w))).

Definition with_status (status : string) (p : Payout) : Payout :=
  {| po_ref := po_ref p; po_employeeId := po_employeeId p;
     po_amount := po_amount p; po_status := status; po_type := po_type p;
     po_bank := po_bank p; po_transactionId := po_transactionId p;
     po_createdAt := po_createdAt p |}.

(** [payout.update({ where: { ref }, data: { status } })]. *)
Definition payout_update_status (ref status : string) : Async unit :=
  call (fun w =>
    if existsb (fun p => String.eqb (po_ref p) ref) (payouts (db w)) then
      (Ok tt,
       set_db (set_payouts
                 (map (fun p => if String.eqb (po_ref p) ref
                                then with_status status p else p)
                      (payouts (db w))) (db w)) w)
    else (Throw "Record to update not found.", w)).

(** [payout.findMany({ where: { type, createdAt: { gte, lt }, status } })]. *)
Definition payout_findMany (type : string) (gte lt : Date) (status : string)
  : Async (list Payout) :=
  read (fun d =>
    filter (fun p => String.eqb (po_type p) type
                     && Dates.leb gte (po_createdAt p)
                     && Dates.ltb (po_createdAt p) lt
                     && String.eqb (po_status p) status)
           (payouts d)).

(** [notification.create({ data })]. *)
Definition notification_create (title message type recipientId : string)
  : Async unit :=
  write (fun w =>
    set_notifications
      (notifications (db w) ++
       [{| nt_title := title; nt_message := message; nt_type := type;
           nt_recipientId := recipientId |}]) (db w)).

(** [bank.findUnique({ where: { code } })]. *)
Definition bank_findUnique_code (code : string) : Async (option Bank) :=
  read (fun d => find (fun b => String.eqb (bank_code b) code) (banks d)).

(** [bank.create({ data: { name, code } })]; it yields the new row,
    stamped with a reading of the time, and rejects when the [code] is
    taken. *)
Definition bank_create (E : Env) (name code : string) : Async Bank :=
  call (fun w =>
    if existsb (fun b => String.eqb (bank_code b) code) (banks (db w)) then
      (Throw "Unique constraint failed on the fields: (`code`)", w)
    else
      let b := {| bank_id := generated_id E (next_id w); bank_name := name;
                  bank_code := code; bank_createdAt := clock w |} in
      (Ok b, bump_id (set_db (set_banks (banks (db w) ++ [b]) (db w))
                             (advance w)))).

(** [activity.create({ data })]. *)
Definition activity_create (a : Activity) : Async unit :=
  write (fun w => set_activities (activities (db w) ++ [a]) (db w)).

End Prisma.

(* ===================================================================== *)
(** * [src/lib/flutterwave.ts] *)
(* ===================================================================== *)

Module Flutterwave.

(** [initializeFlutterwave]: the client is built on first use when both
    keys are set; a failed import is logged and leaves the instance as
    it was.  The boolean tells whether an instance is returned. *)
Definition initializeFlutterwave (E : Env) : Async bool :=
  fun w =>
    if initialized w then (Ok (flutterwaveInstance w), w)
    else if JS.truthy (FLUTTERWAVE_PUBLIC_KEY E)
            && JS.truthy (FLUTTERWAVE_SECRET_KEY E) then
      if flutterwave_loads E then (Ok true, set_flutterwave true true w)
      else (Ok (flutterwaveInstance w), w)
    else (Ok (flutterwaveInstance w), w).

(** [flutterwave.Transfer.initiate(payload)]: the call is logged and the
    provider answers. *)
Definition Transfer_initiate_call (E : Env) (payload : TransferPayload)
  : Async FlwResponse :=
  fun w => (Transfer_initiate E (calls w) payload,
            log_call (FlwTransferInitiate payload) w).

(** [flutterwave.Transaction.verify({ id: reference })]. *)
Definition Transaction_verify_call (E : Env) (reference : option string)
  : Async FlwResponse :=
  fun w => (Transaction_verify E (calls w) reference,
            log_call (FlwTransactionVerify reference) w).

(** [processBankTransfer], lines 36-81. *)
Definition processBankTransfer (E : Env) (amount : JS.number)
    (accountNumber accountBank narration beneficiaryName : string)
  : Async FlwResponse :=
  try_catch
    (flutterwave <- initializeFlutterwave E ;;
     if negb flutterwave then
       throw "Flutterwave not configured. Payment processing unavailable."
     else if negb (JS.typeof_number amount) || JS.le_zero amount then
       throw ("Invalid amount provided: " ++ number_text E amount
              ++ ". Amount must be a positive number.")
     else
       let validatedAmount := JS.Math_round amount in
       if JS.le_zero validatedAmount then
         throw ("Amount must be a positive number after validation. Provided: "
                ++ number_text E amount)
       else
         let payload :=
           {| account_number := accountNumber;
              amount := validatedAmount;
              account_bank := accountBank;
              narration := narration;
              currency := "KES";
              beneficiary_name := beneficiaryName |} in
         Transfer_initiate_call E payload)
    (fun error => throw error).

(** [verifyPayment], lines 88-102. *)
Definition verifyPayment (E : Env) (reference : option string)
  : Async FlwResponse :=
  try_catch
    (flutterwave <- initializeFlutterwave E ;;
     if negb flutterwave then
       throw "Flutterwave not configured. Payment verification unavailable."
     else Transaction_verify_call E reference)
    (fun error => throw error).

End Flutterwave.

(* ===================================================================== *)
(** * [src/lib/payroll.ts] *)
(* ===================================================================== *)

Module Payroll.

Record EmployeePayment : Type := {
  employeeId : string;
  amount : JS.number;
  bankId : option string;
  bankAccNo : option string;
  phone : option string;
  (** Declared as ['bank' | 'mpesa']; the code also answers any other
      string. *)
  paymentMethod : string
}.

Record ProcessPayrollResult : Type := {
  success : bool;
  transactionId : option string;
  error : option string;
  payoutRef : option string
}.

(** [initiateMpesaPayment(amount, phone, description)] of [./daraja]. *)
Definition initiateMpesaPayment (E : Env) (amount : JS.number)
    (phone description : string) : Async MpesaResponse :=
  fun w => (daraja_initiate E (calls w) amount phone description,
            log_call (MpesaInitiate amount phone description) w).

(** [verifyMpesaPayment(transactionId)] of [./daraja]. *)
Definition verifyMpesaPayment (E : Env) (transactionId : option string)
  : Async MpesaVerification :=
  fun w => (daraja_verify E (calls w) transactionId,
            log_call (MpesaVerify transactionId) w).

(** [`${description} for ${month.toLocaleString(...)}`]. *)
Definition payment_narration (E : Env) (description : string) (month : Date)
  : string :=
  description ++ " for " ++ month_year_text E month.

(** [response.data || response.body?.data || response]. *)
Definition response_data (response : FlwResponse) : FlwData :=
  match fr_data response with
  | Some d => d
  | None =>
      match fr_body_data response with
      | Some d => d
      | None => fr_self response
      end
  end.

(** Lines 95-98: the phone number as it is sent to M-Pesa. *)
Definition cleanPhone (phone : string) : string :=
  JS.normalise_254 (JS.remove_non_digits (JS.remove_spaces phone)).

(** Lines 55-88, the branch [paymentMethod === 'bank']; it yields
    [transactionId] and [payoutRef]. *)
Definition pay_by_bank (E : Env) (employeePayment : EmployeePayment)
    (employee : EmployeeWithRelations) (month : Date) (description : string)
  : Async (option string * option string) :=
  if negb (JS.truthy (bankAccNo employeePayment)) then
    throw "Bank account number required for bank transfer"
  else
    let bankCode :=
      match employee_bank employee with
      | Some b => JS.or_else (Some (bank_code b)) (Some (bank_name b))
      | None => bankId employeePayment
      end in
    if negb (JS.truthy bankCode) then
      throw ("Bank code not found for employee " ++ employeeId employeePayment)
    else
      let paymentAmount := amount employeePayment in
      if negb (JS.typeof_number paymentAmount) || JS.le_zero paymentAmount then
        throw ("Invalid payment amount for employee "
               ++ employeeId employeePayment ++ ": "
               ++ number_text E paymentAmount
               ++ ". Amount must be a positive number.")
      else
        response <- Flutterwave.processBankTransfer E
                      paymentAmount
                      (JS.text (bankAccNo employeePayment))
                      (JS.text bankCode)
                      (payment_narration E description month)
                      (JS.text (JS.or_else
                               (JS.or_else
                                  (match employee_user employee with
                                   | Some u => user_name u
                                   | None => None
                                   end)
                                  (emp_staffNo (employee_row employee)))
                               (Some "Employee"))) ;;
        let responseData := response_data response in
        ret (fd_id responseData,
             JS.or_else (JS.or_else (fd_reference responseData)
                                    (fd_id responseData))
                        (fd_flwRef responseData)).

(** Lines 89-109, the branch [paymentMethod === 'mpesa']. *)
Definition pay_by_mpesa (E : Env) (employeePayment : EmployeePayment)
    (month : Date) (description : string)
  : Async (option string * option string) :=
  if negb (JS.truthy (phone employeePayment)) then
    throw "Phone number required for M-Pesa payment"
  else
    response <- initiateMpesaPayment E
                  (amount employeePayment)
                  (cleanPhone (JS.text (phone employeePayment)))
                  (payment_narration E description month) ;;
    ret (ConversationID response, ConversationID response).

(** Lines 55-112: the provider is chosen by the payment method. *)
Definition pay (E : Env) (employeePayment : EmployeePayment)
    (employee : EmployeeWithRelations) (month : Date) (description : string)
  : Async (option string * option string) :=
  if String.eqb (paymentMethod employeePayment) "bank" then
    pay_by_bank E employeePayment employee month description
  else if String.eqb (paymentMethod employeePayment) "mpesa" then
    pay_by_mpesa E employeePayment month description
  else
    throw ("Invalid payment method: " ++ paymentMethod employeePayment).

(** Lines 114-154: the payslip of the month is marked paid, or a new
    one is created from the employee's salary. *)
Definition record_payslip (E : Env) (employeePayment : EmployeePayment)
    (month : Date) (payoutRef : option string) : Async unit :=
  payslip <- Prisma.payslip_findFirst_month (employeeId employeePayment)
               (new_Date (getFullYear month) (getMonth month))
               (new_Date (getFullYear month) (getMonth month + 1)) ;;
  match payslip with
  | Some payslip =>
      Prisma.payslip_update (ps_id payslip) (Some true) payoutRef
  | None =>
      employeeDetails <- Prisma.employee_findUnique (employeeId employeePayment) ;;
      match employeeDetails with
      | Some employeeDetails =>
          Prisma.payslip_create E
            (employeeId employeePayment)
            (new_Date (getFullYear month) (getMonth month))
            (emp_salary employeeDetails)
            (JS.sub (emp_salary employeeDetails) (amount employeePayment))
            (amount employeePayment)
            true
            payoutRef
      | None => ret tt
      end
  end.

(** [payoutRef || `PAYOUT_${Date.now()}`]: the time is read only when
    the provider gave no reference. *)
Definition payout_reference (E : Env) (payoutRef : option string) : Async string :=
  if JS.truthy payoutRef then ret (JS.text payoutRef)
  else now <- Date_now ;; ret ("PAYOUT_" ++ timestamp_text E now)%string.

(** Lines 156-167: the payout row that tracks the transaction. *)
Definition record_payout (E : Env) (employeePayment : EmployeePayment)
    (employee : EmployeeWithRelations)
    (transactionId payoutRef : option string) : Async unit :=
  ref <- payout_reference E payoutRef ;;
  Prisma.payout_create
    ref
    (employeeId employeePayment)
    (amount employeePayment)
    "PROCESSING"
    "SALARY"
    (if String.eqb (paymentMethod employeePayment) "bank"
     then JS.or_else (bankId employeePayment)
                     (option_map bank_name (employee_bank employee))
     else Some "M-Pesa")
    transactionId.

(** Lines 169-181: the employee is told; a failure here is only logged. *)
Definition notify_employee (E : Env) (employee : EmployeeWithRelations)
    (month : Date) : Async unit :=
  try_catch
    (Prisma.notification_create
       "Salary Payment Processed"
       ("Your salary for " ++ month_year_text E month ++ " has been processed.")
       "PAYMENT"
       (emp_userId (employee_row employee)))
    (fun notificationError => ret tt).

(** Lines 191-215: an administrator is told of the failure; a failure
    here is only logged. *)
Definition notify_admin (employeePayment : EmployeePayment) (message : string)
  : Async unit :=
  try_catch
    (adminUser <- Prisma.user_findFirst_role "ADMIN" ;;
     match adminUser with
     | Some adminUser_id =>
         Prisma.notification_create
           "Payroll Payment Failed"
           ("Payment failed for employee " ++ employeeId employeePayment
            ++ ": " ++ message)
           "ERROR"
           adminUser_id
     | None => ret tt
     end)
    (fun notificationError => ret tt).

(** The [try] block of [processPayrollPayment], lines 39-187. *)
Definition processPayrollPayment_try (E : Env)
    (employeePayment : EmployeePayment) (month : Date) (description : string)
  : Async ProcessPayrollResult :=
  employee <- Prisma.employee_findUnique_include (employeeId employeePayment) ;;
  match employee with
  | None =>
      throw ("Employee with ID " ++ employeeId employeePayment ++ " not found")
  | Some employee =>
      ids <- pay E employeePayment employee month description ;;
      let transactionId := fst ids in
      let payoutRef := snd ids in
      record_payslip E employeePayment month payoutRef ;;;
      record_payout E employeePayment employee transactionId payoutRef ;;;
      notify_employee E employee month ;;;
      ret {| success := true;
             transactionId := transactionId;
             error := None;
             payoutRef := payoutRef |}
  end.

(** [processPayrollPayment], lines 33-222. *)
Definition processPayrollPayment (E : Env)
    (employeePayment : EmployeePayment) (month : Date) (description : string)
  : Async ProcessPayrollResult :=
  try_catch
    (processPayrollPayment_try E employeePayment month description)
    (fun message =>
       notify_admin employeePayment message ;;;
       ret {| success := false;
              transactionId := None;
              error := Some message;
              payoutRef := None |}).

(** [{ ...employeePayment, amount: Number(employeePayment.amount) }]; the
    amount is a number by its type, so the [parseFloat] arm is not taken. *)
Definition validatedPayment (employeePayment : EmployeePayment) : EmployeePayment :=
  {| employeeId := employeeId employeePayment;
     amount := JS.Number (amount employeePayment);
     bankId := bankId employeePayment;
     bankAccNo := bankAccNo employeePayment;
     phone := phone employeePayment;
     paymentMethod := paymentMethod employeePayment |}.

(** The loop of [processBulkPayroll], lines 239-250, with the [results]
    array pushed so far. *)
Fixpoint processBulkPayroll_loop (E : Env)
    (employeesPayments : list EmployeePayment) (month : Date)
    (description : string) (results : list ProcessPayrollResult)
  : Async (list ProcessPayrollResult) :=
  match employeesPayments with
  | [] => ret results
  | employeePayment :: rest =>
      result <- processPayrollPayment E (validatedPayment employeePayment)
                  month description ;;
      processBulkPayroll_loop E rest month description (results ++ [result])
  end.

(** [processBulkPayroll], lines 231-253. *)
Definition processBulkPayroll (E : Env)
    (employeesPayments : list EmployeePayment) (month : Date)
    (description : string) : Async (list ProcessPayrollResult) :=
  processBulkPayroll_loop E employeesPayments month description [].

(** What [verifyPayrollPayment] returns: [{ success: true, status,
    ...verification }] or [{ success: false, error }].  The answer of the
    provider is kept whole; its own properties come last in the object
    literal. *)
Inductive VerifyResult : Type :=
| Verified (status : string)
           (verification : option (FlwResponse + MpesaVerification))
| VerifyFailed (error : string).

(** Lines 280-295: a payout sent through the bank provider.  It yields
    the new status and the answer, if there was one. *)
Definition verify_bank (E : Env) (payout : Payout)
  : Async (string * option (FlwResponse + MpesaVerification)) :=
  try_catch
    (verification <- Flutterwave.verifyPayment E (po_transactionId payout) ;;
     let verificationData := response_data verification in
     match fd_status verificationData with
     | Some s =>
         if String.eqb s "success" then ret ("SUCCESS", Some (inl verification))
         else if String.eqb s "failed" then ret ("FAILED", Some (inl verification))
         else ret ("PENDING", Some (inl verification))
     | None => ret ("PENDING", Some (inl verification))
     end)
    (fun error => ret ("FAILED", None)).

(** Lines 273-279: a payout sent through M-Pesa.  Reading [ResultCode]
    of an answer without [Result] throws. *)
Definition verify_mpesa (E : Env) (payout : Payout)
  : Async (string * option (FlwResponse + MpesaVerification)) :=
  verification <- verifyMpesaPayment E (po_transactionId payout) ;;
  match Result_ResultCode verification with
  | None =>
      throw "Cannot read properties of undefined (reading 'ResultCode')"
  | Some code =>
      if JS.strict_eq_zero code then ret ("SUCCESS", Some (inr verification))
      else ret ("FAILED", Some (inr verification))
  end.

(** Lines 302-316: the payslip of a successful payout is marked paid. *)
Definition mark_payslip_paid (payoutRef : string) : Async unit :=
  payslip <- Prisma.payslip_findFirst_payoutRef payoutRef ;;
  match payslip with
  | Some payslip => Prisma.payslip_update (ps_id payslip) (Some true) None
  | None => ret tt
  end.

(** [verifyPayrollPayment], lines 260-330. *)
Definition verifyPayrollPayment (E : Env) (payoutRef : string)
  : Async VerifyResult :=
  try_catch
    (payout <- Prisma.payout_findUnique payoutRef ;;
     match payout with
     | None => throw ("Payout with reference " ++ payoutRef ++ " not found")
     | Some payout =>
         outcome <- (if match po_bank payout with
                        | Some b => String.eqb b "M-Pesa"
                        | None => false
                        end
                     then verify_mpesa E payout
                     else verify_bank E payout) ;;
         let status := fst outcome in
         Prisma.payout_update_status payoutRef status ;;;
         (if String.eqb status "SUCCESS" then mark_payslip_paid payoutRef
          else ret tt) ;;;
         ret (Verified status (snd outcome))
     end)
    (fun error => ret (VerifyFailed error)).

(** [reconcilePayroll], lines 336-358. *)
Definition reconcilePayroll (E : Env) (month : Date) : Async unit :=
  try_catch
    (payouts <- Prisma.payout_findMany
                  "SALARY"
                  (new_Date (getFullYear month) (getMonth month))
                  (new_Date (getFullYear month) (getMonth month + 1))
                  "PROCESSING" ;;
     for_of payouts (fun payout => verifyPayrollPayment E (po_ref payout)))
    (fun error => throw error).

End Payroll.

(* ===================================================================== *)
(** * [src/app/api/finance/banks/route.ts] *)
(* ===================================================================== *)

Module BanksRoute.

(** [CustomSession]: the session of the caller, if any. *)
Record SessionUser : Type := {
  id : option string;
  role : option string
}.

Record CustomSession : Type := {
  user : option SessionUser
}.

(** What [request.json()] resolves to, as far as the handler looks at
    it: [null], or a value with its [name] and [code] properties. *)
Inductive Body : Type :=
| BodyNull
| BodyOf (name code : JS.value).

(** A request as the handler sees it: what [getServerSession] and
    [request.json()] resolve to, or the error they reject with. *)
Record Request : Type := {
  getServerSession : Result (option CustomSession);
  json : Result Body
}.

Inductive ResponseBody : Type :=
| ErrorBody (error : string)
| CreatedBody (bank : Bank).

Record Response : Type := {
  status : Z;
  body : ResponseBody
}.

(** Awaiting a promise that is already settled. *)
Definition await {A : Type} (r : Result A) : Async A := fun w => (r, w).

(** The guard of line 23. *)
Definition unauthorized (session : option CustomSession) : bool :=
  match session with
  | None => true
  | Some session =>
      match user session with
      | None => true
      | Some u =>
          negb (JS.truthy (id u))
          || (negb (match role u with Some r => String.eqb r "ADMIN" | None => false end)
              && negb (match role u with Some r => String.eqb r "FINANCE" | None => false end))
      end
  end.

(** [bank.findUnique({ where: { code } })] with the value taken from the
    body: the client rejects a key that is not a string before it
    reaches the database. *)
Definition bank_findUnique_value (code : JS.value) : Async (option Bank) :=
  match code with
  | JS.VStr c => Prisma.bank_findUnique_code c
  | _ => throw "Argument `code`: Invalid value provided. Expected String."
  end.

(** The receiver of [.trim()]: only a string has the method. *)
Definition string_receiver (property : string) (v : JS.value) : Async string :=
  match v with
  | JS.VStr s => ret s
  | _ => throw (property ++ ".trim is not a function")
  end.

(** [session.user?.id] of a session that passed the guard. *)
Definition session_user_id (session : option CustomSession) : string :=
  match session with
  | Some session =>
      match user session with
      | Some u => JS.text (id u)
      | None => ""
      end
  | None => ""
  end.

(** Lines 30-94 of [POST]: what is done for a caller that passed the
    guard. *)
Definition POST_authorised (E : Env) (request : Request)
    (session : option CustomSession) : Async Response :=
  body <- await (json request) ;;
  match body with
  | BodyNull =>
      throw "Cannot destructure property 'name' of 'body' as it is null."
  | BodyOf name code =>
      if negb (JS.value_truthy name) || negb (JS.value_truthy code) then
        ret {| status := 400;
               body := ErrorBody "Bank name and code are required" |}
      else
        existingBank <- bank_findUnique_value code ;;
        match existingBank with
        | Some _ =>
            ret {| status := 400;
                   body := ErrorBody "A bank with this code already exists" |}
        | None =>
            name_text <- string_receiver "name" name ;;
            code_text <- string_receiver "code" code ;;
            newBank <- Prisma.bank_create E (JS.trim name_text)
                                            (JS.trim code_text) ;;
            sessionEmployee <-
              Prisma.employee_findFirst_userId (session_user_id session) ;;
            match sessionEmployee with
            | Some sessionEmployee =>
                Prisma.activity_create
                  {| ac_employeeId := emp_id sessionEmployee;
                     ac_actionType := "CREATE";
                     ac_description := "Added new bank: " ++ name_text;
                     ac_module := "BANKS";
                     ac_action := "ADD_BANK";
                     ac_bankId := bank_id newBank;
                     ac_bankName := bank_name newBank;
                     ac_bankCode := bank_code newBank |}
            | None => ret tt
            end ;;;
            ret {| status := 201; body := CreatedBody newBank |}
        end
  end.

(** [POST], lines 18-102. *)
Definition POST (E : Env) (request : Request) : Async Response :=
  try_catch
    (session <- await (getServerSession request) ;;
     if unauthorized session then
       ret {| status := 401; body := ErrorBody "Unauthorized" |}
     else POST_authorised E request session)
    (fun error =>
       ret {| status := 500; body := ErrorBody "Failed to add bank" |}).

End BanksRoute.

(* ===================================================================== *)
(** * A small university, for concrete runs *)
(* ===================================================================== *)

Module Sample.

Definition june_2024 : Date := {| year := 2024; month := 5; ms := 1000 |}.
Definition december_2024 : Date := {| year := 2024; month := 11; ms := 0 |}.

Definition ann : Employee :=
  {| emp_id := "emp-1"; emp_userId := "user-1"; emp_staffNo := Some "KAF/001";
     emp_salary := JS.Fin 50000; emp_bankId := Some "bank-1" |}.

Definition ann_user : User :=
  {| user_id := "user-1"; user_name := Some "Ann"; user_role := "EMPLOYEE" |}.

Definition root_user : User :=
  {| user_id := "user-0"; user_name := Some "Root"; user_role := "ADMIN" |}.

Definition kcb : Bank :=
  {| bank_id := "bank-1"; bank_name := "KCB"; bank_code := "01";
     bank_createdAt := {| year := 2023; month := 0; ms := 0 |} |}.

(** A payout of May 2024 that went through the bank provider and one
    that went through M-Pesa, both still being processed. *)
Definition may_bank_payout : Payout :=
  {| po_ref := "REF-7"; po_employeeId := "emp-1"; po_amount := JS.Fin 42000;
     po_status := "PROCESSING"; po_type := "SALARY"; po_bank := Some "KCB";
     po_transactionId := Some "7";
     po_createdAt := {| year := 2024; month := 4; ms := 86400000 |} |}.

Definition may_mpesa_payout : Payout :=
  {| po_ref := "AG_9"; po_employeeId := "emp-1"; po_amount := JS.Fin 500;
     po_status := "PROCESSING"; po_type := "SALARY"; po_bank := Some "M-Pesa";
     po_transactionId := Some "AG_9";
     po_createdAt := {| year := 2024; month := 4; ms := 90000000 |} |}.

Definition may_payslip : Payslip :=
  {| ps_id := "slip-1"; ps_employeeId := "emp-1";
     ps_month := {| year := 2024; month := 4; ms := 0 |};
     ps_grossSalary := JS.Fin 50000; ps_deductions := JS.Fin 8000;
     ps_netPay := JS.Fin 42000; ps_paid := true; ps_payoutRef := Some "REF-7" |}.

Definition campus : Database :=
  {| employees := [ann]; users := [root_user; ann_user]; banks := [kcb];
     payslips := [may_payslip];
     payouts := [may_bank_payout; may_mpesa_payout];
     notifications := []; activities := [] |}.

(** A calm world: no database fault is planned, the Flutterwave client
    is not built yet. *)
Definition calm : World :=
  {| db := campus; faults := []; calls := [];
     clock := {| year := 2024; month := 5; ms := 2000 |};
     ticks := [{| year := 2024; month := 5; ms := 2004 |};
               {| year := 2024; month := 5; ms := 2750 |};
               {| year := 2024; month := 5; ms := 2751 |}];
     next_id := 0; initialized := false; flutterwaveInstance := false |}.

(** The same world with a plan of database outcomes. *)
Definition with_plan (plan : list (option string)) : World :=
  set_faults plan calm.

Definition transfer_answer (status : string) : FlwResponse :=
  {| fr_data := Some {| fd_id := Some "8"; fd_reference := Some "REF-8";
                        fd_flwRef := None; fd_status := Some status |};
     fr_body_data := None;
     fr_self := {| fd_id := None; fd_reference := None; fd_flwRef := None;
                   fd_status := Some "success" |} |}.

(** Providers that accept every request; the bank provider reports a
    verified transfer as still pending. *)
Definition providers : Env :=
  {| FLUTTERWAVE_PUBLIC_KEY := Some "FLWPUBK";
     FLUTTERWAVE_SECRET_KEY := Some "FLWSECK";
     flutterwave_loads := true;
     Transfer_initiate := fun _ _ => Ok (transfer_answer "NEW");
     Transaction_verify := fun _ _ => Ok (transfer_answer "pending");
     daraja_initiate := fun _ _ _ _ => Ok {| ConversationID := Some "AG_1" |};
     daraja_verify := fun _ _ =>
       Ok {| Result_ResultCode := Some (JS.VNum (JS.Fin 0)) |};
     number_text := fun n =>
       match n with
       | JS.NaN => "NaN"
       | JS.PosInf => "Infinity"
       | JS.NegInf => "-Infinity"
       | JS.Fin _ => "0"
       end;
     month_year_text := fun _ => "June 2024";
     timestamp_text := fun t =>
       NilEmpty.string_of_uint (N.to_uint (Z.to_N (1717200000000 + ms t)));
     generated_id := fun n => String (ascii_of_nat (65 + n)) "" |}.

Definition bank_payment : Payroll.EmployeePayment :=
  {| Payroll.employeeId := "emp-1"; Payroll.amount := JS.Fin 42000;
     Payroll.bankId := Some "bank-1"; Payroll.bankAccNo := Some "0110";
     Payroll.phone := None; Payroll.paymentMethod := "bank" |}.

Definition mpesa_payment : Payroll.EmployeePayment :=
  {| Payroll.employeeId := "emp-1"; Payroll.amount := JS.Fin 500;
     Payroll.bankId := None; Payroll.bankAccNo := None;
     Payroll.phone := Some "+254 712-345 678"; Payroll.paymentMethod := "mpesa" |}.

(** A bank payment without an account number. *)
Definition incomplete_payment : Payroll.EmployeePayment :=
  {| Payroll.employeeId := "emp-1"; Payroll.amount := JS.Fin 42000;
     Payroll.bankId := Some "bank-1"; Payroll.bankAccNo := None;
     Payroll.phone := None; Payroll.paymentMethod := "bank" |}.

Definition finance_officer : BanksRoute.CustomSession :=
  {| BanksRoute.user :=
       Some {| BanksRoute.id := Some "user-1"; BanksRoute.role := Some "FINANCE" |} |}.

Definition lecturer : BanksRoute.CustomSession :=
  {| BanksRoute.user :=
       Some {| BanksRoute.id := Some "user-1"; BanksRoute.role := Some "EMPLOYEE" |} |}.

Definition add_bank (session : option BanksRoute.CustomSession)
    (name code : JS.value) : BanksRoute.Request :=
  {| BanksRoute.getServerSession := Ok session;
     BanksRoute.json := Ok (BanksRoute.BodyOf name code) |}.

End Sample.

(* ===================================================================== *)
(** * Vocabulary of the statements *)
(* ===================================================================== *)

(** The computation always comes back with a value: it never throws. *)
Definition returns {A : Type} (m : Async A) : Prop :=
  forall w, exists a w', m w = (Ok a, w').

(** The computation leaves the observation [f] of the world as it was,
    whether it returns or throws. *)
Definition preserves {A X : Type} (f : World -> X) (m : Async A) : Prop :=
  forall w, f (snd (m w)) = f w.

(** Every world reached by the computation is related to the world it
    started in. *)
Definition keeps {A : Type} (R : World -> World -> Prop) (m : Async A) : Prop :=
  forall w, R w (snd (m w)).

(** The next [n] database calls are not planned to be rejected. *)
Fixpoint next_calls_run (n : nat) (plan : list (option string)) : bool :=
  match n, plan with
  | O, _ => true
  | S _, [] => true
  | S n', None :: rest => next_calls_run n' rest
  | S _, Some _ :: _ => false
  end.

(** The three statuses named by the specification. *)
Definition one_of_three (status : string) : bool :=
  String.eqb status "PROCESSING" || String.eqb status "SUCCESS"
  || String.eqb status "FAILED".

(** The statuses the payroll operations write. *)
Definition written_status (status : string) : bool :=
  one_of_three status || String.eqb status "PENDING".

(** Every payout row of [w'] is a row of [w] or carries a written
    status. *)
Definition payouts_well_marked (w w' : World) : Prop :=
  forall p, In p (payouts (db w')) ->
            In p (payouts (db w)) \/ written_status (po_status p) = true.

(** The filter that [reconcilePayroll] hands to [payout.findMany]. *)
Definition selected (month : Date) (p : Payout) : bool :=
  String.eqb (po_type p) "SALARY"
  && Dates.leb (new_Date (getFullYear month) (getMonth month)) (po_createdAt p)
  && Dates.ltb (po_createdAt p) (new_Date (getFullYear month) (getMonth month + 1))
  && String.eqb (po_status p) "PROCESSING".

(** The month that [reconcilePayroll] asks the database for: the
    calendar month of [month], in the year that the constructor of
    dates makes of its year. *)
Definition queried_month (month : Date) : Date :=
  {| year := constructor_year (getFullYear month); month := getMonth month;
     ms := 0 |}.

(** In the words of the specification: a salary payout created within
    the calendar month of [month] that is still being processed. *)
Definition pending_salary_payout_of (month : Date) (p : Payout) : Prop :=
  po_type p = "SALARY"
  /\ same_calendar_month (po_createdAt p) month
  /\ po_status p = "PROCESSING".

(** What identifies a payout for its verification; a verification
    changes none of it. *)
Definition payout_key (p : Payout) : string * option string * option string :=
  (po_ref p, po_bank p, po_transactionId p).

(** Whether the Flutterwave client is there when asked for. *)
Definition flutterwave_available (E : Env) (w : World) : bool :=
  if initialized w then flutterwaveInstance w
  else if JS.truthy (FLUTTERWAVE_PUBLIC_KEY E)
          && JS.truthy (FLUTTERWAVE_SECRET_KEY E)
       then (if flutterwave_loads E then true else flutterwaveInstance w)
       else flutterwaveInstance w.

(** The provider calls that the verification of a payout gives rise
    to: one request to M-Pesa for an M-Pesa payout, one to Flutterwave
    for any other payout when the client is there. *)
Definition verification_calls (E : Env) (w : World) (p : Payout) : list Call :=
  if match po_bank p with Some b => String.eqb b "M-Pesa" | None => false end
  then [MpesaVerify (po_transactionId p)]
  else if flutterwave_available E w
       then [FlwTransactionVerify (po_transactionId p)]
       else [].

(** The row [p] is still there in [w'] if it was there in [w]. *)
Definition row_stays (p : Payout) (w w' : World) : Prop :=
  In p (payouts (db w)) -> In p (payouts (db w')).

(** A world without a fault plan leads to a world without one. *)
Definition stays_calm (w w' : World) : Prop :=
  faults w = [] -> faults w' = [].

(** Two worlds that differ at most in the fault plan. *)
Definition same_but_plan (w w' : World) : Prop :=
  db w' = db w /\ calls w' = calls w /\ clock w' = clock w
  /\ next_id w' = next_id w /\ initialized w' = initialized w
  /\ flutterwaveInstance w' = flutterwaveInstance w
  /\ ticks w' = ticks w.

(** A computation that leaves the tables as they were whenever it
    throws. *)
Definition throws_clean {A : Type} (m : Async A) : Prop :=
  forall w e w', m w = (Throw e, w') -> db w' = db w.

(** The result [{ success: false, error: message }]. *)
Definition failed_with (message : string) : Payroll.ProcessPayrollResult :=
  {| Payroll.success := false; Payroll.transactionId := None;
     Payroll.error := Some message; Payroll.payoutRef := None |}.

(** The payslip of [employeeId] that [payslip.findFirst] yields for the
    month of [month]. *)
Definition payslip_of_month (employeeId : string) (month : Date)
    (slips : list Payslip) : option Payslip :=
  find (fun p => String.eqb (ps_employeeId p) employeeId
                 && Dates.leb (new_Date (getFullYear month) (getMonth month)) (ps_month p)
                 && Dates.ltb (ps_month p) (new_Date (getFullYear month) (getMonth month + 1)))
       slips.


(** The bank code that the 'bank' branch settles on. *)
Definition bank_code_for (p : Payroll.EmployeePayment)
    (employee : EmployeeWithRelations) : option string :=
  match employee_bank employee with
  | Some b => JS.or_else (Some (bank_code b)) (Some (bank_name b))
  | None => Payroll.bankId p
  end.

(** The name of the beneficiary that the 'bank' branch settles on. *)
Definition beneficiary_for (employee : EmployeeWithRelations) : string :=
  JS.text
    (JS.or_else
       (JS.or_else (match employee_user employee with
                    | Some u => user_name u
                    | None => None
                    end)
                   (emp_staffNo (employee_row employee)))
       (Some "Employee")).

(** The provider calls that a payment for a known employee gives rise
    to: one transfer for 'bank' once every check has passed and the
    client is there, one M-Pesa request for 'mpesa' once a phone number
    is given, none otherwise. *)
Definition provider_calls_for (E : Env) (p : Payroll.EmployeePayment)
    (employee : EmployeeWithRelations) (month : Date) (description : string)
    (w : World) : list Call :=
  if String.eqb (Payroll.paymentMethod p) "bank" then
    if JS.truthy (Payroll.bankAccNo p)
       && JS.truthy (bank_code_for p employee)
       && negb (JS.le_zero (Payroll.amount p))
       && flutterwave_available E w
       && negb (JS.le_zero (JS.Math_round (Payroll.amount p)))
    then [FlwTransferInitiate
            {| account_number := JS.text (Payroll.bankAccNo p);
               amount := JS.Math_round (Payroll.amount p);
               account_bank := JS.text (bank_code_for p employee);
               narration := Payroll.payment_narration E description month;
               currency := "KES";
               beneficiary_name := beneficiary_for employee |}]
    else []
  else if String.eqb (Payroll.paymentMethod p) "mpesa" then
    if JS.truthy (Payroll.phone p)
    then [MpesaInitiate (Payroll.amount p)
                        (Payroll.cleanPhone (JS.text (Payroll.phone p)))
                        (Payroll.payment_narration E description month)]
    else []
  else [].

(** The provider calls that [processPayrollPayment] is due to make in
    [w]: those of the payment, when the lookup of the employee is not
    rejected and finds the employee. *)
Definition provider_calls_due (E : Env) (p : Payroll.EmployeePayment)
    (month : Date) (description : string) (w : World) : list Call :=
  if next_calls_run 1 (faults w) then
    match Prisma.employee_with_relations (Payroll.employeeId p) (db w) with
    | Some employee => provider_calls_for E p employee month description w
    | None => []
    end
  else [].


(** The bank row that the endpoint creates for a name and a code. *)
Definition created_bank (E : Env) (w : World) (name code : string) : Bank :=
  {| bank_id := generated_id E (next_id w);
     bank_name := JS.trim name;
     bank_code := JS.trim code;
     bank_createdAt := clock w |}.

(** The tables that the payroll operations never write. *)
Definition reference_tables (w : World)
  : list Employee * list User * list Bank * list Activity :=
  (employees (db w), users (db w), banks (db w), activities (db w)).

(* ===================================================================== *)
(** * [src/app/finance/payroll/new/page.tsx] *)
(* ===================================================================== *)

(** The page that prepares a payroll run.  Its state lives in React
    hooks; what is embedded here are the functions that compute the next
    selection and the payments that are submitted. *)
Module PayrollPage.

(** The [Employee] of the page. *)
Record Employee : Type := {
  id : string;
  name : string;
  staffNo : string;
  position : string;
  department : string;
  email : string;
  salary : JS.number;
  (** The name of the bank, not its key. *)
  bank : string;
  bankAccNo : option string;
  phone : option string;
  paymentStatus : option string
}.

(** [ids.includes(id)]. *)
Definition includes (ids : list string) (id : string) : bool :=
  existsb (String.eqb id) ids.

(** The updater of [toggleEmployeeSelection], lines 78-84. *)
Definition toggleEmployeeSelection (employeeId : string) (prev : list string)
  : list string :=
  if includes prev employeeId
  then filter (fun id => negb (String.eqb id employeeId)) prev
  else prev ++ [employeeId].

(** The test of lines 109-115: the employee has what the payment method
    needs. *)
Definition has_payment_information (paymentMethod : string) (emp : Employee)
  : bool :=
  if String.eqb paymentMethod "mpesa" then
    JS.truthy (phone emp)
    && negb (String.eqb (JS.text (phone emp)) "N/A")
    && (0 <? String.length (JS.trim (JS.text (phone emp))))%nat
  else
    JS.truthy (bankAccNo emp)
    && negb (String.eqb (JS.text (bankAccNo emp)) "N/A")
    && negb (String.eqb (bank emp) "")
    && negb (String.eqb (bank emp) "N/A").

(** Lines 106: the employees that are selected, in the order of the
    table. *)
Definition selectedEmployeeDetails (employees : list Employee)
    (employeeIds : list string) : list Employee :=
  filter (fun emp => includes employeeIds (id emp)) employees.

(** Lines 109-115. *)
Definition validEmployees (paymentMethod : string) (employees : list Employee)
    (employeeIds : list string) : list Employee :=
  filter (has_payment_information paymentMethod)
         (selectedEmployeeDetails employees employeeIds).

(** Lines 130-137: the payment of one employee. *)
Definition payment_of (paymentMethod : string) (emp : Employee)
  : Payroll.EmployeePayment :=
  {| Payroll.employeeId := id emp;
     Payroll.amount := JS.Number (salary emp);
     Payroll.bankId := Some (bank emp);
     Payroll.bankAccNo := bankAccNo emp;
     Payroll.phone := phone emp;
     Payroll.paymentMethod := paymentMethod |}.

(** The [payments] that [processPayroll] builds for the request,
    lines 97-137; none are built for an empty selection or when no
    selected employee has the information that the method needs. *)
Definition submitted_payments (paymentMethod : string)
    (employees : list Employee) (employeeIds : list string)
  : option (list Payroll.EmployeePayment) :=
  match employeeIds with
  | [] => None
  | _ =>
      match validEmployees paymentMethod employees employeeIds with
      | [] => None
      | valid => Some (map (payment_of paymentMethod) valid)
      end
  end.

(** [matchesPaymentMethod] of lines 175-177. *)
Definition matchesPaymentMethod (paymentMethod : string) (emp : Employee)
  : bool :=
  if String.eqb paymentMethod "bank" then
    negb (String.eqb (bank emp) "")
    && negb (String.eqb (bank emp) "N/A")
    && JS.truthy (bankAccNo emp)
    && negb (String.eqb (JS.text (bankAccNo emp)) "N/A")
  else
    JS.truthy (phone emp)
    && negb (String.eqb (JS.text (phone emp)) "N/A")
    && (0 <? String.length (JS.trim (JS.text (phone emp))))%nat.

(** [eligibleEmployees], lines 174-187.  The test of the search box,
    lines 181-186, is a parameter: [matchesSearch emp] tells whether the
    name, the staff number or the e-mail address of [emp] contains the
    query. *)
Definition eligibleEmployees (matchesSearch : Employee -> bool)
    (paymentMethod : string) (employees : list Employee) : list Employee :=
  filter (fun emp => matchesPaymentMethod paymentMethod emp && matchesSearch emp)
         employees.

(** The next selection of [toggleSelectAll], lines 87-93. *)
Definition toggleSelectAll (selectedEmployees : list string)
    (eligibleEmployees : list Employee) : list string :=
  if (List.length selectedEmployees =? List.length eligibleEmployees)%nat
  then []
  else map id eligibleEmployees.

End PayrollPage.

(* ===================================================================== *)
(** * Further vocabulary *)
(* ===================================================================== *)

(** A call that asks a provider for the state of a payment. *)
Definition is_verification (c : Call) : bool :=
  match c with
  | FlwTransactionVerify _ | MpesaVerify _ => true
  | _ => false
  end.

(** A call that asks a provider to move money. *)
Definition is_initiation (c : Call) : bool :=
  match c with
  | FlwTransferInitiate _ | MpesaInitiate _ _ _ => true
  | _ => false
  end.

(** The payouts of [w'] are those of [w], except that the payout under
    [ref] may have taken one of the statuses that a verification
    settles. *)
Definition status_settled (ref : string) (w w' : World) : Prop :=
  payouts (db w') = payouts (db w)
  \/ exists s,
       (s = "SUCCESS" \/ s = "FAILED" \/ s = "PENDING")
       /\ payouts (db w') =
            map (fun x => if String.eqb (po_ref x) ref
                          then Prisma.with_status s x else x)
                (payouts (db w)).

(** A payslip and what a verification may make of it: every column is
    kept, except that [paid] may turn from false to true. *)
Definition paid_may_turn_true (x y : Payslip) : Prop :=
  ps_id y = ps_id x /\ ps_employeeId y = ps_employeeId x
  /\ ps_month y = ps_month x /\ ps_grossSalary y = ps_grossSalary x
  /\ ps_deductions y = ps_deductions x /\ ps_netPay y = ps_netPay x
  /\ ps_payoutRef y = ps_payoutRef x
  /\ (ps_paid x = true -> ps_paid y = true).

Definition payslips_only_paid (w w' : World) : Prop :=
  Forall2 paid_may_turn_true (payslips (db w)) (payslips (db w')).

(** No employee has two payslips in one calendar month. *)
Definition one_payslip_per_month (slips : list Payslip) : Prop :=
  forall i j s t,
    nth_error slips i = Some s -> nth_error slips j = Some t ->
    ps_employeeId s = ps_employeeId t ->
    same_calendar_month (ps_month s) (ps_month t) ->
    i = j.

(** The payslips carry months that the runtime can produce. *)
Definition payslip_months_well_formed (slips : list Payslip) : Prop :=
  forall s, In s slips -> well_formed (ps_month s).

(** The block of [verifyPayrollPayment] that asks the provider of a
    payout, lines 273-295. *)
Definition ask_provider (E : Env) (payout : Payout)
  : Async (string * option (FlwResponse + MpesaVerification)) :=
  if match po_bank payout with
     | Some b => String.eqb b "M-Pesa"
     | None => false
     end
  then Payroll.verify_mpesa E payout
  else Payroll.verify_bank E payout.

(** The tables that the endpoint for banks never writes. *)
Definition tables_beside_banks (w : World)
  : list Employee * list User * list Payslip * list Payout * list Notification :=
  (employees (db w), users (db w), payslips (db w), payouts (db w),
   notifications (db w)).

(** A payout and what a verification may make of it: every column but
    the status is kept. *)
Definition status_may_change (x y : Payout) : Prop :=
  exists s, y = Prisma.with_status s x.

Definition payouts_only_status (w w' : World) : Prop :=
  Forall2 status_may_change (payouts (db w)) (payouts (db w')).

(** The sample with its providers out of reach: no Flutterwave keys are
    configured, and M-Pesa does not answer. *)
Module Outage.

Definition providers : Env :=
  {| FLUTTERWAVE_PUBLIC_KEY := None;
     FLUTTERWAVE_SECRET_KEY := None;
     flutterwave_loads := true;
     Transfer_initiate := fun _ _ => Throw "ECONNREFUSED";
     Transaction_verify := fun _ _ => Throw "ECONNREFUSED";
     daraja_initiate := fun _ _ _ _ => Throw "M-Pesa timeout";
     daraja_verify := fun _ _ => Throw "M-Pesa timeout";
     number_text := number_text Sample.providers;
     month_year_text := month_year_text Sample.providers;
     timestamp_text := timestamp_text Sample.providers;
     generated_id := generated_id Sample.providers |}.

End Outage.

(** The table of payslips is in order: its months are dates of the
    runtime and no employee has two payslips in one calendar month. *)
Definition payslips_in_order (w : World) : Prop :=
  payslip_months_well_formed (payslips (db w))
  /\ one_payslip_per_month (payslips (db w)).

(** Order in the table of payslips is not lost from [w] to [w']. *)
Definition order_kept (w w' : World) : Prop :=
  payslips_in_order w -> payslips_in_order w'.

(** From [w] to [w'] the bank [b] was added, under a code that no bank
    had, and at most the activity that records it. *)
Definition bank_added (b : Bank) (w w' : World) : Prop :=
  banks (db w') = banks (db w) ++ [b]
  /\ (forall k, In k (banks (db w)) -> bank_code k <> bank_code b)
  /\ (activities (db w') = activities (db w)
      \/ exists a,
           activities (db w') = activities (db w) ++ [a]
           /\ ac_action a = "ADD_BANK" /\ ac_bankId a = bank_id b
           /\ ac_bankCode a = bank_code b).

(** A table of the page with two employees: one with an account and a
    phone number, one with neither. *)
Module Roster.

Definition ann : PayrollPage.Employee :=
  {| PayrollPage.id := "emp-1"; PayrollPage.name := "Ann";
     PayrollPage.staffNo := "KAF/001"; PayrollPage.position := "Lecturer";
     PayrollPage.department := "Physics"; PayrollPage.email := "ann@campus.ke";
     PayrollPage.salary := JS.Fin 50000; PayrollPage.bank := "KCB";
     PayrollPage.bankAccNo := Some "0110";
     PayrollPage.phone := Some "+254 712-345 678";
     PayrollPage.paymentStatus := None |}.

Definition ben : PayrollPage.Employee :=
  {| PayrollPage.id := "emp-2"; PayrollPage.name := "Ben";
     PayrollPage.staffNo := "KAF/002"; PayrollPage.position := "Registrar";
     PayrollPage.department := "Administration";
     PayrollPage.email := "ben@campus.ke";
     PayrollPage.salary := JS.Fin 60000; PayrollPage.bank := "N/A";
     PayrollPage.bankAccNo := None; PayrollPage.phone := Some "N/A";
     PayrollPage.paymentStatus := None |}.

Definition table : list PayrollPage.Employee := [ann; ben].

(** An empty search box: every employee matches. *)
Definition any_employee (emp : PayrollPage.Employee) : bool := true.

End Roster.

(** The table of payslips after lines 302-316 have run without a
    rejection: the first payslip that carries the reference is paid. *)
Definition payslip_marked_paid (payoutRef : string) (slips : list Payslip)
  : list Payslip :=
  match find (fun p => match ps_payoutRef p with
                       | Some r => String.eqb r payoutRef
                       | None => false
                       end) slips with
  | Some slip =>
      map (fun x => if String.eqb (ps_id x) (ps_id slip)
                    then Prisma.apply_payslip_data (Some true) None x else x)
          slips
  | None => slips
  end.

(** The status that lines 283-291 read off an answer of the bank
    provider. *)
Definition bank_status (answer : FlwResponse) : string :=
  match fd_status (Payroll.response_data answer) with
  | Some s =>
      if String.eqb s "success" then "SUCCESS"
      else if String.eqb s "failed" then "FAILED"
      else "PENDING"
  | None => "PENDING"
  end.

(** Whether a payout is verified with M-Pesa, line 273. *)
Definition went_through_mpesa (payout : Payout) : bool :=
  match po_bank payout with
  | Some b => String.eqb b "M-Pesa"
  | None => false
  end.

(** The status that the verification of a payout settles, by the calls
    made so far and by whether the Flutterwave client is there: none
    when M-Pesa cannot be asked or answers without a result, and
    'FAILED' for any other payout whose provider cannot be asked. *)
Definition verified_status (E : Env) (history : list Call) (available : bool)
    (payout : Payout) : option string :=
  if went_through_mpesa payout then
    match daraja_verify E history (po_transactionId payout) with
    | Ok v =>
        match Result_ResultCode v with
        | Some code =>
            Some (if JS.strict_eq_zero code then "SUCCESS" else "FAILED")
        | None => None
        end
    | Throw _ => None
    end
  else if available then
    match Transaction_verify E history (po_transactionId payout) with
    | Ok answer => Some (bank_status answer)
    | Throw _ => Some "FAILED"
    end
  else Some "FAILED".

(** A payout with the status that its verification has settled, or as
    it was when none was settled. *)
Definition settled (status : option string) (p : Payout) : Payout :=
  match status with
  | Some s =>
      {| po_ref := po_ref p; po_employeeId := po_employeeId p;
         po_amount := po_amount p; po_status := s; po_type := po_type p;
         po_bank := po_bank p; po_transactionId := po_transactionId p;
         po_createdAt := po_createdAt p |}
  | None => p
  end.

(* ===================================================================== *)
(** * Laws of awaited computations *)
(* ===================================================================== *)

Lemma bind_Ok_inv {A B : Type} (m : Async A) (k : A -> Async B) w b w' :
  bind m k w = (Ok b, w') ->
  exists a w1, m w = (Ok a, w1) /\ k a w1 = (Ok b, w').
Proof.
  unfold bind. destruct (m w) as [[a|e] w1]; intros H.
  - exists a, w1. split; [reflexivity | exact H].
  - discriminate H.
Qed.

Lemma bind_Throw_inv {A B : Type} (m : Async A) (k : A -> Async B) w e w' :
  bind m k w = (Throw e, w') ->
  m w = (Throw e, w')
  \/ exists a w1, m w = (Ok a, w1) /\ k a w1 = (Throw e, w').
Proof.
  unfold bind. destruct (m w) as [[a|e0] w1]; intros H.
  - right. exists a, w1. split; [reflexivity | exact H].
  - left. injection H as -> ->. reflexivity.
Qed.

Lemma bind_Ok {A B : Type} (m : Async A) (k : A -> Async B) w a w1 :
  m w = (Ok a, w1) -> bind m k w = k a w1.
Proof. unfold bind. intros ->. reflexivity. Qed.

Lemma bind_Throw {A B : Type} (m : Async A) (k : A -> Async B) w e w1 :
  m w = (Throw e, w1) -> bind m k w = (Throw e, w1).
Proof. unfold bind. intros ->. reflexivity. Qed.


Lemma try_catch_Throw {A : Type} (m : Async A) h w e w1 :
  m w = (Throw e, w1) -> try_catch m h w = h e w1.
Proof. unfold try_catch. intros ->. reflexivity. Qed.

(** Catching and throwing again changes nothing. *)
Lemma try_catch_rethrow {A : Type} (m : Async A) w :
  try_catch m (fun e => throw e) w = m w.
Proof.
  unfold try_catch, throw. destruct (m w) as [[a|e] w1]; reflexivity.
Qed.

(** ** Computations that never throw *)

Lemma returns_ret {A : Type} (a : A) : returns (ret a).
Proof. intros w. exists a, w. reflexivity. Qed.

Lemma returns_bind {A B : Type} (m : Async A) (k : A -> Async B) :
  returns m -> (forall a, returns (k a)) -> returns (bind m k).
Proof.
  intros Hm Hk w. destruct (Hm w) as (a & w1 & E1).
  destruct (Hk a w1) as (b & w2 & E2).
  exists b, w2. rewrite (bind_Ok _ _ _ _ _ E1). exact E2.
Qed.

(** A [try] whose handler never throws never throws. *)
Lemma returns_try_catch {A : Type} (m : Async A) (h : string -> Async A) :
  (forall e, returns (h e)) -> returns (try_catch m h).
Proof.
  intros Hh w. unfold try_catch.
  destruct (m w) as [[a|e] w1].
  - exists a, w1. reflexivity.
  - apply Hh.
Qed.

(** ** Framing: what a computation leaves alone *)

Section Keeping.

Variable R : World -> World -> Prop.
Hypothesis R_refl : forall w, R w w.
Hypothesis R_trans : forall a b c, R a b -> R b c -> R a c.

Lemma keeps_ret {A : Type} (a : A) : keeps R (ret a).
Proof. intros w. apply R_refl. Qed.

Lemma keeps_throw {A : Type} (e : string) : keeps R (@throw A e).
Proof. intros w. apply R_refl. Qed.

Lemma keeps_bind {A B : Type} (m : Async A) (k : A -> Async B) :
  keeps R m -> (forall a, keeps R (k a)) -> keeps R (bind m k).
Proof.
  intros Hm Hk w. unfold bind.
  specialize (Hm w). destruct (m w) as [[a|e] w1]; simpl in Hm.
  - eapply R_trans; [exact Hm | apply Hk].
  - exact Hm.
Qed.

Lemma keeps_try_catch {A : Type} (m : Async A) (h : string -> Async A) :
  keeps R m -> (forall e, keeps R (h e)) -> keeps R (try_catch m h).
Proof.
  intros Hm Hh w. unfold try_catch.
  specialize (Hm w). destruct (m w) as [[a|e] w1]; simpl in Hm.
  - exact Hm.
  - eapply R_trans; [exact Hm | apply Hh].
Qed.

(** A database call keeps [R] when taking an entry off the fault plan
    does and the call itself does. *)
Lemma keeps_call {A : Type} (run : Async A) :
  (forall f w, R w (set_faults f w)) -> keeps R run -> keeps R (Prisma.call run).
Proof.
  intros Hf Hrun w. unfold Prisma.call.
  destruct (faults w) as [|[e|] rest]; simpl.
  - apply Hrun.
  - apply Hf.
  - eapply R_trans; [apply Hf | apply Hrun].
Qed.

(** The same when the continuation is only known to keep [R] on the
    values that [m] can yield. *)
Lemma keeps_bind_post {A B : Type} (Q : A -> Prop) (m : Async A)
    (k : A -> Async B) :
  (forall w a w1, m w = (Ok a, w1) -> Q a) ->
  keeps R m -> (forall a, Q a -> keeps R (k a)) -> keeps R (bind m k).
Proof.
  intros HQ Hm Hk w. unfold bind.
  specialize (Hm w). specialize (HQ w).
  destruct (m w) as [[a|e] w1]; simpl in Hm.
  - eapply R_trans; [exact Hm | apply Hk, (HQ a w1); reflexivity].
  - exact Hm.
Qed.

Lemma keeps_for_of_in {A B : Type} (xs : list A) (body : A -> Async B) :
  (forall x, In x xs -> keeps R (body x)) -> keeps R (for_of xs body).
Proof.
  induction xs as [|x rest IH]; intros Hbody; simpl.
  - apply keeps_ret.
  - apply keeps_bind.
    + apply Hbody. left. reflexivity.
    + intros _. apply IH. intros y Hy. apply Hbody. right. exact Hy.
Qed.

Lemma keeps_for_of {A B : Type} (xs : list A) (body : A -> Async B) :
  (forall x, keeps R (body x)) -> keeps R (for_of xs body).
Proof. intros Hbody. apply keeps_for_of_in. intros x _. apply Hbody. Qed.

End Keeping.

(** [preserves f] is [keeps] for the relation "same [f]". *)
Lemma preserves_keeps {A X : Type} (f : World -> X) (m : Async A) :
  preserves f m <-> keeps (fun w w' => f w' = f w) m.
Proof. unfold preserves, keeps. tauto. Qed.

Section Preserving.

Context {X : Type} (f : World -> X).

Lemma same_refl : forall w : World, f w = f w.
Proof. intros w. reflexivity. Qed.

Lemma same_trans : forall a b c : World, f b = f a -> f c = f b -> f c = f a.
Proof. intros a b c H1 H2. congruence. Qed.

Lemma preserves_ret {A : Type} (a : A) : preserves f (ret a).
Proof. apply preserves_keeps, keeps_ret, same_refl. Qed.

Lemma preserves_throw {A : Type} (e : string) : preserves f (@throw A e).
Proof. apply preserves_keeps, keeps_throw, same_refl. Qed.

Lemma preserves_bind {A B : Type} (m : Async A) (k : A -> Async B) :
  preserves f m -> (forall a, preserves f (k a)) -> preserves f (bind m k).
Proof.
  intros Hm Hk. apply preserves_keeps. apply keeps_bind.
  - apply same_trans.
  - apply preserves_keeps, Hm.
  - intros a. apply preserves_keeps, Hk.
Qed.

Lemma preserves_try_catch {A : Type} (m : Async A) (h : string -> Async A) :
  preserves f m -> (forall e, preserves f (h e)) -> preserves f (try_catch m h).
Proof.
  intros Hm Hh. apply preserves_keeps. apply keeps_try_catch.
  - apply same_trans.
  - apply preserves_keeps, Hm.
  - intros e. apply preserves_keeps, Hh.
Qed.

Lemma preserves_call {A : Type} (run : Async A) :
  (forall p w, f (set_faults p w) = f w) ->
  preserves f run -> preserves f (Prisma.call run).
Proof.
  intros Hf Hrun. apply preserves_keeps. apply keeps_call.
  - apply same_trans.
  - intros p w. apply Hf.
  - apply preserves_keeps, Hrun.
Qed.

Lemma preserves_read {A : Type} (q : Database -> A) :
  (forall p w, f (set_faults p w) = f w) -> preserves f (Prisma.read q).
Proof.
  intros Hf. apply preserves_call; [exact Hf | intros w; reflexivity].
Qed.

Lemma preserves_for_of {A B : Type} (xs : list A) (body : A -> Async B) :
  (forall x, preserves f (body x)) -> preserves f (for_of xs body).
Proof.
  intros Hbody. apply preserves_keeps. apply keeps_for_of.
  - apply same_refl.
  - apply same_trans.
  - intros x. apply preserves_keeps, Hbody.
Qed.

End Preserving.

(* ===================================================================== *)
(** * The database client *)
(* ===================================================================== *)

Lemma same_but_plan_refl w : same_but_plan w w.
Proof. repeat split. Qed.

Lemma same_but_plan_set_faults p w : same_but_plan w (set_faults p w).
Proof. repeat split. Qed.

Lemma same_but_plan_trans a b c :
  same_but_plan a b -> same_but_plan b c -> same_but_plan a c.
Proof.
  unfold same_but_plan. intros H1 H2.
  decompose [and] H1. decompose [and] H2. repeat split; congruence.
Qed.

(** A database call either meets a planned rejection, or runs in a world
    that differs from the current one in the plan only. *)
Lemma call_inv {A : Type} (run : Async A) w r w' :
  Prisma.call run w = (r, w') ->
  (exists e, r = Throw e /\ same_but_plan w w' /\ next_calls_run 1 (faults w) = false)
  \/ (exists w0, same_but_plan w w0 /\ run w0 = (r, w')).
Proof.
  unfold Prisma.call. destruct (faults w) as [|[e|] rest] eqn:Hf; intros H.
  - right. exists w. split; [apply same_but_plan_refl | exact H].
  - left. exists e. injection H as <- <-.
    repeat split.
  - right. exists (set_faults rest w).
    split; [apply same_but_plan_set_faults | exact H].
Qed.

(** With nothing planned against it, a database call just runs. *)
Lemma call_runs {A : Type} (run : Async A) w :
  next_calls_run 1 (faults w) = true ->
  exists w0, same_but_plan w w0 /\ faults w0 = tl (faults w)
             /\ Prisma.call run w = run w0.
Proof.
  unfold Prisma.call. destruct (faults w) as [|[e|] rest] eqn:Hf; simpl; intros H.
  - exists w. repeat split. exact Hf.
  - discriminate H.
  - exists (set_faults rest w). repeat split.
Qed.

(** In a world without a fault plan, a database call just runs. *)
Lemma call_calm {A : Type} (run : Async A) w :
  faults w = [] -> Prisma.call run w = run w.
Proof. intros Hf. unfold Prisma.call. rewrite Hf. reflexivity. Qed.

Lemma read_inv {A : Type} (q : Database -> A) w r w' :
  Prisma.read q w = (r, w') ->
  same_but_plan w w' /\ (r = Ok (q (db w)) \/ exists e, r = Throw e).
Proof.
  unfold Prisma.read. intros H. apply call_inv in H.
  destruct H as [(e & -> & Hs & _) | (w0 & Hs & H)].
  - split; [exact Hs | right; exists e; reflexivity].
  - injection H as <- <-. split; [exact Hs | left].
    destruct Hs as (-> & _). reflexivity.
Qed.

(** A read yields the query on the tables, unless it is rejected. *)
Lemma read_spec {A : Type} (q : Database -> A) w r w' :
  Prisma.read q w = (r, w') ->
  same_but_plan w w'
  /\ if next_calls_run 1 (faults w) then r = Ok (q (db w))
     else exists e, r = Throw e.
Proof.
  unfold Prisma.read, Prisma.call.
  destruct (faults w) as [|[e|] rest]; simpl; intros H; injection H as <- <-.
  - split; [apply same_but_plan_refl | reflexivity].
  - split; [apply same_but_plan_set_faults | exists e; reflexivity].
  - split; [apply same_but_plan_set_faults | reflexivity].
Qed.

Lemma read_Ok_inv {A : Type} (q : Database -> A) w a w' :
  Prisma.read q w = (Ok a, w') -> same_but_plan w w' /\ a = q (db w).
Proof.
  intros H. apply read_inv in H. destruct H as (Hs & [H | (e & H)]).
  - injection H as ->. split; [exact Hs | reflexivity].
  - discriminate H.
Qed.

(** ** What the calls leave alone *)

(** A tactic for goals [preserves f m]: it follows the shape of [m]. *)
Ltac frame :=
  repeat (intros;
    match goal with
    | |- preserves _ (bind _ _) => apply preserves_bind
    | |- preserves _ (try_catch _ _) => apply preserves_try_catch
    | |- preserves _ (ret _) => apply preserves_ret
    | |- preserves _ (throw _) => apply preserves_throw
    | |- preserves _ (for_of _ _) => apply preserves_for_of
    | |- preserves _ (Prisma.read _) => apply preserves_read; reflexivity
    | |- preserves _ (Prisma.write _) => unfold Prisma.write
    | |- preserves _ Date_now => unfold Date_now
    | |- preserves _ (Prisma.call _) =>
        apply preserves_call; [reflexivity | ]
    | |- preserves _ (match ?x with _ => _ end) => destruct x
    | |- preserves _ (fun w => _) =>
        let w := fresh "w" in
        intros w; cbv beta;
        repeat match goal with
               | |- context [if ?c then _ else _] => destruct c
               end;
        reflexivity
    end).



(* ===================================================================== *)
(** * What each block of the payroll code leaves alone *)
(* ===================================================================== *)

Section PayrollFrames.

Variable E : Env.

(** The persistence blocks and the notifications make no provider call. *)
Lemma record_payslip_calls p month ref :
  preserves calls (Payroll.record_payslip E p month ref).
Proof.
  unfold Payroll.record_payslip, Prisma.payslip_findFirst_month,
    Prisma.employee_findUnique, Prisma.payslip_update, Prisma.payslip_create.
  frame.
Qed.

Lemma record_payout_calls p employee tx ref :
  preserves calls (Payroll.record_payout E p employee tx ref).
Proof.
  unfold Payroll.record_payout, Payroll.payout_reference, Prisma.payout_create.
  frame.
Qed.

Lemma notify_employee_calls employee month :
  preserves calls (Payroll.notify_employee E employee month).
Proof.
  unfold Payroll.notify_employee, Prisma.notification_create. frame.
Qed.

Lemma notify_admin_calls p message :
  preserves calls (Payroll.notify_admin p message).
Proof.
  unfold Payroll.notify_admin, Prisma.user_findFirst_role,
    Prisma.notification_create. frame.
Qed.

(** The notifications touch neither payouts nor payslips. *)
Lemma notify_employee_payouts employee month :
  preserves (fun w => payouts (db w)) (Payroll.notify_employee E employee month).
Proof.
  unfold Payroll.notify_employee, Prisma.notification_create. frame.
Qed.

Lemma notify_employee_payslips employee month :
  preserves (fun w => payslips (db w)) (Payroll.notify_employee E employee month).
Proof.
  unfold Payroll.notify_employee, Prisma.notification_create. frame.
Qed.

Lemma notify_admin_payouts p message :
  preserves (fun w => payouts (db w)) (Payroll.notify_admin p message).
Proof.
  unfold Payroll.notify_admin, Prisma.user_findFirst_role,
    Prisma.notification_create. frame.
Qed.

Lemma notify_admin_payslips p message :
  preserves (fun w => payslips (db w)) (Payroll.notify_admin p message).
Proof.
  unfold Payroll.notify_admin, Prisma.user_findFirst_role,
    Prisma.notification_create. frame.
Qed.


Lemma notify_admin_returns p message :
  returns (Payroll.notify_admin p message).
Proof.
  unfold Payroll.notify_admin. apply returns_try_catch.
  intros e. apply returns_ret.
Qed.

(** The provider calls leave the database, the clock, the key counter
    and the fault plan alone. *)
Lemma processBankTransfer_frame {X : Type} (f : World -> X) a acc bank narr ben :
  (forall c w, f (log_call c w) = f w) ->
  (forall i j w, f (set_flutterwave i j w) = f w) ->
  preserves f (Flutterwave.processBankTransfer E a acc bank narr ben).
Proof.
  intros Hlog Hflw.
  unfold Flutterwave.processBankTransfer, Flutterwave.initializeFlutterwave,
    Flutterwave.Transfer_initiate_call.
  apply preserves_try_catch; [ | intros; apply preserves_throw].
  apply preserves_bind.
  - intros w. destruct (initialized w); [reflexivity | ].
    destruct (JS.truthy (FLUTTERWAVE_PUBLIC_KEY E)
              && JS.truthy (FLUTTERWAVE_SECRET_KEY E)); [ | reflexivity].
    destruct (flutterwave_loads E); [ | reflexivity].
    simpl. apply Hflw.
  - intros inst. destruct (negb inst); [apply preserves_throw | ].
    destruct (negb (JS.typeof_number a) || JS.le_zero a);
      [apply preserves_throw | ].
    cbv zeta. destruct (JS.le_zero (JS.Math_round a)); [apply preserves_throw | ].
    intros w. simpl. apply Hlog.
Qed.

Lemma pay_frame {X : Type} (f : World -> X) p employee month d :
  (forall c w, f (log_call c w) = f w) ->
  (forall i j w, f (set_flutterwave i j w) = f w) ->
  preserves f (Payroll.pay E p employee month d).
Proof.
  intros Hlog Hflw. unfold Payroll.pay.
  destruct (String.eqb (Payroll.paymentMethod p) "bank").
  - unfold Payroll.pay_by_bank.
    destruct (negb (JS.truthy (Payroll.bankAccNo p))); [apply preserves_throw | ].
    cbv zeta.
    match goal with
    | |- context [negb (JS.truthy ?c)] => destruct (negb (JS.truthy c))
    end; [apply preserves_throw | ].
    match goal with
    | |- context [if ?c then _ else _] => destruct c
    end; [apply preserves_throw | ].
    apply preserves_bind.
    + apply processBankTransfer_frame; assumption.
    + intros r. apply preserves_ret.
  - destruct (String.eqb (Payroll.paymentMethod p) "mpesa").
    + unfold Payroll.pay_by_mpesa.
      destruct (negb (JS.truthy (Payroll.phone p))); [apply preserves_throw | ].
      apply preserves_bind.
      * intros w. simpl. apply Hlog.
      * intros r. apply preserves_ret.
    + apply preserves_throw.
Qed.

Lemma pay_db p employee month d :
  preserves db (Payroll.pay E p employee month d).
Proof. apply pay_frame; reflexivity. Qed.

Lemma pay_clock p employee month d :
  preserves clock (Payroll.pay E p employee month d).
Proof. apply pay_frame; reflexivity. Qed.


End PayrollFrames.

(* ===================================================================== *)
(** * The phases of [processPayrollPayment] *)
(* ===================================================================== *)

Section Phases.

Variable E : Env.

(** The [catch] block always comes back with the failure result. *)
Lemma processPayrollPayment_unfold p month d w :
  Payroll.processPayrollPayment E p month d w =
  match Payroll.processPayrollPayment_try E p month d w with
  | (Ok r, w1) => (Ok r, w1)
  | (Throw e, w1) => (Ok (failed_with e), snd (Payroll.notify_admin p e w1))
  end.
Proof.
  unfold Payroll.processPayrollPayment, try_catch at 1.
  destruct (Payroll.processPayrollPayment_try E p month d w) as [[r|e] w1];
    [reflexivity | ].
  destruct (notify_admin_returns p e w1) as ([] & w2 & Hn).
  unfold bind. rewrite Hn. reflexivity.
Qed.

(** A run of the [try] block that reaches its end went through all of
    its phases. *)
Lemma processPayrollPayment_try_Ok_inv p month d w r w' :
  Payroll.processPayrollPayment_try E p month d w = (Ok r, w') ->
  exists employee w0 ids w1 w2 w3,
    Prisma.employee_findUnique_include (Payroll.employeeId p) w
      = (Ok (Some employee), w0)
    /\ Payroll.pay E p employee month d w0 = (Ok ids, w1)
    /\ Payroll.record_payslip E p month (snd ids) w1 = (Ok tt, w2)
    /\ Payroll.record_payout E p employee (fst ids) (snd ids) w2 = (Ok tt, w3)
    /\ Payroll.notify_employee E employee month w3 = (Ok tt, w')
    /\ r = {| Payroll.success := true; Payroll.transactionId := fst ids;
              Payroll.error := None; Payroll.payoutRef := snd ids |}.
Proof.
  unfold Payroll.processPayrollPayment_try. intros H.
  apply bind_Ok_inv in H. destruct H as ([employee|] & w0 & H0 & H);
    [ | discriminate H].
  apply bind_Ok_inv in H. destruct H as (ids & w1 & H1 & H).
  cbv zeta in H.
  apply bind_Ok_inv in H. destruct H as ([] & w2 & H2 & H).
  apply bind_Ok_inv in H. destruct H as ([] & w3 & H3 & H).
  apply bind_Ok_inv in H. destruct H as ([] & w4 & H4 & H).
  injection H as <- <-.
  exists employee, w0, ids, w1, w2, w3. repeat split; assumption.
Qed.


(** ** The payslip phase *)

Lemma record_payslip_payouts p month ref :
  preserves (fun w => payouts (db w)) (Payroll.record_payslip E p month ref).
Proof.
  unfold Payroll.record_payslip, Prisma.payslip_findFirst_month,
    Prisma.employee_findUnique, Prisma.payslip_update, Prisma.payslip_create.
  frame.
Qed.

Lemma record_payslip_clock p month ref :
  preserves clock (Payroll.record_payslip E p month ref).
Proof.
  unfold Payroll.record_payslip, Prisma.payslip_findFirst_month,
    Prisma.employee_findUnique, Prisma.payslip_update, Prisma.payslip_create.
  frame.
Qed.

Lemma record_payslip_ticks p month ref :
  preserves ticks (Payroll.record_payslip E p month ref).
Proof.
  unfold Payroll.record_payslip, Prisma.payslip_findFirst_month,
    Prisma.employee_findUnique, Prisma.payslip_update, Prisma.payslip_create.
  frame.
Qed.

Lemma payslip_update_throws_clean id paid ref :
  throws_clean (Prisma.payslip_update id paid ref).
Proof.
  intros w e w' H. unfold Prisma.payslip_update in H.
  apply call_inv in H. destruct H as [(e0 & _ & Hs & _) | (w0 & Hs & H)].
  - apply Hs.
  - destruct (existsb _ _) in H; [discriminate H | ].
    injection H as _ <-. apply Hs.
Qed.

Lemma payslip_create_throws_clean emp m g dd n paid ref :
  throws_clean (Prisma.payslip_create E emp m g dd n paid ref).
Proof.
  intros w e w' H. unfold Prisma.payslip_create in H.
  apply call_inv in H. destruct H as [(e0 & _ & Hs & _) | (w0 & Hs & H)].
  - apply Hs.
  - discriminate H.
Qed.

Lemma record_payslip_throws_clean p month ref :
  throws_clean (Payroll.record_payslip E p month ref).
Proof.
  intros w e w' H. unfold Payroll.record_payslip in H.
  apply bind_Throw_inv in H. destruct H as [H | (slip & w0 & H0 & H)].
  - apply read_inv in H. apply H.
  - apply read_inv in H0. destruct H0 as ((Hdb & _) & _).
    rewrite <- Hdb. destruct slip as [slip|].
    + eapply payslip_update_throws_clean; eassumption.
    + apply bind_Throw_inv in H. destruct H as [H | (details & w1 & H1 & H)].
      * apply read_inv in H. apply H.
      * apply read_inv in H1. destruct H1 as ((Hdb1 & _) & _).
        rewrite <- Hdb1. destruct details as [details|].
        -- eapply payslip_create_throws_clean; eassumption.
        -- discriminate H.
Qed.

(** What the payslip phase writes when it succeeds. *)
Lemma record_payslip_Ok p month ref w w' :
  Payroll.record_payslip E p month ref w = (Ok tt, w') ->
  payslips (db w') =
    match payslip_of_month (Payroll.employeeId p) month (payslips (db w)) with
    | Some slip =>
        map (fun x => if String.eqb (ps_id x) (ps_id slip)
                      then Prisma.apply_payslip_data (Some true) ref x else x)
            (payslips (db w))
    | None =>
        match find (fun e => String.eqb (emp_id e) (Payroll.employeeId p))
                   (employees (db w)) with
        | Some details =>
            payslips (db w) ++
            [{| ps_id := generated_id E (next_id w);
                ps_employeeId := Payroll.employeeId p;
                ps_month := new_Date (getFullYear month) (getMonth month);
                ps_grossSalary := emp_salary details;
                ps_deductions := JS.sub (emp_salary details) (Payroll.amount p);
                ps_netPay := Payroll.amount p;
                ps_paid := true;
                ps_payoutRef := ref |}]
        | None => payslips (db w)
        end
    end.
Proof.
  unfold Payroll.record_payslip, payslip_of_month. intros H.
  apply bind_Ok_inv in H. destruct H as (slip & w0 & H0 & H).
  apply read_Ok_inv in H0. destruct H0 as (Hs0 & ->).
  destruct Hs0 as (Hdb0 & _ & _ & Hid0 & _).
  destruct (find _ (payslips (db w))) as [slip|].
  - unfold Prisma.payslip_update in H. apply call_inv in H.
    destruct H as [(e & He & _) | (w1 & Hs1 & H)]; [discriminate He | ].
    destruct Hs1 as (Hdb1 & _).
    destruct (existsb _ _) in H; [ | discriminate H].
    injection H as <-. simpl. rewrite Hdb1, Hdb0. reflexivity.
  - apply bind_Ok_inv in H. destruct H as (details & w1 & H1 & H).
    apply read_Ok_inv in H1. destruct H1 as (Hs1 & ->).
    destruct Hs1 as (Hdb1 & _ & _ & Hid1 & _).
    rewrite Hdb0 in *.
    destruct (find _ (employees (db w))) as [details|].
    + unfold Prisma.payslip_create in H. apply call_inv in H.
      destruct H as [(e & He & _) | (w2 & Hs2 & H)]; [discriminate He | ].
      destruct Hs2 as (Hdb2 & _ & _ & Hid2 & _).
      injection H as <-. simpl. rewrite Hdb2, Hdb1, Hid2, Hid1, Hid0.
      reflexivity.
    + injection H as <-. rewrite Hdb1. reflexivity.
Qed.

(** ** The payout phase *)

Lemma record_payout_payslips p employee tx ref :
  preserves (fun w => payslips (db w)) (Payroll.record_payout E p employee tx ref).
Proof.
  unfold Payroll.record_payout, Payroll.payout_reference, Prisma.payout_create.
  frame.
Qed.

(** The reference of the payout: the time is read only when the
    provider gave none. *)
Lemma payout_reference_runs ref w :
  Payroll.payout_reference E ref w =
  (Ok (if JS.truthy ref then JS.text ref
       else ("PAYOUT_" ++ timestamp_text E (clock w))%string),
   if JS.truthy ref then w else advance w).
Proof.
  unfold Payroll.payout_reference. destruct (JS.truthy ref); reflexivity.
Qed.


(** What the payout phase writes when it succeeds: one row, under the
    reference of the provider, or under [PAYOUT_] and the time when the
    provider gave none; the row is stamped with the reading of the time
    that follows. *)
Lemma record_payout_Ok p employee tx ref w w' :
  Payroll.record_payout E p employee tx ref w = (Ok tt, w') ->
  payouts (db w') =
    payouts (db w) ++
    [{| po_ref := if JS.truthy ref then JS.text ref
                  else ("PAYOUT_" ++ timestamp_text E (clock w))%string;
        po_employeeId := Payroll.employeeId p;
        po_amount := Payroll.amount p;
        po_status := "PROCESSING";
        po_type := "SALARY";
        po_bank := if String.eqb (Payroll.paymentMethod p) "bank"
                   then JS.or_else (Payroll.bankId p)
                          (option_map bank_name (employee_bank employee))
                   else Some "M-Pesa";
        po_transactionId := tx;
        po_createdAt := if JS.truthy ref then clock w else next_instant w |}].
Proof.
  unfold Payroll.record_payout. intros H.
  rewrite (bind_Ok _ _ _ _ _ (payout_reference_runs ref w)) in H.
  unfold Prisma.payout_create in H.
  apply call_inv in H. destruct H as [(e & He & _) | (w0 & Hs & H)];
    [discriminate He | ].
  destruct Hs as (Hdb & _ & Hclock & _).
  destruct (existsb _ _) in H; [discriminate H | ].
  injection H as <-. simpl. rewrite Hdb, Hclock.
  destruct (JS.truthy ref); reflexivity.
Qed.



End Phases.

(* ===================================================================== *)
(** * The provider calls *)
(* ===================================================================== *)

Section ProviderCalls.

Variable E : Env.

Lemma initializeFlutterwave_spec w :
  exists w0,
    Flutterwave.initializeFlutterwave E w = (Ok (flutterwave_available E w), w0)
    /\ calls w0 = calls w.
Proof.
  unfold Flutterwave.initializeFlutterwave, flutterwave_available.
  destruct (initialized w); [exists w; split; reflexivity | ].
  destruct (JS.truthy (FLUTTERWAVE_PUBLIC_KEY E)
            && JS.truthy (FLUTTERWAVE_SECRET_KEY E));
    [ | exists w; split; reflexivity].
  destruct (flutterwave_loads E); [ | exists w; split; reflexivity].
  exists (set_flutterwave true true w). split; reflexivity.
Qed.

(** [processBankTransfer] reaches the provider exactly when the client
    is there and neither the amount nor its rounding is [<= 0]; the
    payload then carries the rounded amount.  Otherwise it throws and
    the provider is not called. *)
Lemma processBankTransfer_spec a acc bank narr ben w :
  let run := Flutterwave.processBankTransfer E a acc bank narr ben w in
  let payload :=
    {| account_number := acc; amount := JS.Math_round a; account_bank := bank;
       narration := narr; currency := "KES"; beneficiary_name := ben |} in
  if flutterwave_available E w && negb (JS.le_zero a)
     && negb (JS.le_zero (JS.Math_round a))
  then fst run = Transfer_initiate E (calls w) payload
       /\ calls (snd run) = calls w ++ [FlwTransferInitiate payload]
  else (exists e, fst run = Throw e) /\ calls (snd run) = calls w.
Proof.
  cbv zeta. unfold Flutterwave.processBankTransfer.
  rewrite try_catch_rethrow.
  destruct (initializeFlutterwave_spec w) as (w0 & Hi & Hc).
  rewrite (bind_Ok _ _ _ _ _ Hi).
  destruct (flutterwave_available E w); simpl.
  - destruct (JS.le_zero a); simpl.
    + split; [eexists; reflexivity | exact Hc].
    + destruct (JS.le_zero (JS.Math_round a)); simpl.
      * split; [eexists; reflexivity | exact Hc].
      * unfold Flutterwave.Transfer_initiate_call. simpl.
        rewrite Hc. split; reflexivity.
  - split; [eexists; reflexivity | exact Hc].
Qed.

(** The payment block makes the calls of [provider_calls_for] and no
    other; without a call it throws. *)
Lemma pay_calls p employee month d w :
  let run := Payroll.pay E p employee month d w in
  calls (snd run) = calls w ++ provider_calls_for E p employee month d w
  /\ (provider_calls_for E p employee month d w = [] -> exists e, fst run = Throw e).
Proof.
  cbv zeta. unfold Payroll.pay, provider_calls_for.
  destruct (String.eqb (Payroll.paymentMethod p) "bank").
  - unfold Payroll.pay_by_bank. fold (bank_code_for p employee).
    fold (beneficiary_for employee).
    destruct (JS.truthy (Payroll.bankAccNo p)); simpl;
      [ | split; [symmetry; apply app_nil_r | eexists; reflexivity]].
    destruct (JS.truthy (bank_code_for p employee)); simpl;
      [ | split; [symmetry; apply app_nil_r | eexists; reflexivity]].
    destruct (JS.le_zero (Payroll.amount p)) eqn:Hle; simpl;
      [split; [symmetry; apply app_nil_r | eexists; reflexivity] | ].
    pose proof (processBankTransfer_spec (Payroll.amount p)
                  (JS.text (Payroll.bankAccNo p))
                  (JS.text (bank_code_for p employee))
                  (Payroll.payment_narration E d month)
                  (beneficiary_for employee) w) as Hspec.
    cbv zeta in Hspec. rewrite Hle in Hspec. simpl in Hspec.
    rewrite andb_true_r in Hspec.
    unfold bind.
    destruct (Flutterwave.processBankTransfer E (Payroll.amount p)
                (JS.text (Payroll.bankAccNo p))
                (JS.text (bank_code_for p employee))
                (Payroll.payment_narration E d month)
                (beneficiary_for employee) w) as [[response|e] w1].
    + simpl in *.
      destruct (flutterwave_available E w
                && negb (JS.le_zero (JS.Math_round (Payroll.amount p)))).
      * split; [apply Hspec | discriminate].
      * destruct Hspec as ((e & He) & _). discriminate He.
    + simpl in *.
      destruct (flutterwave_available E w
                && negb (JS.le_zero (JS.Math_round (Payroll.amount p)))).
      * split; [apply Hspec | discriminate].
      * split; [rewrite app_nil_r; apply Hspec | eexists; reflexivity].
  - destruct (String.eqb (Payroll.paymentMethod p) "mpesa").
    + unfold Payroll.pay_by_mpesa.
      destruct (JS.truthy (Payroll.phone p)); simpl.
      * unfold bind, Payroll.initiateMpesaPayment.
        destruct (daraja_initiate E (calls w) (Payroll.amount p)
                    (Payroll.cleanPhone (JS.text (Payroll.phone p)))
                    (Payroll.payment_narration E d month)) as [response|e];
          simpl; (split; [reflexivity | discriminate]).
      * split; [symmetry; apply app_nil_r | eexists; reflexivity].
    + simpl. split; [symmetry; apply app_nil_r | eexists; reflexivity].
Qed.

Lemma provider_calls_for_same p employee month d w w0 :
  same_but_plan w w0 ->
  provider_calls_for E p employee month d w0
  = provider_calls_for E p employee month d w.
Proof.
  intros (_ & _ & _ & _ & Hi & Hf & _).
  unfold provider_calls_for, flutterwave_available. rewrite Hi, Hf. reflexivity.
Qed.

(** What follows the payment makes no provider call. *)
Lemma after_pay_calls p employee month (ids : option string * option string) :
  preserves calls
    (Payroll.record_payslip E p month (snd ids) ;;;
     Payroll.record_payout E p employee (fst ids) (snd ids) ;;;
     Payroll.notify_employee E employee month ;;;
     ret {| Payroll.success := true; Payroll.transactionId := fst ids;
            Payroll.error := None; Payroll.payoutRef := snd ids |}).
Proof.
  apply preserves_bind; [apply record_payslip_calls | intros _].
  apply preserves_bind; [apply record_payout_calls | intros _].
  apply preserves_bind; [apply notify_employee_calls | intros _].
  apply preserves_ret.
Qed.

(** The calls of a whole run of [processPayrollPayment]. *)
Lemma processPayrollPayment_calls p month d w :
  let run := Payroll.processPayrollPayment E p month d w in
  exists r, fst run = Ok r
    /\ calls (snd run) = calls w ++ provider_calls_due E p month d w
    /\ (provider_calls_due E p month d w = [] -> Payroll.success r = false).
Proof.
  cbv zeta. rewrite processPayrollPayment_unfold.
  unfold Payroll.processPayrollPayment_try, provider_calls_due.
  destruct (Prisma.employee_findUnique_include (Payroll.employeeId p) w)
    as [r0 w0] eqn:H0.
  pose proof H0 as Hspec. apply read_spec in Hspec. destruct Hspec as (Hs & Hr).
  pose proof Hs as (_ & Hc0 & _).
  destruct (next_calls_run 1 (faults w)).
  - subst r0. rewrite (bind_Ok _ _ _ _ _ H0).
    destruct (Prisma.employee_with_relations (Payroll.employeeId p) (db w))
      as [employee|].
    + destruct (pay_calls p employee month d w0) as (Hcalls & Hnone).
      rewrite (provider_calls_for_same _ _ _ _ _ _ Hs) in Hcalls, Hnone.
      destruct (Payroll.pay E p employee month d w0) as [[ids|e] w1] eqn:Hp.
      * rewrite (bind_Ok _ _ _ _ _ Hp). cbv zeta.
        pose proof (after_pay_calls p employee month ids w1) as Hafter.
        simpl in Hcalls.
        match goal with
        | |- context [match ?m w1 with _ => _ end] =>
            change (calls (snd (m w1)) = calls w1) in Hafter;
            destruct (m w1) as [[r|e] w2]
        end; simpl in *.
        -- exists r. split; [reflexivity | ]. split; [congruence | ].
           intros Hnil. destruct (Hnone Hnil) as (e & He). discriminate He.
        -- exists (failed_with e). split; [reflexivity | ].
           rewrite notify_admin_calls. split; [congruence | reflexivity].
      * rewrite (bind_Throw _ _ _ _ _ Hp). simpl.
        exists (failed_with e). split; [reflexivity | ].
        rewrite notify_admin_calls. simpl in Hcalls.
        split; [congruence | reflexivity].
    + simpl. exists (failed_with ("Employee with ID " ++ Payroll.employeeId p
                                   ++ " not found")).
      split; [reflexivity | ].
      rewrite notify_admin_calls, app_nil_r. split; [congruence | reflexivity].
  - destruct Hr as (e & ->). rewrite (bind_Throw _ _ _ _ _ H0). simpl.
    exists (failed_with e). split; [reflexivity | ].
    rewrite notify_admin_calls, app_nil_r. split; [congruence | reflexivity].
Qed.

End ProviderCalls.

(* ===================================================================== *)
(** * Concrete runs *)
(* ===================================================================== *)

(** [Math.round] rounds halves upwards, also below zero. *)
Example Math_round_halves :
  JS.Math_round (JS.Fin (5 # 2)) = JS.Fin 3
  /\ JS.Math_round (JS.Fin (- 5 # 2)) = JS.Fin (-2)
  /\ JS.Math_round (JS.Fin (1 # 4)) = JS.Fin 0.
Proof. vm_compute. repeat split. Qed.

(** The month after December is January of the next year. *)
Example december_rolls_over :
  new_Date (getFullYear Sample.december_2024) (getMonth Sample.december_2024 + 1)
  = {| year := 2025; month := 0; ms := 0 |}.
Proof. reflexivity. Qed.

(** A bank payment of the sample goes through: the account, the code
    of the employee's bank and the rounded amount reach Flutterwave. *)
Example bank_payment_goes_through :
  let run := Payroll.processPayrollPayment Sample.providers Sample.bank_payment
               Sample.june_2024 "Salary" Sample.calm in
  fst run = Ok {| Payroll.success := true; Payroll.transactionId := Some "8";
                  Payroll.error := None; Payroll.payoutRef := Some "REF-8" |}
  /\ calls (snd run) =
       [FlwTransferInitiate
          {| account_number := "0110"; amount := JS.Fin 42000;
             account_bank := "01"; narration := "Salary for June 2024";
             currency := "KES"; beneficiary_name := "Ann" |}].
Proof. vm_compute. split; reflexivity. Qed.

(** A lecturer is not let in. *)
Example lecturer_is_answered_401 :
  fst (BanksRoute.POST Sample.providers
         (Sample.add_bank (Some Sample.lecturer) (JS.VStr "Equity") (JS.VStr "68"))
         Sample.calm)
  = Ok {| BanksRoute.status := 401;
          BanksRoute.body := BanksRoute.ErrorBody "Unauthorized" |}.
Proof. reflexivity. Qed.

(* ===================================================================== *)
(** * Choice of the payment provider *)
(* ===================================================================== *)

(** C2, as stated, fails: a 'bank' payment that lacks the account number
    reaches no provider at all.  The bank-transfer aggregator is not
    called although [paymentMethod] is 'bank'. *)
Lemma bank_payment_without_account_calls_no_provider :
  let run := Payroll.processPayrollPayment Sample.providers
               Sample.incomplete_payment Sample.june_2024 "Salary" Sample.calm in
  Payroll.paymentMethod Sample.incomplete_payment = "bank"
  /\ calls (snd run) = calls Sample.calm
  /\ fst run = Ok (failed_with "Bank account number required for bank transfer").
Proof. vm_compute. repeat split. Qed.

(** C2, amended: a run of [processPayrollPayment] returns and makes at
    most one provider call, namely the calls of [provider_calls_due]: a
    Flutterwave transfer only for 'bank', an M-Pesa request only for
    'mpesa'; a run without provider call returns a failure, and so does
    every run with another payment method. *)
Theorem processPayrollPayment_calls_one_provider :
  forall (E : Env) (p : Payroll.EmployeePayment) (month : Date)
         (description : string) (w : World),
    let run := Payroll.processPayrollPayment E p month description w in
    exists r,
      fst run = Ok r
      /\ calls (snd run) = calls w ++ provider_calls_due E p month description w
      /\ match provider_calls_due E p month description w with
         | [] => Payroll.success r = false
         | [FlwTransferInitiate _] => Payroll.paymentMethod p = "bank"
         | [MpesaInitiate _ _ _] => Payroll.paymentMethod p = "mpesa"
         | _ => False
         end
      /\ (if String.eqb (Payroll.paymentMethod p) "bank"
             || String.eqb (Payroll.paymentMethod p) "mpesa"
          then True
          else calls (snd run) = calls w /\ Payroll.success r = false).
Proof.
  intros E p month description w. cbv zeta.
  destruct (processPayrollPayment_calls E p month description w)
    as (r & Hr & Hcalls & Hnone).
  exists r. split; [exact Hr | ]. split; [exact Hcalls | ].
  assert (Hother : String.eqb (Payroll.paymentMethod p) "bank"
                   || String.eqb (Payroll.paymentMethod p) "mpesa" = false ->
                   provider_calls_due E p month description w = []).
  { intros H. apply orb_false_iff in H. destruct H as (Hb & Hm).
    unfold provider_calls_due, provider_calls_for. rewrite Hb, Hm.
    destruct (next_calls_run 1 (faults w)); [ | reflexivity].
    destruct (Prisma.employee_with_relations _ _); reflexivity. }
  split.
  - unfold provider_calls_due in *.
    destruct (next_calls_run 1 (faults w)); [ | apply Hnone; reflexivity].
    destruct (Prisma.employee_with_relations (Payroll.employeeId p) (db w))
      as [employee|]; [ | apply Hnone; reflexivity].
    unfold provider_calls_for in *.
    destruct (String.eqb_spec (Payroll.paymentMethod p) "bank") as [Hb|Hb].
    + match goal with
      | |- context [if ?c then [_] else []] => destruct c
      end; [exact Hb | apply Hnone; reflexivity].
    + destruct (String.eqb_spec (Payroll.paymentMethod p) "mpesa") as [Hm|Hm].
      * destruct (JS.truthy (Payroll.phone p));
          [exact Hm | apply Hnone; reflexivity].
      * apply Hnone; reflexivity.
  - destruct (String.eqb (Payroll.paymentMethod p) "bank"
              || String.eqb (Payroll.paymentMethod p) "mpesa") eqn:Hm;
      [exact I | ].
    rewrite (Hother eq_refl) in Hcalls, Hnone. rewrite app_nil_r in Hcalls.
    split; [exact Hcalls | apply Hnone; reflexivity].
Qed.

(* ===================================================================== *)
(** * The phone number sent to M-Pesa *)
(* ===================================================================== *)

Lemma space_is_no_digit c : JS.is_space c = true -> JS.is_digit c = false.
Proof.
  destruct c as [[] [] [] [] [] [] [] []]; vm_compute; congruence.
Qed.

Lemma digits_after_spaces s :
  JS.remove_non_digits (JS.remove_spaces s) = JS.remove_non_digits s.
Proof.
  unfold JS.remove_non_digits, JS.remove_spaces.
  induction s as [|c rest IH]; simpl; [reflexivity | ].
  destruct (JS.is_space c) eqn:Hs; simpl.
  - rewrite (space_is_no_digit c Hs). exact IH.
  - destruct (JS.is_digit c); rewrite IH; reflexivity.
Qed.

Lemma filter_chars_all keep s : JS.all_chars keep (JS.filter_chars keep s) = true.
Proof.
  induction s as [|c rest IH]; simpl; [reflexivity | ].
  destruct (keep c) eqn:Hk; simpl; [rewrite Hk | ]; exact IH.
Qed.

Lemma substring_whole s : String.substring 0 (String.length s) s = s.
Proof. induction s as [|c rest IH]; simpl; [reflexivity | now rewrite IH]. Qed.

(** Cutting a prefix off and putting it back gives the string again. *)
Lemma prefix_put_back pre s :
  String.prefix pre s = true ->
  (pre ++ String.substring (String.length pre)
                           (String.length s - String.length pre) s)%string = s.
Proof.
  revert s. induction pre as [|a pre IH]; intros s H; simpl.
  - rewrite Nat.sub_0_r. apply substring_whole.
  - destruct s as [|b s]; simpl in H; [discriminate H | ].
    destruct (ascii_dec a b) as [->|]; [ | discriminate H].
    simpl. f_equal. apply IH. exact H.
Qed.

(** On a string of digits the third replacement changes nothing. *)
Lemma normalise_254_digits s :
  JS.all_chars JS.is_digit s = true -> JS.normalise_254 s = s.
Proof.
  intros Hd. unfold JS.normalise_254.
  destruct (String.prefix "+254" s) eqn:Hplus.
  - destruct s as [|c rest]; cbn [String.prefix] in Hplus; [discriminate Hplus | ].
    destruct (ascii_dec "+" c) as [<-|]; [ | discriminate Hplus].
    cbn [JS.all_chars] in Hd. apply andb_true_iff in Hd.
    destruct Hd as (Hd & _). vm_compute in Hd. discriminate Hd.
  - destruct (String.prefix "254" s) eqn:H254; [ | reflexivity].
    apply (prefix_put_back "254" s H254).
Qed.

(** The cleaned phone number is the input with everything but its digits
    removed. *)
Lemma cleanPhone_digits s :
  Payroll.cleanPhone s = JS.filter_chars JS.is_digit s
  /\ JS.all_chars JS.is_digit (Payroll.cleanPhone s) = true.
Proof.
  unfold Payroll.cleanPhone. rewrite digits_after_spaces.
  unfold JS.remove_non_digits.
  rewrite (normalise_254_digits _ (filter_chars_all JS.is_digit s)).
  split; [reflexivity | apply filter_chars_all].
Qed.

(** A number that is written with the country code, with or without the
    plus sign, is sent starting with 254. *)
Lemma cleanPhone_country_code s :
  String.prefix "+254" s = true \/ String.prefix "254" s = true ->
  String.prefix "254" (Payroll.cleanPhone s) = true.
Proof.
  intros H. rewrite (proj1 (cleanPhone_digits s)).
  assert (H254 : forall t, String.prefix "254" t = true ->
                           String.prefix "254" (JS.filter_chars JS.is_digit t) = true).
  { intros t Ht.
    destruct t as [|c1 [|c2 [|c3 t]]]; cbn [String.prefix] in Ht;
      try discriminate Ht;
      repeat match type of Ht with
             | (if ascii_dec ?a ?b then _ else _) = true =>
                 destruct (ascii_dec a b) as [<-|]; [ | discriminate Ht]
             end;
      try discriminate Ht.
    cbn [JS.filter_chars].
    change (JS.is_digit "2") with true. change (JS.is_digit "5") with true.
    change (JS.is_digit "4") with true. cbn [String.prefix].
    repeat match goal with
           | |- context [ascii_dec ?a ?a] =>
               destruct (ascii_dec a a) as [_|Hne]; [ | now elim Hne]
           end.
    destruct (JS.filter_chars JS.is_digit t); reflexivity. }
  destruct H as [H | H]; [ | apply H254; exact H].
  destruct s as [|c0 s]; cbn [String.prefix] in H; [discriminate H | ].
  destruct (ascii_dec "+" c0) as [<-|]; [ | discriminate H].
  change (JS.filter_chars JS.is_digit (String "+" s))
    with (JS.filter_chars JS.is_digit s).
  apply H254. exact H.
Qed.

(** C8: every M-Pesa request made by a run of [processPayrollPayment]
    carries the phone number of the payment after the three
    replacements, which is the input with every character that is not a
    digit removed; it consists of digits only. *)
Theorem mpesa_phone_is_digits_only :
  forall (E : Env) (p : Payroll.EmployeePayment) (month : Date)
         (description : string) (w : World) (made : list Call)
         (a : JS.number) (sent narration : string),
    calls (snd (Payroll.processPayrollPayment E p month description w))
      = calls w ++ made ->
    In (MpesaInitiate a sent narration) made ->
    sent = JS.normalise_254
             (JS.remove_non_digits (JS.remove_spaces (JS.text (Payroll.phone p))))
    /\ sent = JS.filter_chars JS.is_digit (JS.text (Payroll.phone p))
    /\ JS.all_chars JS.is_digit sent = true.
Proof.
  intros E p month description w made a sent narration Hmade Hin.
  destruct (processPayrollPayment_calls E p month description w)
    as (r & _ & Hcalls & _).
  cbv zeta in Hcalls. rewrite Hcalls in Hmade.
  apply app_inv_head in Hmade. subst made.
  assert (Hsent : sent = Payroll.cleanPhone (JS.text (Payroll.phone p))).
  { unfold provider_calls_due in Hin.
    destruct (next_calls_run 1 (faults w)); [ | contradiction].
    destruct (Prisma.employee_with_relations _ _); [ | contradiction].
    unfold provider_calls_for in Hin.
    destruct (String.eqb (Payroll.paymentMethod p) "bank").
    - match type of Hin with
      | In _ (if ?c then _ else _) => destruct c
      end; [ | contradiction].
      destruct Hin as [Hin | []]. discriminate Hin.
    - destruct (String.eqb (Payroll.paymentMethod p) "mpesa"); [ | contradiction].
      destruct (JS.truthy (Payroll.phone p)); [ | contradiction].
      destruct Hin as [Hin | []]. injection Hin as _ <- _. reflexivity. }
  subst sent.
  destruct (cleanPhone_digits (JS.text (Payroll.phone p))) as (H1 & H2).
  split; [reflexivity | split; assumption].
Qed.

(** The M-Pesa payment of the sample: the separators and the plus sign
    are gone. *)
Lemma mpesa_phone_is_digits_only_witness :
  "254712345678" = JS.normalise_254
             (JS.remove_non_digits (JS.remove_spaces "+254 712-345 678"))
  /\ "254712345678" = JS.filter_chars JS.is_digit "+254 712-345 678"
  /\ JS.all_chars JS.is_digit "254712345678" = true.
Proof.
  apply (mpesa_phone_is_digits_only Sample.providers Sample.mpesa_payment
           Sample.june_2024 "Salary" Sample.calm
           [MpesaInitiate (JS.Fin 500) "254712345678" "Salary for June 2024"]
           (JS.Fin 500) "254712345678" "Salary for June 2024").
  - vm_compute. reflexivity.
  - simpl. left. reflexivity.
Defined.

(* ===================================================================== *)
(** * The amount of a bank transfer *)
(* ===================================================================== *)

(** A call that is made carries [Math.round] of the amount, and an
    amount that is [<= 0], or whose rounding is, makes the function
    throw before any call. *)
Lemma processBankTransfer_rounds_and_rejects :
  forall (E : Env) (a : JS.number) (acc bank narr ben : string) (w : World),
    let run := Flutterwave.processBankTransfer E a acc bank narr ben w in
    (forall payload made,
        calls (snd run) = calls w ++ made ->
        In (FlwTransferInitiate payload) made ->
        amount payload = JS.Math_round a)
    /\ (JS.le_zero a || JS.le_zero (JS.Math_round a) = true ->
        (exists e, fst run = Throw e) /\ calls (snd run) = calls w).
Proof.
  intros E a acc bank narr ben w. cbv zeta.
  pose proof (processBankTransfer_spec E a acc bank narr ben w) as H.
  cbv zeta in H. split.
  - intros payload made Hmade Hin.
    destruct (flutterwave_available E w && negb (JS.le_zero a)
              && negb (JS.le_zero (JS.Math_round a))).
    + destruct H as (_ & Hc). rewrite Hc in Hmade.
      apply app_inv_head in Hmade. subst made.
      destruct Hin as [Hin | []]. injection Hin as <-. reflexivity.
    + destruct H as (_ & Hc).
      assert (Hnil : made = []).
      { apply (app_inv_head (calls w)). rewrite app_nil_r. congruence. }
      subst made. contradiction.
  - intros Hle.
    destruct (JS.le_zero a); simpl in *.
    + rewrite andb_false_r in H. exact H.
    + rewrite Hle in H. simpl in H. rewrite andb_false_r in H. exact H.
Qed.

(** C9, where the code goes wrong: [NaN] is not a positive number, yet
    both guards let it pass, because [NaN <= 0] is false; with the
    client in place the provider is called with the amount [NaN]. *)
Theorem processBankTransfer_accepts_NaN :
  forall (E : Env) (acc bank narr ben : string) (w : World),
    let run := Flutterwave.processBankTransfer E JS.NaN acc bank narr ben w in
    let payload :=
      {| account_number := acc; amount := JS.NaN; account_bank := bank;
         narration := narr; currency := "KES"; beneficiary_name := ben |} in
    if flutterwave_available E w
    then fst run = Transfer_initiate E (calls w) payload
         /\ calls (snd run) = calls w ++ [FlwTransferInitiate payload]
    else (exists e, fst run = Throw e) /\ calls (snd run) = calls w.
Proof.
  intros E acc bank narr ben w.
  pose proof (processBankTransfer_spec E JS.NaN acc bank narr ben w) as H.
  cbv zeta in *. simpl in H. rewrite !andb_true_r in H. exact H.
Qed.

(** The same on the sample: the transfer goes out with the amount [NaN]. *)
Lemma processBankTransfer_NaN_example :
  let run := Flutterwave.processBankTransfer Sample.providers JS.NaN
               "0110" "01" "Salary for June 2024" "Ann" Sample.calm in
  fst run = Ok (Sample.transfer_answer "NEW")
  /\ calls (snd run) =
       [FlwTransferInitiate
          {| account_number := "0110"; amount := JS.NaN; account_bank := "01";
             narration := "Salary for June 2024"; currency := "KES";
             beneficiary_name := "Ann" |}].
Proof. vm_compute. split; reflexivity. Qed.

(* ===================================================================== *)
(** * What a run of [processPayrollPayment] writes *)
(* ===================================================================== *)

Lemma preserves_run {A X : Type} (f : World -> X) (m : Async A) w r w' :
  preserves f m -> m w = (r, w') -> f w' = f w.
Proof. intros H Hm. specialize (H w). rewrite Hm in H. exact H. Qed.


(** A payslip of an earlier run that is updated keeps its reference
    when the provider gives none, while the payout is stored under
    [PAYOUT_] and the time: the two rows then carry different
    references. *)
Lemma payslip_can_keep_an_old_reference :
  let silent : Env :=
    {| FLUTTERWAVE_PUBLIC_KEY := None; FLUTTERWAVE_SECRET_KEY := None;
       flutterwave_loads := false;
       Transfer_initiate := Transfer_initiate Sample.providers;
       Transaction_verify := Transaction_verify Sample.providers;
       daraja_initiate := fun _ _ _ _ => Ok {| ConversationID := None |};
       daraja_verify := daraja_verify Sample.providers;
       number_text := number_text Sample.providers;
       month_year_text := month_year_text Sample.providers;
       timestamp_text := timestamp_text Sample.providers;
       generated_id := generated_id Sample.providers |} in
  let may := {| year := 2024; month := 4; ms := 0 |} in
  let run := Payroll.processPayrollPayment silent Sample.mpesa_payment may
               "Salary" Sample.calm in
  fst run = Ok {| Payroll.success := true; Payroll.transactionId := None;
                  Payroll.error := None; Payroll.payoutRef := None |}
  /\ payslips (db (snd run)) = [Sample.may_payslip]
  /\ ps_payoutRef Sample.may_payslip = Some "REF-7"
  /\ payouts (db (snd run)) =
       payouts Sample.campus ++
       [{| po_ref := "PAYOUT_1717200002000"; po_employeeId := "emp-1";
           po_amount := JS.Fin 500; po_status := "PROCESSING";
           po_type := "SALARY"; po_bank := Some "M-Pesa";
           po_transactionId := None;
           po_createdAt := {| year := 2024; month := 5; ms := 2004 |} |}].
Proof. vm_compute. repeat split. Qed.





(* ===================================================================== *)
(** * What a failed run leaves behind *)
(* ===================================================================== *)





(* ===================================================================== *)
(** * Failures are caught and reported *)
(* ===================================================================== *)





(* ===================================================================== *)
(** * Bulk payroll *)
(* ===================================================================== *)

Section Bulk.

Variable E : Env.
Variable month : Date.
Variable description : string.

Lemma processPayrollPayment_returns p :
  returns (Payroll.processPayrollPayment E p month description).
Proof.
  unfold Payroll.processPayrollPayment. apply returns_try_catch. intros e.
  apply returns_bind; [apply notify_admin_returns | intros _; apply returns_ret].
Qed.

(** The amount of a payment is a number, on which [Number] does
    nothing: the payment handed on is the payment received. *)
Lemma validatedPayment_same p : Payroll.validatedPayment p = p.
Proof. destruct p. reflexivity. Qed.

(** One turn of the loop. *)
Lemma loop_step p rest results w r w1 :
  Payroll.processPayrollPayment E (Payroll.validatedPayment p) month description w
    = (Ok r, w1) ->
  Payroll.processBulkPayroll_loop E (p :: rest) month description results w
  = Payroll.processBulkPayroll_loop E rest month description (results ++ [r]) w1.
Proof. intros H. simpl. rewrite (bind_Ok _ _ _ _ _ H). reflexivity. Qed.


End Bulk.



(* ===================================================================== *)
(** * The statuses of payouts *)
(* ===================================================================== *)

Lemma payouts_well_marked_refl w : payouts_well_marked w w.
Proof. intros p Hp. left. exact Hp. Qed.

Lemma payouts_well_marked_trans a b c :
  payouts_well_marked a b -> payouts_well_marked b c -> payouts_well_marked a c.
Proof.
  intros Hab Hbc p Hp. destruct (Hbc p Hp) as [Hb | Hok].
  - apply Hab. exact Hb.
  - right. exact Hok.
Qed.

(** A computation that leaves the payouts alone keeps them well marked. *)
Lemma untouched_well_marked {A : Type} (m : Async A) :
  preserves (fun w => payouts (db w)) m -> keeps payouts_well_marked m.
Proof.
  intros H w p Hp. left. rewrite <- (H w). exact Hp.
Qed.

Section Marking.

Variable E : Env.

Lemma payout_create_well_marked ref emp a status type bank tx :
  written_status status = true ->
  keeps payouts_well_marked (Prisma.payout_create ref emp a status type bank tx).
Proof.
  intros Hstatus. unfold Prisma.payout_create.
  apply keeps_call.
  - apply payouts_well_marked_trans.
  - intros f w p Hp. left. exact Hp.
  - intros w. destruct (existsb _ _); [apply payouts_well_marked_refl | ].
    intros p Hp. simpl in Hp. apply in_app_or in Hp.
    destruct Hp as [Hp | [<- | []]]; [left; exact Hp | right; exact Hstatus].
Qed.

Lemma payout_update_status_well_marked ref status :
  written_status status = true ->
  keeps payouts_well_marked (Prisma.payout_update_status ref status).
Proof.
  intros Hstatus. unfold Prisma.payout_update_status.
  apply keeps_call.
  - apply payouts_well_marked_trans.
  - intros f w p Hp. left. exact Hp.
  - intros w. destruct (existsb _ _); [ | apply payouts_well_marked_refl].
    intros p Hp. simpl in Hp. apply in_map_iff in Hp.
    destruct Hp as (q & Hq & Hin).
    destruct (String.eqb (po_ref q) ref).
    + right. subst p. exact Hstatus.
    + left. subst p. exact Hin.
Qed.

Lemma processPayrollPayment_well_marked p month d :
  keeps payouts_well_marked (Payroll.processPayrollPayment E p month d).
Proof.
  pose proof payouts_well_marked_refl as Hrefl.
  pose proof payouts_well_marked_trans as Htrans.
  unfold Payroll.processPayrollPayment.
  apply keeps_try_catch; [exact Htrans | | ].
  - unfold Payroll.processPayrollPayment_try.
    apply keeps_bind; [exact Htrans | | ].
    + apply untouched_well_marked.
      unfold Prisma.employee_findUnique_include. frame.
    + intros [employee|]; [ | apply keeps_throw; exact Hrefl].
      apply keeps_bind; [exact Htrans | | ].
      * apply untouched_well_marked.
        apply (pay_frame E (fun w => payouts (db w))); reflexivity.
      * intros ids. cbv zeta.
        apply keeps_bind; [exact Htrans | | ].
        { apply untouched_well_marked, record_payslip_payouts. }
        intros _. apply keeps_bind; [exact Htrans | | ].
        { unfold Payroll.record_payout.
          apply keeps_bind; [exact Htrans | | ].
          - apply untouched_well_marked. unfold Payroll.payout_reference. frame.
          - intros ref. apply payout_create_well_marked. reflexivity. }
        intros _. apply keeps_bind; [exact Htrans | | ].
        { apply untouched_well_marked, notify_employee_payouts. }
        intros _. apply keeps_ret. exact Hrefl.
  - intros e. apply keeps_bind; [exact Htrans | | ].
    + apply untouched_well_marked, notify_admin_payouts.
    + intros _. apply keeps_ret. exact Hrefl.
Qed.

(** The status that a verification settles on. *)
Lemma verify_bank_status payout w o w1 :
  Payroll.verify_bank E payout w = (Ok o, w1) ->
  fst o = "SUCCESS" \/ fst o = "FAILED" \/ fst o = "PENDING".
Proof.
  unfold Payroll.verify_bank, try_catch, bind.
  destruct (Flutterwave.verifyPayment E (po_transactionId payout) w)
    as [[verification|e] w0].
  - destruct (fd_status (Payroll.response_data verification)) as [s|].
    + destruct (String.eqb s "success").
      * intros H. injection H as <- _. left. reflexivity.
      * destruct (String.eqb s "failed"); intros H; injection H as <- _.
        -- right. left. reflexivity.
        -- right. right. reflexivity.
    + intros H. injection H as <- _. right. right. reflexivity.
  - intros H. injection H as <- _. right. left. reflexivity.
Qed.

Lemma verify_mpesa_status payout w o w1 :
  Payroll.verify_mpesa E payout w = (Ok o, w1) ->
  fst o = "SUCCESS" \/ fst o = "FAILED".
Proof.
  unfold Payroll.verify_mpesa, bind.
  destruct (Payroll.verifyMpesaPayment E (po_transactionId payout) w)
    as [[verification|e] w0]; [ | discriminate].
  destruct (Result_ResultCode verification) as [code|]; [ | discriminate].
  destruct (JS.strict_eq_zero code); intros H; injection H as <- _.
  - left. reflexivity.
  - right. reflexivity.
Qed.

Lemma verifyPayment_frame {X : Type} (f : World -> X) reference :
  (forall c w, f (log_call c w) = f w) ->
  (forall i j w, f (set_flutterwave i j w) = f w) ->
  preserves f (Flutterwave.verifyPayment E reference).
Proof.
  intros Hlog Hflw.
  unfold Flutterwave.verifyPayment, Flutterwave.initializeFlutterwave,
    Flutterwave.Transaction_verify_call.
  apply preserves_try_catch; [ | intros; apply preserves_throw].
  apply preserves_bind.
  - intros w. destruct (initialized w); [reflexivity | ].
    destruct (JS.truthy (FLUTTERWAVE_PUBLIC_KEY E)
              && JS.truthy (FLUTTERWAVE_SECRET_KEY E)); [ | reflexivity].
    destruct (flutterwave_loads E); [ | reflexivity].
    simpl. apply Hflw.
  - intros inst. destruct (negb inst); [apply preserves_throw | ].
    intros w. simpl. apply Hlog.
Qed.

(** Asking a provider for the state of a payment writes nothing. *)
Lemma verify_bank_frame {X : Type} (f : World -> X) payout :
  (forall c w, f (log_call c w) = f w) ->
  (forall i j w, f (set_flutterwave i j w) = f w) ->
  preserves f (Payroll.verify_bank E payout).
Proof.
  intros Hlog Hflw. unfold Payroll.verify_bank.
  apply preserves_try_catch; [ | intros; apply preserves_ret].
  apply preserves_bind; [apply verifyPayment_frame; assumption | ].
  intros verification. cbv zeta.
  destruct (fd_status (Payroll.response_data verification)) as [s|].
  - destruct (String.eqb s "success"); [apply preserves_ret | ].
    destruct (String.eqb s "failed"); apply preserves_ret.
  - apply preserves_ret.
Qed.

Lemma verify_mpesa_frame {X : Type} (f : World -> X) payout :
  (forall c w, f (log_call c w) = f w) ->
  preserves f (Payroll.verify_mpesa E payout).
Proof.
  intros Hlog. unfold Payroll.verify_mpesa.
  apply preserves_bind.
  - intros w. simpl. apply Hlog.
  - intros verification.
    destruct (Result_ResultCode verification) as [code|];
      [ | apply preserves_throw].
    destruct (JS.strict_eq_zero code); apply preserves_ret.
Qed.

Lemma mark_payslip_paid_payouts ref :
  preserves (fun w => payouts (db w)) (Payroll.mark_payslip_paid ref).
Proof.
  unfold Payroll.mark_payslip_paid, Prisma.payslip_findFirst_payoutRef,
    Prisma.payslip_update.
  frame.
Qed.

Lemma verifyPayrollPayment_well_marked ref :
  keeps payouts_well_marked (Payroll.verifyPayrollPayment E ref).
Proof.
  pose proof payouts_well_marked_refl as Hrefl.
  pose proof payouts_well_marked_trans as Htrans.
  unfold Payroll.verifyPayrollPayment.
  apply keeps_try_catch; [exact Htrans | | intros e; apply keeps_ret; exact Hrefl].
  apply keeps_bind; [exact Htrans | | ].
  - apply untouched_well_marked. unfold Prisma.payout_findUnique. frame.
  - intros [payout|]; [ | apply keeps_throw; exact Hrefl].
    apply (keeps_bind_post _ Htrans
             (fun o => written_status (fst o) = true)).
    + intros w o w1.
      destruct (match po_bank payout with
                | Some b => String.eqb b "M-Pesa"
                | None => false
                end); intros H.
      * apply verify_mpesa_status in H. destruct H as [-> | ->]; reflexivity.
      * apply verify_bank_status in H. destruct H as [-> | [-> | ->]]; reflexivity.
    + apply untouched_well_marked.
      destruct (match po_bank payout with
                | Some b => String.eqb b "M-Pesa"
                | None => false
                end).
      * apply verify_mpesa_frame. reflexivity.
      * apply verify_bank_frame; reflexivity.
    + intros o Ho. cbv zeta.
      apply keeps_bind; [exact Htrans | | ].
      { apply payout_update_status_well_marked. exact Ho. }
      intros _. apply keeps_bind; [exact Htrans | | ].
      { apply untouched_well_marked.
        destruct (String.eqb (fst o) "SUCCESS");
          [apply mark_payslip_paid_payouts | apply preserves_ret]. }
      intros _. apply keeps_ret. exact Hrefl.
Qed.

Lemma reconcilePayroll_well_marked month :
  keeps payouts_well_marked (Payroll.reconcilePayroll E month).
Proof.
  pose proof payouts_well_marked_refl as Hrefl.
  pose proof payouts_well_marked_trans as Htrans.
  unfold Payroll.reconcilePayroll.
  apply keeps_try_catch; [exact Htrans | | intros e; apply keeps_throw; exact Hrefl].
  apply keeps_bind; [exact Htrans | | ].
  - apply untouched_well_marked. unfold Prisma.payout_findMany. frame.
  - intros found. apply keeps_for_of; [exact Hrefl | exact Htrans | ].
    intros payout. apply verifyPayrollPayment_well_marked.
Qed.

End Marking.

(** C1, as stated, fails: the bank provider reports the transfer of
    payout REF-7 as 'pending', which is neither 'success' nor 'failed';
    [verifyPayrollPayment] then writes the status 'PENDING'. *)
Lemma unclear_verification_writes_PENDING :
  let run := Payroll.verifyPayrollPayment Sample.providers "REF-7" Sample.calm in
  payouts (db (snd run))
  = [Prisma.with_status "PENDING" Sample.may_bank_payout; Sample.may_mpesa_payout]
  /\ one_of_three "PENDING" = false.
Proof. vm_compute. split; reflexivity. Qed.

(** C1, amended: after [processPayrollPayment], [verifyPayrollPayment]
    or [reconcilePayroll], every payout row is a row that was there
    before or carries one of the four statuses 'PROCESSING', 'SUCCESS',
    'FAILED' and 'PENDING'. *)
Theorem payout_status_is_one_of_four :
  forall (E : Env) (w w' : World) (row : Payout),
    (exists p month description,
        w' = snd (Payroll.processPayrollPayment E p month description w))
    \/ (exists payoutRef, w' = snd (Payroll.verifyPayrollPayment E payoutRef w))
    \/ (exists month, w' = snd (Payroll.reconcilePayroll E month w)) ->
    In row (payouts (db w')) ->
    In row (payouts (db w))
    \/ po_status row = "PROCESSING" \/ po_status row = "SUCCESS"
    \/ po_status row = "FAILED" \/ po_status row = "PENDING".
Proof.
  intros E w w' row Hop Hin.
  assert (Hmarked : payouts_well_marked w w').
  { destruct Hop as [(p & month & d & ->) | [(ref & ->) | (month & ->)]].
    - apply processPayrollPayment_well_marked.
    - apply verifyPayrollPayment_well_marked.
    - apply reconcilePayroll_well_marked. }
  destruct (Hmarked row Hin) as [Hold | Hstatus]; [left; exact Hold | right].
  unfold written_status, one_of_three in Hstatus.
  repeat (apply orb_true_iff in Hstatus; destruct Hstatus as [Hstatus | Hstatus]);
    apply String.eqb_eq in Hstatus; tauto.
Qed.

(** Reconciling May 2024 on the sample: the M-Pesa payout ends as
    'SUCCESS'. *)
Lemma payout_status_is_one_of_four_witness :
  In (Prisma.with_status "SUCCESS" Sample.may_mpesa_payout)
     (payouts Sample.campus)
  \/ "SUCCESS" = "PROCESSING" \/ "SUCCESS" = "SUCCESS"
  \/ "SUCCESS" = "FAILED" \/ "SUCCESS" = "PENDING".
Proof.
  apply (payout_status_is_one_of_four Sample.providers Sample.calm
           (snd (Payroll.reconcilePayroll Sample.providers
                   {| year := 2024; month := 4; ms := 5 |} Sample.calm))
           (Prisma.with_status "SUCCESS" Sample.may_mpesa_payout)).
  - right. right. eexists. reflexivity.
  - vm_compute. right. left. reflexivity.
Defined.

(* ===================================================================== *)
(** * Reconciliation *)
(* ===================================================================== *)

(** The range that the code hands to the database is the calendar month
    of [queried_month]. *)
Lemma month_range_iff (m x : Date) :
  well_formed m -> well_formed x ->
  (Dates.leb (new_Date (getFullYear m) (getMonth m)) x
   && Dates.ltb x (new_Date (getFullYear m) (getMonth m + 1)) = true
   <-> same_calendar_month x (queried_month m)).
Proof.
  destruct m as [y mo s], x as [xy xmo xs].
  unfold well_formed, same_calendar_month, queried_month, Dates.leb, Dates.ltb,
    new_Date, getFullYear, getMonth. simpl.
  generalize (constructor_year y). intros cy.
  intros (Hmo & Hs & _) (Hxmo & Hxs & _).
  rewrite (Z.div_small mo 12) by lia. rewrite (Z.mod_small mo 12) by lia.
  assert (Hnext : ((mo + 1) / 12 = 0 /\ (mo + 1) mod 12 = mo + 1)%Z
                  \/ ((mo + 1) / 12 = 1 /\ (mo + 1) mod 12 = 0 /\ mo = 11)%Z).
  { destruct (Z.eq_dec mo 11) as [-> | Hne].
    - right. repeat split.
    - left. split; [apply Z.div_small | apply Z.mod_small]; lia. }
  destruct Hnext as [(-> & ->) | (-> & -> & ->)];
    repeat match goal with
           | |- context [(?a <? ?b)%Z] => destruct (Z.ltb_spec a b)
           | |- context [(?a =? ?b)%Z] => destruct (Z.eqb_spec a b)
           end; simpl; split; intros Hgoal; try discriminate Hgoal;
    try reflexivity; try lia.
Qed.

(** A year outside 0..99 is taken as it is. *)
Lemma queried_month_same (m x : Date) :
  ~ (0 <= year m <= 99)%Z ->
  (same_calendar_month x (queried_month m) <-> same_calendar_month x m).
Proof.
  intros Hyear. unfold same_calendar_month, queried_month, constructor_year,
    getFullYear, getMonth. cbn [year month].
  destruct (Z.leb_spec 0 (year m)); destruct (Z.leb_spec (year m) 99);
    cbn [andb]; first [tauto | exfalso; apply Hyear; split; assumption].
Qed.

(** The filter of the query holds exactly of the salary payouts created
    in the calendar month asked for that are still being processed. *)
Lemma selected_iff month p :
  well_formed month -> well_formed (po_createdAt p) ->
  (selected month p = true
   <-> pending_salary_payout_of (queried_month month) p).
Proof.
  intros Hm Hp. unfold selected, pending_salary_payout_of.
  rewrite <- (month_range_iff month (po_createdAt p) Hm Hp).
  rewrite !andb_true_iff, !String.eqb_eq. tauto.
Qed.

Lemma returns_for_of {A B : Type} (xs : list A) (body : A -> Async B) :
  (forall x, returns (body x)) -> returns (for_of xs body).
Proof.
  intros Hbody. induction xs as [|x rest IH]; simpl.
  - apply returns_ret.
  - apply returns_bind; [apply Hbody | intros _; exact IH].
Qed.

Lemma NoDup_map_In_eq {A B : Type} (f : A -> B) (l : list A) a b :
  NoDup (map f l) -> In a l -> In b l -> f a = f b -> a = b.
Proof.
  induction l as [|x l IH]; simpl; intros Hnd Ha Hb Hf; [contradiction | ].
  inversion Hnd as [|y ys Hnotin Hnd']; subst.
  destruct Ha as [-> | Ha], Hb as [-> | Hb].
  - reflexivity.
  - exfalso. apply Hnotin. rewrite Hf. apply in_map. exact Hb.
  - exfalso. apply Hnotin. rewrite <- Hf. apply in_map. exact Ha.
  - apply IH; assumption.
Qed.

Section Reconciliation.

Variable E : Env.

Lemma verifyPayrollPayment_returns ref :
  returns (Payroll.verifyPayrollPayment E ref).
Proof.
  unfold Payroll.verifyPayrollPayment. apply returns_try_catch.
  intros e. apply returns_ret.
Qed.

(** What [reconcilePayroll] comes to: when the query is rejected it
    throws and has written nothing; otherwise it verifies, one after the
    other and in the order of the table, the payouts that the filter
    selects, and returns. *)
Lemma reconcilePayroll_unfold month w :
  if next_calls_run 1 (faults w)
  then exists w0,
         same_but_plan w w0 /\ faults w0 = tl (faults w)
         /\ Payroll.reconcilePayroll E month w
            = for_of (filter (selected month) (payouts (db w)))
                     (fun payout => Payroll.verifyPayrollPayment E (po_ref payout))
                     w0
         /\ fst (Payroll.reconcilePayroll E month w) = Ok tt
  else (exists e, fst (Payroll.reconcilePayroll E month w) = Throw e)
       /\ same_but_plan w (snd (Payroll.reconcilePayroll E month w)).
Proof.
  unfold Payroll.reconcilePayroll. rewrite try_catch_rethrow.
  unfold Prisma.payout_findMany, Prisma.read.
  destruct (next_calls_run 1 (faults w)) eqn:Hplan.
  - destruct (call_runs
                (fun w1 => (Ok (filter (selected month) (payouts (db w1))), w1))
                w Hplan) as (w0 & Hs & Hf & Hcall).
    exists w0. split; [exact Hs | ]. split; [exact Hf | ].
    unfold bind at 1. unfold selected in *. rewrite Hcall.
    destruct Hs as (-> & _).
    split; [reflexivity | ].
    unfold bind at 1. rewrite Hcall.
    match goal with
    | |- fst (for_of ?xs ?body ?w1) = _ =>
        destruct (returns_for_of xs body
                    (fun x => verifyPayrollPayment_returns (po_ref x)) w1)
          as ([] & w2 & ->)
    end.
    reflexivity.
  - unfold bind, Prisma.call.
    destruct (faults w) as [|[e|] rest]; try discriminate Hplan.
    simpl. split; [exists e; reflexivity | apply same_but_plan_set_faults].
Qed.

(** ** No other payout is touched *)

Lemma row_stays_refl p w : row_stays p w w.
Proof. intros H. exact H. Qed.

Lemma row_stays_trans p a b c :
  row_stays p a b -> row_stays p b c -> row_stays p a c.
Proof. unfold row_stays. tauto. Qed.

Lemma untouched_row_stays {A : Type} p (m : Async A) :
  preserves (fun w => payouts (db w)) m -> keeps (row_stays p) m.
Proof. intros H w Hp. rewrite (H w). exact Hp. Qed.

(** A verification changes the row of its own reference only. *)
Lemma verifyPayrollPayment_other_row p ref :
  po_ref p <> ref ->
  keeps (row_stays p) (Payroll.verifyPayrollPayment E ref).
Proof.
  intros Hne.
  pose proof (row_stays_refl p) as Hrefl.
  pose proof (row_stays_trans p) as Htrans.
  unfold Payroll.verifyPayrollPayment.
  apply keeps_try_catch; [exact Htrans | | intros e; apply keeps_ret; exact Hrefl].
  apply keeps_bind; [exact Htrans | | ].
  - apply untouched_row_stays. unfold Prisma.payout_findUnique. frame.
  - intros [payout|]; [ | apply keeps_throw; exact Hrefl].
    apply keeps_bind; [exact Htrans | | ].
    + apply untouched_row_stays.
      destruct (match po_bank payout with
                | Some b => String.eqb b "M-Pesa"
                | None => false
                end).
      * apply verify_mpesa_frame. reflexivity.
      * apply verify_bank_frame; reflexivity.
    + intros o. cbv zeta.
      apply keeps_bind; [exact Htrans | | ].
      { unfold Prisma.payout_update_status. apply keeps_call.
        - exact Htrans.
        - intros f w H. exact H.
        - intros w. destruct (existsb _ _); [ | apply Hrefl].
          intros Hp. simpl. apply in_map_iff. exists p.
          split; [ | exact Hp].
          destruct (String.eqb_spec (po_ref p) ref); [contradiction | reflexivity]. }
      intros _. apply keeps_bind; [exact Htrans | | ].
      { apply untouched_row_stays.
        destruct (String.eqb (fst o) "SUCCESS");
          [apply mark_payslip_paid_payouts | apply preserves_ret]. }
      intros _. apply keeps_ret. exact Hrefl.
Qed.

Lemma reconcilePayroll_other_rows month w p :
  NoDup (map po_ref (payouts (db w))) ->
  In p (payouts (db w)) ->
  selected month p = false ->
  In p (payouts (db (snd (Payroll.reconcilePayroll E month w)))).
Proof.
  intros Hnd Hin Hsel.
  pose proof (reconcilePayroll_unfold month w) as H.
  destruct (next_calls_run 1 (faults w)).
  - destruct H as (w0 & (Hdb & _) & _ & -> & _).
    apply (keeps_for_of_in (row_stays p) (row_stays_refl p) (row_stays_trans p)).
    + intros q Hq. apply verifyPayrollPayment_other_row.
      apply filter_In in Hq. destruct Hq as (Hq & Hqsel).
      intros Heq.
      assert (p = q) by (eapply NoDup_map_In_eq; eassumption).
      subst q. congruence.
    + rewrite Hdb. exact Hin.
  - destruct H as (_ & (Hdb & _)). rewrite Hdb. exact Hin.
Qed.

End Reconciliation.

(** ** The verification calls of a reconciliation *)

Lemma snd_bind_frame {A B X : Type} (f : World -> X) (m : Async A)
    (k : A -> Async B) w :
  (forall a, preserves f (k a)) -> f (snd (bind m k w)) = f (snd (m w)).
Proof.
  intros Hk. unfold bind. destruct (m w) as [[a|e] w1]; [apply Hk | reflexivity].
Qed.

Lemma snd_try_catch_frame {A X : Type} (f : World -> X) (m : Async A)
    (h : string -> Async A) w :
  (forall e, preserves f (h e)) -> f (snd (try_catch m h w)) = f (snd (m w)).
Proof.
  intros Hh. unfold try_catch.
  destruct (m w) as [[a|e] w1]; [reflexivity | apply Hh].
Qed.

Lemma stays_calm_refl w : stays_calm w w.
Proof. intros H. exact H. Qed.

Lemma stays_calm_trans a b c : stays_calm a b -> stays_calm b c -> stays_calm a c.
Proof. unfold stays_calm. tauto. Qed.

Lemma calm_call {A : Type} (run : Async A) :
  keeps stays_calm run -> keeps stays_calm (Prisma.call run).
Proof.
  intros Hrun w Hf. rewrite (call_calm run w Hf). apply Hrun. exact Hf.
Qed.

Lemma calm_frame {A : Type} (m : Async A) :
  preserves faults m -> keeps stays_calm m.
Proof. intros H w Hf. rewrite (H w). exact Hf. Qed.

(** The key of a payout determines its verification calls. *)
Lemma verification_calls_key (E : Env) w p q :
  payout_key p = payout_key q ->
  verification_calls E w p = verification_calls E w q.
Proof.
  unfold payout_key, verification_calls. intros H.
  injection H as _ -> ->. reflexivity.
Qed.

(** The payout found under a reference has the key of any payout of the
    table with that reference, references being unique. *)
Lemma find_by_ref_key (l : list Payout) q :
  NoDup (map po_ref l) ->
  In (payout_key q) (map payout_key l) ->
  exists q', find (fun x => String.eqb (po_ref x) (po_ref q)) l = Some q'
             /\ payout_key q' = payout_key q.
Proof.
  induction l as [|x l IH]; simpl; intros Hnd Hin; [contradiction | ].
  inversion Hnd as [|y ys Hnotin Hnd']; subst.
  destruct (String.eqb_spec (po_ref x) (po_ref q)) as [Href | Href].
  - exists x. split; [reflexivity | ].
    destruct Hin as [Hk | Hk]; [exact Hk | exfalso].
    apply Hnotin. rewrite Href.
    apply in_map_iff in Hk. destruct Hk as (z & Hz & Hzin).
    apply in_map_iff. exists z. split; [ | exact Hzin].
    unfold payout_key in Hz. congruence.
  - destruct Hin as [Hk | Hk].
    + exfalso. apply Href. unfold payout_key in Hk. congruence.
    + apply IH; assumption.
Qed.

Section VerificationCalls.

Variable E : Env.

Lemma initializeFlutterwave_available w :
  flutterwave_available E (snd (Flutterwave.initializeFlutterwave E w))
  = flutterwave_available E w.
Proof.
  unfold Flutterwave.initializeFlutterwave, flutterwave_available.
  destruct (initialized w) eqn:Hi; [cbn [snd]; rewrite Hi; reflexivity | ].
  destruct (JS.truthy (FLUTTERWAVE_PUBLIC_KEY E)
            && JS.truthy (FLUTTERWAVE_SECRET_KEY E)) eqn:Hk.
  - destruct (flutterwave_loads E) eqn:Hl; [reflexivity | ].
    cbn [snd]. rewrite ?Hi, ?Hk, ?Hl. reflexivity.
  - cbn [snd]. rewrite ?Hi, ?Hk. reflexivity.
Qed.

(** A frame for [verifyPayment] in terms of the initialisation. *)
Lemma verifyPayment_frame_init {X : Type} (f : World -> X) reference :
  (forall c w, f (log_call c w) = f w) ->
  preserves f (Flutterwave.initializeFlutterwave E) ->
  preserves f (Flutterwave.verifyPayment E reference).
Proof.
  intros Hlog Hinit. unfold Flutterwave.verifyPayment.
  apply preserves_try_catch; [ | intros; apply preserves_throw].
  apply preserves_bind; [exact Hinit | ].
  intros inst. destruct (negb inst); [apply preserves_throw | ].
  intros w. simpl. apply Hlog.
Qed.

Lemma verify_block_frame {X : Type} (f : World -> X) payout :
  (forall c w, f (log_call c w) = f w) ->
  preserves f (Flutterwave.initializeFlutterwave E) ->
  preserves f
    (if match po_bank payout with
        | Some b => String.eqb b "M-Pesa"
        | None => false
        end
     then Payroll.verify_mpesa E payout
     else Payroll.verify_bank E payout).
Proof.
  intros Hlog Hinit.
  destruct (match po_bank payout with
            | Some b => String.eqb b "M-Pesa"
            | None => false
            end).
  - apply verify_mpesa_frame. exact Hlog.
  - unfold Payroll.verify_bank.
    apply preserves_try_catch; [ | intros; apply preserves_ret].
    apply preserves_bind; [apply verifyPayment_frame_init; assumption | ].
    intros verification. cbv zeta.
    destruct (fd_status (Payroll.response_data verification)) as [s|].
    + destruct (String.eqb s "success"); [apply preserves_ret | ].
      destruct (String.eqb s "failed"); apply preserves_ret.
    + apply preserves_ret.
Qed.

(** What follows the answer of the provider makes no provider call. *)
Lemma after_verification_calls ref (o : string * option (FlwResponse + MpesaVerification)) :
  preserves calls
    (Prisma.payout_update_status ref (fst o) ;;;
     (if String.eqb (fst o) "SUCCESS" then Payroll.mark_payslip_paid ref
      else ret tt) ;;;
     ret (Payroll.Verified (fst o) (snd o))).
Proof.
  unfold Payroll.mark_payslip_paid, Prisma.payslip_findFirst_payoutRef,
    Prisma.payslip_update, Prisma.payout_update_status.
  frame.
Qed.

(** A verification keeps a calm world calm, keeps the keys of the
    payouts and keeps the client as available as it was. *)
Lemma verifyPayrollPayment_stays_calm ref :
  keeps stays_calm (Payroll.verifyPayrollPayment E ref).
Proof.
  pose proof stays_calm_refl as Hrefl. pose proof stays_calm_trans as Htrans.
  unfold Payroll.verifyPayrollPayment.
  apply keeps_try_catch; [exact Htrans | | intros e; apply keeps_ret; exact Hrefl].
  apply keeps_bind; [exact Htrans | | ].
  - apply calm_call. intros w Hf. exact Hf.
  - intros [payout|]; [ | apply keeps_throw; exact Hrefl].
    apply keeps_bind; [exact Htrans | | ].
    + apply calm_frame. apply verify_block_frame; [reflexivity | ].
      intros w. unfold Flutterwave.initializeFlutterwave.
      destruct (initialized w); [reflexivity | ].
      destruct (JS.truthy (FLUTTERWAVE_PUBLIC_KEY E)
                && JS.truthy (FLUTTERWAVE_SECRET_KEY E)); [ | reflexivity].
      destruct (flutterwave_loads E); reflexivity.
    + intros o. cbv zeta.
      apply keeps_bind; [exact Htrans | | ].
      { apply calm_call. intros w Hf. destruct (existsb _ _); exact Hf. }
      intros _. apply keeps_bind; [exact Htrans | | ].
      { destruct (String.eqb (fst o) "SUCCESS"); [ | apply keeps_ret; exact Hrefl].
        unfold Payroll.mark_payslip_paid.
        apply keeps_bind; [exact Htrans | | ].
        - apply calm_call. intros w Hf. exact Hf.
        - intros [slip|]; [ | apply keeps_ret; exact Hrefl].
          apply calm_call. intros w Hf. destruct (existsb _ _); exact Hf. }
      intros _. apply keeps_ret. exact Hrefl.
Qed.

Lemma verifyPayrollPayment_keys ref :
  preserves (fun w => map payout_key (payouts (db w)))
    (Payroll.verifyPayrollPayment E ref).
Proof.
  unfold Payroll.verifyPayrollPayment.
  apply preserves_try_catch; [ | intros; apply preserves_ret].
  apply preserves_bind; [unfold Prisma.payout_findUnique; frame | ].
  intros [payout|]; [ | apply preserves_throw].
  apply preserves_bind.
  - apply verify_block_frame; [reflexivity | ].
    intros w. unfold Flutterwave.initializeFlutterwave.
    destruct (initialized w); [reflexivity | ].
    destruct (JS.truthy (FLUTTERWAVE_PUBLIC_KEY E)
              && JS.truthy (FLUTTERWAVE_SECRET_KEY E)); [ | reflexivity].
    destruct (flutterwave_loads E); reflexivity.
  - intros o. cbv zeta. apply preserves_bind.
    + unfold Prisma.payout_update_status.
      apply preserves_call; [reflexivity | ].
      intros w. destruct (existsb _ _); [ | reflexivity].
      simpl. rewrite map_map. apply map_ext. intros x.
      destruct (String.eqb (po_ref x) ref); reflexivity.
    + intros _. apply preserves_bind; [ | intros _; apply preserves_ret].
      destruct (String.eqb (fst o) "SUCCESS"); [ | apply preserves_ret].
      unfold Payroll.mark_payslip_paid, Prisma.payslip_findFirst_payoutRef,
        Prisma.payslip_update.
      frame.
Qed.

Lemma verifyPayrollPayment_available ref :
  preserves (flutterwave_available E) (Payroll.verifyPayrollPayment E ref).
Proof.
  unfold Payroll.verifyPayrollPayment.
  apply preserves_try_catch; [ | intros; apply preserves_ret].
  apply preserves_bind; [unfold Prisma.payout_findUnique; frame | ].
  intros [payout|]; [ | apply preserves_throw].
  apply preserves_bind.
  - apply verify_block_frame; [reflexivity | ].
    intros w. apply initializeFlutterwave_available.
  - intros o. cbv zeta.
    unfold Payroll.mark_payslip_paid, Prisma.payslip_findFirst_payoutRef,
      Prisma.payslip_update, Prisma.payout_update_status.
    frame.
Qed.

(** The provider calls of the block that asks the provider. *)
Lemma verify_block_calls payout w :
  calls (snd ((if match po_bank payout with
                  | Some b => String.eqb b "M-Pesa"
                  | None => false
                  end
               then Payroll.verify_mpesa E payout
               else Payroll.verify_bank E payout) w))
  = calls w ++ verification_calls E w payout.
Proof.
  unfold verification_calls.
  destruct (match po_bank payout with
            | Some b => String.eqb b "M-Pesa"
            | None => false
            end).
  - unfold Payroll.verify_mpesa. rewrite snd_bind_frame; [reflexivity | ].
    intros verification.
    destruct (Result_ResultCode verification) as [code|];
      [ | apply preserves_throw].
    destruct (JS.strict_eq_zero code); apply preserves_ret.
  - unfold Payroll.verify_bank.
    rewrite snd_try_catch_frame; [ | intros; apply preserves_ret].
    rewrite snd_bind_frame.
    2:{ intros verification. cbv zeta.
        destruct (fd_status (Payroll.response_data verification)) as [s|];
          [ | apply preserves_ret].
        destruct (String.eqb s "success"); [apply preserves_ret | ].
        destruct (String.eqb s "failed"); apply preserves_ret. }
    unfold Flutterwave.verifyPayment. rewrite try_catch_rethrow.
    destruct (initializeFlutterwave_spec E w) as (w0 & Hi & Hc).
    rewrite (bind_Ok _ _ _ _ _ Hi).
    destruct (flutterwave_available E w); simpl.
    + rewrite Hc. reflexivity.
    + rewrite Hc. symmetry. apply app_nil_r.
Qed.

(** The provider calls of one verification. *)
Lemma verifyPayrollPayment_calls ref w :
  calls (snd (Payroll.verifyPayrollPayment E ref w)) =
  calls w ++
  (if next_calls_run 1 (faults w) then
     match find (fun x => String.eqb (po_ref x) ref) (payouts (db w)) with
     | Some payout => verification_calls E w payout
     | None => []
     end
   else []).
Proof.
  unfold Payroll.verifyPayrollPayment.
  rewrite snd_try_catch_frame; [ | intros; apply preserves_ret].
  destruct (Prisma.payout_findUnique ref w) as [r0 w0] eqn:H0.
  pose proof H0 as Hspec. unfold Prisma.payout_findUnique in Hspec.
  apply read_spec in Hspec. destruct Hspec as (Hs & Hr).
  pose proof Hs as (_ & Hc0 & _ & _ & Hi0 & Hf0 & _).
  destruct (next_calls_run 1 (faults w)).
  - subst r0. rewrite (bind_Ok _ _ _ _ _ H0).
    destruct (find _ (payouts (db w))) as [payout|].
    + rewrite snd_bind_frame; [ | intros o; apply after_verification_calls].
      rewrite verify_block_calls, Hc0.
      unfold verification_calls, flutterwave_available. rewrite Hi0, Hf0.
      reflexivity.
    + simpl. rewrite Hc0. symmetry. apply app_nil_r.
  - destruct Hr as (e & ->). rewrite (bind_Throw _ _ _ _ _ H0). simpl.
    rewrite Hc0. symmetry. apply app_nil_r.
Qed.

(** In a calm world with unique references, verifying the payouts of a
    list one after the other makes the verification calls of each, in
    order. *)
Lemma for_of_verify_calls (chosen : list Payout) : forall w,
  faults w = [] ->
  NoDup (map po_ref (payouts (db w))) ->
  (forall q, In q chosen -> In (payout_key q) (map payout_key (payouts (db w)))) ->
  calls (snd (for_of chosen
                (fun payout => Payroll.verifyPayrollPayment E (po_ref payout)) w))
  = calls w ++ flat_map (verification_calls E w) chosen.
Proof.
  induction chosen as [|q rest IH]; intros w Hcalm Hnd Hin.
  - simpl. symmetry. apply app_nil_r.
  - cbn [for_of flat_map].
    destruct (verifyPayrollPayment_returns E (po_ref q) w) as (a & w1 & Hv).
    rewrite (bind_Ok _ _ _ _ _ Hv).
    pose proof (verifyPayrollPayment_calls (po_ref q) w) as Hcalls.
    pose proof (verifyPayrollPayment_stays_calm (po_ref q) w Hcalm) as Hcalm1.
    pose proof (verifyPayrollPayment_keys (po_ref q) w) as Hkeys.
    pose proof (verifyPayrollPayment_available (po_ref q) w) as Hav.
    rewrite Hv in Hcalls, Hcalm1, Hkeys, Hav. simpl in Hcalls, Hcalm1, Hkeys, Hav.
    rewrite Hcalm in Hcalls. simpl in Hcalls.
    destruct (find_by_ref_key (payouts (db w)) q Hnd (Hin q (or_introl eq_refl)))
      as (q' & Hfind & Hkey).
    rewrite Hfind, (verification_calls_key E w q' q Hkey) in Hcalls.
    rewrite IH.
    + rewrite Hcalls, <- app_assoc. f_equal. f_equal.
      apply flat_map_ext. intros x.
      unfold verification_calls. rewrite Hav. reflexivity.
    + exact Hcalm1.
    + replace (map po_ref (payouts (db w1)))
        with (map (fun k : string * option string * option string => fst (fst k))
                  (map payout_key (payouts (db w1))))
        by (rewrite map_map; reflexivity).
      rewrite Hkeys, map_map. exact Hnd.
    + intros x Hx. rewrite Hkeys. apply Hin. right. exact Hx.
Qed.

(** What one verification writes in a calm world: the payout under the
    reference takes the status that the answer of the provider settles;
    when asking the provider throws (M-Pesa only), the payout is left as
    it was. *)
Lemma verifyPayrollPayment_writes_outcome ref w payout :
  faults w = [] ->
  find (fun x => String.eqb (po_ref x) ref) (payouts (db w)) = Some payout ->
  payouts (db (snd (Payroll.verifyPayrollPayment E ref w))) =
  match fst ((if match po_bank payout with
                 | Some b => String.eqb b "M-Pesa"
                 | None => false
                 end
              then Payroll.verify_mpesa E payout
              else Payroll.verify_bank E payout) w) with
  | Ok outcome =>
      map (fun x => if String.eqb (po_ref x) ref
                    then Prisma.with_status (fst outcome) x else x)
          (payouts (db w))
  | Throw _ => payouts (db w)
  end.
Proof.
  intros Hcalm Hfind.
  assert (Hinit : forall {X : Type} (f : World -> X),
             (forall i j w0, f (set_flutterwave i j w0) = f w0) ->
             preserves f (Flutterwave.initializeFlutterwave E)).
  { intros X f Hf w0. unfold Flutterwave.initializeFlutterwave.
    destruct (initialized w0); [reflexivity | ].
    destruct (JS.truthy (FLUTTERWAVE_PUBLIC_KEY E)
              && JS.truthy (FLUTTERWAVE_SECRET_KEY E)); [ | reflexivity].
    destruct (flutterwave_loads E); [apply Hf | reflexivity]. }
  pose proof (verify_block_frame db payout (fun _ _ => eq_refl)
                (Hinit _ db (fun _ _ _ => eq_refl)) w) as Hdb.
  pose proof (verify_block_frame faults payout (fun _ _ => eq_refl)
                (Hinit _ faults (fun _ _ _ => eq_refl)) w) as Hfaults.
  unfold Payroll.verifyPayrollPayment.
  assert (H0 : Prisma.payout_findUnique ref w = (Ok (Some payout), w)).
  { unfold Prisma.payout_findUnique, Prisma.read.
    rewrite (call_calm _ w Hcalm), Hfind. reflexivity. }
  unfold try_catch. rewrite (bind_Ok _ _ _ _ _ H0).
  unfold bind at 1.
  destruct ((if match po_bank payout with
                | Some b => String.eqb b "M-Pesa"
                | None => false
                end
             then Payroll.verify_mpesa E payout
             else Payroll.verify_bank E payout) w) as [[outcome|e] w1];
    simpl in Hdb, Hfaults; cbn [fst].
  2:{ simpl. rewrite Hdb. reflexivity. }
  assert (Hexists : existsb (fun x => String.eqb (po_ref x) ref)
                            (payouts (db w1)) = true).
  { rewrite Hdb. apply existsb_exists. apply find_some in Hfind.
    exists payout. exact Hfind. }
  assert (H1 : Prisma.payout_update_status ref (fst outcome) w1
               = (Ok tt,
                  set_db (set_payouts
                            (map (fun x => if String.eqb (po_ref x) ref
                                           then Prisma.with_status (fst outcome) x
                                           else x)
                                 (payouts (db w1))) (db w1)) w1)).
  { unfold Prisma.payout_update_status.
    rewrite (call_calm _ w1) by (rewrite Hfaults; exact Hcalm).
    rewrite Hexists. reflexivity. }
  rewrite (bind_Ok _ _ _ _ _ H1).
  match goal with
  | |- payouts (db (snd (let (r, w') := bind ?m ?k ?w2 in _))) = _ =>
      assert (Hrest : payouts (db (snd (bind m k w2))) = payouts (db w2));
      [ | destruct (bind m k w2) as [[r|e] w3]; simpl in Hrest |- *;
          rewrite Hrest, Hdb; reflexivity ]
  end.
  rewrite (snd_bind_frame (fun w0 => payouts (db w0)));
    [ | intros; apply preserves_ret].
  destruct (String.eqb (fst outcome) "SUCCESS");
    [apply mark_payslip_paid_payouts | reflexivity].
Qed.

End VerificationCalls.

(* ===================================================================== *)
(** * The status that a reconciliation settles *)
(* ===================================================================== *)

(** What [verifyPayment] hands on. *)
Lemma verifyPayment_spec (E : Env) (reference : option string) (w : World) :
  let run := Flutterwave.verifyPayment E reference w in
  if flutterwave_available E w
  then fst run = Transaction_verify E (calls w) reference
       /\ calls (snd run) = calls w ++ [FlwTransactionVerify reference]
  else fst run
       = Throw "Flutterwave not configured. Payment verification unavailable."
       /\ calls (snd run) = calls w.
Proof.
  cbv zeta. unfold Flutterwave.verifyPayment. rewrite try_catch_rethrow.
  destruct (initializeFlutterwave_spec E w) as (w0 & Hi & Hc).
  rewrite (bind_Ok _ _ _ _ _ Hi).
  destruct (flutterwave_available E w); simpl.
  - rewrite Hc. split; reflexivity.
  - split; [reflexivity | exact Hc].
Qed.

Lemma find_the_row (l : list Payout) (r : Payout) :
  NoDup (map po_ref l) -> In r l ->
  find (fun x => String.eqb (po_ref x) (po_ref r)) l = Some r.
Proof.
  induction l as [|x l IH]; simpl; intros Hnd Hin; [contradiction | ].
  inversion Hnd as [|y ys Hnotin Hnd']; subst.
  destruct (String.eqb_spec (po_ref x) (po_ref r)) as [Href | Href].
  - destruct Hin as [-> | Hin]; [reflexivity | exfalso].
    apply Hnotin. rewrite Href. apply in_map. exact Hin.
  - destruct Hin as [-> | Hin]; [contradiction | ].
    apply IH; assumption.
Qed.

Lemma NoDup_map_filter {A B : Type} (f : A -> B) (keep : A -> bool) (l : list A) :
  NoDup (map f l) -> NoDup (map f (filter keep l)).
Proof.
  induction l as [|x l IH]; simpl; intros Hnd; [constructor | ].
  inversion Hnd as [|y ys Hnotin Hnd']; subst.
  destruct (keep x); simpl; [ | apply IH; exact Hnd'].
  constructor; [ | apply IH; exact Hnd'].
  intros Hin. apply Hnotin. apply in_map_iff in Hin.
  destruct Hin as (z & Hz & Hzin). apply filter_In in Hzin.
  apply in_map_iff. exists z. split; [exact Hz | apply Hzin].
Qed.

Section SettledStatus.

Variable E : Env.

(** What the block that asks the provider yields, by the answer of the
    provider. *)
Lemma ask_provider_outcome payout w :
  fst (ask_provider E payout w) =
  if went_through_mpesa payout then
    match daraja_verify E (calls w) (po_transactionId payout) with
    | Ok v =>
        match Result_ResultCode v with
        | Some code =>
            Ok (if JS.strict_eq_zero code then "SUCCESS" else "FAILED",
                Some (inr v))
        | None =>
            Throw "Cannot read properties of undefined (reading 'ResultCode')"
        end
    | Throw e => Throw e
    end
  else if flutterwave_available E w then
    match Transaction_verify E (calls w) (po_transactionId payout) with
    | Ok answer => Ok (bank_status answer, Some (inl answer))
    | Throw _ => Ok ("FAILED", None)
    end
  else Ok ("FAILED", None).
Proof.
  unfold ask_provider, went_through_mpesa.
  destruct (match po_bank payout with
            | Some b => String.eqb b "M-Pesa"
            | None => false
            end).
  - unfold Payroll.verify_mpesa, bind, Payroll.verifyMpesaPayment.
    destruct (daraja_verify E (calls w) (po_transactionId payout)) as [v|e];
      [ | reflexivity].
    destruct (Result_ResultCode v) as [code|]; [ | reflexivity].
    destruct (JS.strict_eq_zero code); reflexivity.
  - unfold Payroll.verify_bank, try_catch, bind.
    pose proof (verifyPayment_spec E (po_transactionId payout) w) as Hv.
    cbv zeta in Hv.
    destruct (Flutterwave.verifyPayment E (po_transactionId payout) w)
      as [[answer|e] w1]; cbn [fst] in Hv.
    + destruct (flutterwave_available E w);
        [ | destruct Hv as (Hv & _); discriminate Hv].
      destruct Hv as (<- & _). unfold bank_status.
      destruct (fd_status (Payroll.response_data answer)) as [s|];
        [ | reflexivity].
      destruct (String.eqb s "success"); [reflexivity | ].
      destruct (String.eqb s "failed"); reflexivity.
    + destruct (flutterwave_available E w); [ | reflexivity].
      destruct Hv as (<- & _). reflexivity.
Qed.

(** The status settled is the one that [verified_status] reads off the
    answers of the providers. *)
Lemma ask_provider_settles payout w :
  verified_status E (calls w) (flutterwave_available E w) payout =
  match fst (ask_provider E payout w) with
  | Ok outcome => Some (fst outcome)
  | Throw _ => None
  end.
Proof.
  rewrite ask_provider_outcome. unfold verified_status.
  destruct (went_through_mpesa payout).
  - destruct (daraja_verify E (calls w) (po_transactionId payout)) as [v|e];
      [ | reflexivity].
    destruct (Result_ResultCode v); reflexivity.
  - destruct (flutterwave_available E w); [ | reflexivity].
    destruct (Transaction_verify E (calls w) (po_transactionId payout));
      reflexivity.
Qed.

(** The payouts after one verification in a world without a fault
    plan. *)
Lemma verifyPayrollPayment_calm_rows ref w payout :
  faults w = [] ->
  find (fun x => String.eqb (po_ref x) ref) (payouts (db w)) = Some payout ->
  payouts (db (snd (Payroll.verifyPayrollPayment E ref w))) =
  map (fun x => if String.eqb (po_ref x) ref
                then settled (verified_status E (calls w)
                                (flutterwave_available E w) payout) x
                else x)
      (payouts (db w)).
Proof.
  intros Hcalm Hfind.
  rewrite (verifyPayrollPayment_writes_outcome E ref w payout Hcalm Hfind).
  fold (ask_provider E payout). rewrite ask_provider_settles.
  destruct (fst (ask_provider E payout w)) as [outcome|e].
  - apply map_ext. intros x. destruct (String.eqb (po_ref x) ref); reflexivity.
  - symmetry. rewrite <- (map_id (payouts (db w))) at 2.
    apply map_ext. intros x. destruct (String.eqb (po_ref x) ref); reflexivity.
Qed.

Lemma settled_ref status p : po_ref (settled status p) = po_ref p.
Proof. destruct status; reflexivity. Qed.

(** In a world without a fault plan and with unique references,
    verifying the payouts of a list one after the other leaves each of
    them with the status that its verification settles, given the calls
    made before its turn. *)
Lemma for_of_verify_rows (chosen : list Payout) : forall w,
  faults w = [] ->
  NoDup (map po_ref (payouts (db w))) ->
  NoDup (map po_ref chosen) ->
  (forall q, In q chosen -> In q (payouts (db w))) ->
  forall i p,
    nth_error chosen i = Some p ->
    In (settled (verified_status E
                   (calls w ++ flat_map (verification_calls E w) (firstn i chosen))
                   (flutterwave_available E w) p) p)
       (payouts (db (snd (for_of chosen
                            (fun payout =>
                               Payroll.verifyPayrollPayment E (po_ref payout))
                            w)))).
Proof.
  induction chosen as [|q rest IH]; intros w Hcalm Hnd Hchosen Hin i p Hnth.
  - destruct i; discriminate Hnth.
  - cbn [for_of].
    destruct (verifyPayrollPayment_returns E (po_ref q) w) as (a & w1 & Hv).
    rewrite (bind_Ok _ _ _ _ _ Hv).
    pose proof (verifyPayrollPayment_calls E (po_ref q) w) as Hcalls.
    pose proof (verifyPayrollPayment_stays_calm E (po_ref q) w Hcalm) as Hcalm1.
    pose proof (verifyPayrollPayment_keys E (po_ref q) w) as Hkeys.
    pose proof (verifyPayrollPayment_available E (po_ref q) w) as Hav.
    pose proof (find_the_row (payouts (db w)) q Hnd (Hin q (or_introl eq_refl)))
      as Hfind.
    pose proof (verifyPayrollPayment_calm_rows (po_ref q) w q Hcalm Hfind)
      as Hrows.
    rewrite Hv in Hcalls, Hcalm1, Hkeys, Hav, Hrows.
    simpl in Hcalls, Hcalm1, Hkeys, Hav, Hrows.
    rewrite Hcalm in Hcalls. simpl in Hcalls. rewrite Hfind in Hcalls.
    inversion Hchosen as [|y ys Hqrest Hrest_nd]; subst.
    assert (Hnd1 : NoDup (map po_ref (payouts (db w1)))).
    { replace (map po_ref (payouts (db w1)))
        with (map (fun k : string * option string * option string => fst (fst k))
                  (map payout_key (payouts (db w1))))
        by (rewrite map_map; reflexivity).
      rewrite Hkeys, map_map. exact Hnd. }
    assert (Hstay : forall x, In x rest -> In x (payouts (db w1))).
    { intros x Hx. rewrite Hrows. apply in_map_iff. exists x.
      split; [ | apply Hin; right; exact Hx].
      destruct (String.eqb_spec (po_ref x) (po_ref q)) as [Heq | _];
        [ | reflexivity].
      exfalso. apply Hqrest. rewrite <- Heq. apply in_map. exact Hx. }
    destruct i as [|j].
    + injection Hnth as <-. cbn [firstn flat_map]. rewrite app_nil_r.
      apply (keeps_for_of_in (row_stays _) (row_stays_refl _) (row_stays_trans _)).
      * intros x Hx. apply verifyPayrollPayment_other_row.
        rewrite settled_ref. intros Heq. apply Hqrest. rewrite Heq.
        apply in_map. exact Hx.
      * rewrite Hrows. apply in_map_iff. exists q.
        rewrite String.eqb_refl. split; [reflexivity | ].
        apply Hin. left. reflexivity.
    + cbn [nth_error] in Hnth. cbn [firstn flat_map].
      pose proof (IH w1 Hcalm1 Hnd1 Hrest_nd Hstay j p Hnth) as Hp.
      rewrite Hcalls, Hav, <- app_assoc in Hp.
      replace (flat_map (verification_calls E w1) (firstn j rest))
        with (flat_map (verification_calls E w) (firstn j rest)) in Hp.
      * exact Hp.
      * apply flat_map_ext. intros x. unfold verification_calls.
        rewrite Hav. reflexivity.
Qed.

End SettledStatus.

(** C5, as stated, fails, in two ways.  A payout that is selected is not
    always resolved: with the providers out of reach, the M-Pesa payout
    of May is asked for and stays 'PROCESSING', and the bank payout is
    marked 'FAILED' although no provider was asked about it.  And the
    payouts selected are not always those of the month given: for a
    month of the year 50 the query asks for the year 1950, so that the
    pending payout of June 50 is passed over and the one of June 1950
    is verified. *)
Lemma reconcilePayroll_leaves_payouts_unresolved :
  (let run := Payroll.reconcilePayroll Outage.providers
                {| year := 2024; month := 4; ms := 5 |} Sample.calm in
   fst run = Ok tt
   /\ calls (snd run) = [MpesaVerify (Some "AG_9")]
   /\ map po_ref (payouts (db (snd run))) = ["REF-7"; "AG_9"]
   /\ map po_status (payouts (db (snd run))) = ["FAILED"; "PROCESSING"])
  /\ (let june_50 := {| year := 50; month := 5; ms := 0 |} in
      let of_50 :=
        {| po_ref := "MP_50"; po_employeeId := "emp-1"; po_amount := JS.Fin 500;
           po_status := "PROCESSING"; po_type := "SALARY";
           po_bank := Some "M-Pesa"; po_transactionId := Some "MP_50";
           po_createdAt := {| year := 50; month := 5; ms := 1000 |} |} in
      let of_1950 :=
        {| po_ref := "MP_1950"; po_employeeId := "emp-1";
           po_amount := JS.Fin 500;
           po_status := "PROCESSING"; po_type := "SALARY";
           po_bank := Some "M-Pesa"; po_transactionId := Some "MP_1950";
           po_createdAt := {| year := 1950; month := 5; ms := 1000 |} |} in
      let w := set_db (set_payouts [of_50; of_1950] Sample.campus)
                 Sample.calm in
      let run := Payroll.reconcilePayroll Sample.providers june_50 w in
      pending_salary_payout_of june_50 of_50
      /\ ~ pending_salary_payout_of june_50 of_1950
      /\ calls (snd run) = [MpesaVerify (Some "MP_1950")]
      /\ map po_ref (payouts (db (snd run))) = ["MP_50"; "MP_1950"]
      /\ map po_status (payouts (db (snd run))) = ["PROCESSING"; "SUCCESS"]).
Proof.
  split.
  - vm_compute. repeat split.
  - cbv zeta. split; [repeat split | ]. split.
    + intros (_ & (Hyear & _) & _). discriminate Hyear.
    + vm_compute. repeat split.
Qed.

(** C5, amended: [reconcilePayroll] selects exactly the salary payouts
    that are still 'PROCESSING' and were created in the calendar month
    that its query asks for; this is the month given unless its year is
    one of 0 to 99, which the constructor of dates takes for 1900 to
    1999.  It runs [verifyPayrollPayment] on the reference of each of
    them, one after the other in the order of the table; when the query
    itself is rejected it throws and has done nothing.  No other payout
    is touched.  In a world without database faults the verification
    calls that reach the providers are those of the selected payouts, in
    order, and each selected payout is left with the status that its
    verification settles from the answer of its provider: 'SUCCESS',
    'FAILED' or 'PENDING'; a bank payout whose provider cannot be asked
    is marked 'FAILED', and an M-Pesa payout whose provider cannot be
    asked stays 'PROCESSING'. *)
Theorem reconcilePayroll_verifies_selected :
  forall (E : Env) (month : Date) (w : World),
    well_formed month ->
    (forall p, In p (payouts (db w)) -> well_formed (po_createdAt p)) ->
    NoDup (map po_ref (payouts (db w))) ->
    let chosen := filter (selected month) (payouts (db w)) in
    let run := Payroll.reconcilePayroll E month w in
    (forall p, In p chosen <->
               In p (payouts (db w))
               /\ pending_salary_payout_of (queried_month month) p)
    /\ (~ (0 <= year month <= 99)%Z ->
        forall p, In p chosen <->
                  In p (payouts (db w)) /\ pending_salary_payout_of month p)
    /\ (if next_calls_run 1 (faults w)
        then fst run = Ok tt
             /\ exists w0,
                  same_but_plan w w0
                  /\ run = for_of chosen
                             (fun payout =>
                                Payroll.verifyPayrollPayment E (po_ref payout))
                             w0
        else (exists e, fst run = Throw e) /\ same_but_plan w (snd run))
    /\ (forall p, In p (payouts (db w)) -> ~ In p chosen ->
                  In p (payouts (db (snd run))))
    /\ (faults w = [] ->
        calls (snd run) = calls w ++ flat_map (verification_calls E w) chosen
        /\ forall i p,
             nth_error chosen i = Some p ->
             find (fun x => String.eqb (po_ref x) (po_ref p))
                  (payouts (db (snd run)))
             = Some (settled
                       (verified_status E
                          (calls w ++
                           flat_map (verification_calls E w) (firstn i chosen))
                          (flutterwave_available E w) p)
                       p)).
Proof.
  intros E month w Hmonth Hdates Hnd. cbv zeta.
  assert (Hchosen : forall p,
             In p (filter (selected month) (payouts (db w))) <->
             In p (payouts (db w))
             /\ pending_salary_payout_of (queried_month month) p).
  { intros p. rewrite filter_In. split.
    - intros (Hin & Hsel). split; [exact Hin | ].
      apply selected_iff; auto.
    - intros (Hin & Hpending). split; [exact Hin | ].
      apply selected_iff; auto. }
  split; [exact Hchosen | ].
  split; [ | split; [ | split]].
  - intros Hyear p. rewrite Hchosen. unfold pending_salary_payout_of.
    rewrite (queried_month_same month (po_createdAt p) Hyear). tauto.
  - pose proof (reconcilePayroll_unfold E month w) as H.
    destruct (next_calls_run 1 (faults w)); [ | exact H].
    destruct H as (w0 & Hs & _ & Heq & Hfst).
    split; [exact Hfst | ]. exists w0. split; assumption.
  - intros p Hin Hnot. apply reconcilePayroll_other_rows; [assumption.. | ].
    destruct (selected month p) eqn:Hsel; [ | reflexivity].
    exfalso. apply Hnot. apply filter_In. split; assumption.
  - intros Hcalm.
    pose proof (reconcilePayroll_unfold E month w) as H.
    rewrite Hcalm in H. simpl in H.
    destruct H as (w0 & Hs & Hf0 & -> & _).
    pose proof Hs as (Hdb & Hc & _ & _ & Hi & Hfl & _).
    assert (Hav : flutterwave_available E w0 = flutterwave_available E w).
    { unfold flutterwave_available. rewrite Hi, Hfl. reflexivity. }
    assert (Hcalls : forall l,
               flat_map (verification_calls E w0) l
               = flat_map (verification_calls E w) l).
    { intros l. apply flat_map_ext. intros x.
      unfold verification_calls. rewrite Hav. reflexivity. }
    split.
    + rewrite for_of_verify_calls.
      * rewrite Hc, Hcalls. reflexivity.
      * exact Hf0.
      * rewrite Hdb. exact Hnd.
      * intros q Hq. rewrite Hdb. apply in_map.
        apply filter_In in Hq. apply Hq.
    + intros i p Hnth.
      pose proof (for_of_verify_rows E
                    (filter (selected month) (payouts (db w))) w0 Hf0) as Hrows.
      rewrite Hdb in Hrows.
      specialize (Hrows Hnd (NoDup_map_filter po_ref _ _ Hnd)
                    (fun q Hq => proj1 (proj1 (filter_In _ _ _) Hq)) i p Hnth).
      rewrite Hc, Hcalls, Hav in Hrows.
      rewrite <- (settled_ref
                    (verified_status E
                       (calls w ++
                        flat_map (verification_calls E w)
                          (firstn i (filter (selected month) (payouts (db w)))))
                       (flutterwave_available E w) p) p).
      apply find_the_row; [ | exact Hrows].
      (* references stay unique along the run *)
      assert (Hkeys : map payout_key
                        (payouts (db (snd (for_of
                           (filter (selected month) (payouts (db w)))
                           (fun payout =>
                              Payroll.verifyPayrollPayment E (po_ref payout))
                           w0))))
                      = map payout_key (payouts (db w0))).
      { apply (preserves_for_of (fun w1 => map payout_key (payouts (db w1)))).
        intros q. apply verifyPayrollPayment_keys. }
      replace (map po_ref
                 (payouts (db (snd (for_of
                    (filter (selected month) (payouts (db w)))
                    (fun payout =>
                       Payroll.verifyPayrollPayment E (po_ref payout)) w0)))))
        with (map (fun k : string * option string * option string => fst (fst k))
                  (map payout_key
                     (payouts (db (snd (for_of
                        (filter (selected month) (payouts (db w)))
                        (fun payout =>
                           Payroll.verifyPayrollPayment E (po_ref payout))
                        w0))))))
        by (rewrite map_map; reflexivity).
      rewrite Hkeys, Hdb, map_map. exact Hnd.
Qed.

(** Reconciling May 2024 on the sample: both payouts of May are still
    being processed, and each is verified with its own provider; the
    bank reports the transfer as pending and M-Pesa reports success. *)
Lemma reconcilePayroll_verifies_selected_witness :
  let run := Payroll.reconcilePayroll Sample.providers
               {| year := 2024; month := 4; ms := 5 |} Sample.calm in
  calls (snd run) = [FlwTransactionVerify (Some "7"); MpesaVerify (Some "AG_9")]
  /\ find (fun x => String.eqb (po_ref x) "REF-7") (payouts (db (snd run)))
     = Some {| po_ref := "REF-7"; po_employeeId := "emp-1";
               po_amount := JS.Fin 42000; po_status := "PENDING";
               po_type := "SALARY"; po_bank := Some "KCB";
               po_transactionId := Some "7";
               po_createdAt := {| year := 2024; month := 4; ms := 86400000 |} |}
  /\ find (fun x => String.eqb (po_ref x) "AG_9") (payouts (db (snd run)))
     = Some {| po_ref := "AG_9"; po_employeeId := "emp-1";
               po_amount := JS.Fin 500; po_status := "SUCCESS";
               po_type := "SALARY"; po_bank := Some "M-Pesa";
               po_transactionId := Some "AG_9";
               po_createdAt := {| year := 2024; month := 4; ms := 90000000 |} |}.
Proof.
  cbv zeta.
  assert (Hmonth : well_formed {| year := 2024; month := 4; ms := 5 |}).
  { unfold well_formed. vm_compute. repeat split; discriminate. }
  assert (Hdates : forall p, In p (payouts (db Sample.calm)) ->
                             well_formed (po_createdAt p)).
  { intros p [<- | [<- | []]]; unfold well_formed; vm_compute;
      repeat split; discriminate. }
  assert (Hnd : NoDup (map po_ref (payouts (db Sample.calm)))).
  { simpl. repeat constructor; simpl; intuition discriminate. }
  destruct (reconcilePayroll_verifies_selected Sample.providers
              {| year := 2024; month := 4; ms := 5 |} Sample.calm
              Hmonth Hdates Hnd) as (_ & _ & _ & _ & Hcalm).
  destruct (Hcalm eq_refl) as (Hcalls & Hrows).
  split; [rewrite Hcalls; reflexivity | ].
  split.
  - exact (Hrows 0%nat Sample.may_bank_payout eq_refl).
  - exact (Hrows 1%nat Sample.may_mpesa_payout eq_refl).
Defined.

(* ===================================================================== *)
(** * The endpoint that creates a bank *)
(* ===================================================================== *)





Section Banks.

Variable E : Env.




(** The endpoint with the session at hand. *)
Lemma POST_with_session request session w :
  BanksRoute.getServerSession request = Ok session ->
  BanksRoute.POST E request w =
  if BanksRoute.unauthorized session
  then (Ok {| BanksRoute.status := 401;
              BanksRoute.body := BanksRoute.ErrorBody "Unauthorized" |}, w)
  else try_catch (BanksRoute.POST_authorised E request session)
         (fun error =>
            ret {| BanksRoute.status := 500;
                   BanksRoute.body := BanksRoute.ErrorBody "Failed to add bank" |})
         w.
Proof.
  intros Hs. unfold BanksRoute.POST, try_catch at 1, bind at 1, BanksRoute.await.
  rewrite Hs. destruct (BanksRoute.unauthorized session); reflexivity.
Qed.



End Banks.




(* ===================================================================== *)
(** * Further properties of [src/lib/flutterwave.ts] *)
(* ===================================================================== *)

(** X1: The Flutterwave client is built at most once: the first call of
    [initializeFlutterwave] answers whether a client is there, and a
    second call gives the same answer and leaves the module state as the
    first call left it (the import of the client is taken to succeed or
    to fail every time alike).  No table is written and no provider is
    called. *)
Theorem initializeFlutterwave_twice :
  forall (E : Env) (w : World),
    let first := Flutterwave.initializeFlutterwave E w in
    fst first = Ok (flutterwave_available E w)
    /\ Flutterwave.initializeFlutterwave E (snd first) = first
    /\ db (snd first) = db w /\ calls (snd first) = calls w.
Proof.
  intros E w. cbv zeta.
  unfold Flutterwave.initializeFlutterwave, flutterwave_available.
  destruct (initialized w) eqn:Hi.
  - cbn [fst snd]. rewrite Hi. repeat split.
  - destruct (JS.truthy (FLUTTERWAVE_PUBLIC_KEY E)
              && JS.truthy (FLUTTERWAVE_SECRET_KEY E)) eqn:Hk.
    + destruct (flutterwave_loads E) eqn:Hl.
      * repeat split.
      * cbn [fst snd]. rewrite Hi. repeat split.
    + cbn [fst snd]. rewrite Hi. repeat split.
Qed.

(** X2: [verifyPayment] asks the provider once, for the reference it was
    given, exactly when the client is there, and hands on what the
    provider answers, be it a value or an error; without a client it
    throws and no provider is asked.  It writes nothing. *)
Theorem verifyPayment_asks_once :
  forall (E : Env) (reference : option string) (w : World),
    let run := Flutterwave.verifyPayment E reference w in
    db (snd run) = db w
    /\ if flutterwave_available E w
       then fst run = Transaction_verify E (calls w) reference
            /\ calls (snd run) = calls w ++ [FlwTransactionVerify reference]
       else fst run
            = Throw "Flutterwave not configured. Payment verification unavailable."
            /\ calls (snd run) = calls w.
Proof.
  intros E reference w. cbv zeta. split.
  - apply (verifyPayment_frame E db); reflexivity.
  - apply verifyPayment_spec.
Qed.

(** X3: [processBankTransfer] reaches the provider exactly when the client is
    there and neither the amount nor its rounding is [<= 0] ([NaN]
    passes both tests).  It then makes one call, whose payload carries
    the rounded amount, the currency KES and the other arguments as they
    were given, and hands on what the provider answers.  In every other
    case it throws without a call.  It writes nothing. *)
Theorem processBankTransfer_reaches_provider :
  forall (E : Env) (a : JS.number) (acc bank narr ben : string) (w : World),
    let run := Flutterwave.processBankTransfer E a acc bank narr ben w in
    let payload :=
      {| account_number := acc; amount := JS.Math_round a; account_bank := bank;
         narration := narr; currency := "KES"; beneficiary_name := ben |} in
    db (snd run) = db w
    /\ if flutterwave_available E w && negb (JS.le_zero a)
          && negb (JS.le_zero (JS.Math_round a))
       then fst run = Transfer_initiate E (calls w) payload
            /\ calls (snd run) = calls w ++ [FlwTransferInitiate payload]
       else (exists e, fst run = Throw e) /\ calls (snd run) = calls w.
Proof.
  intros E a acc bank narr ben w. cbv zeta. split.
  - apply (processBankTransfer_frame E db); reflexivity.
  - apply processBankTransfer_spec.
Qed.

(* ===================================================================== *)
(** * Further properties of [verifyPayrollPayment] *)
(* ===================================================================== *)

Lemma status_settled_refl ref w : status_settled ref w w.
Proof. left. reflexivity. Qed.

Lemma status_settled_trans ref a b c :
  status_settled ref a b -> status_settled ref b c -> status_settled ref a c.
Proof.
  intros [Hab | (s1 & Hs1 & Hab)] [Hbc | (s2 & Hs2 & Hbc)].
  - left. congruence.
  - right. exists s2. split; [exact Hs2 | ]. rewrite Hbc, Hab. reflexivity.
  - right. exists s1. split; [exact Hs1 | ]. congruence.
  - right. exists s2. split; [exact Hs2 | ].
    rewrite Hbc, Hab, map_map. apply map_ext. intros x.
    destruct (String.eqb (po_ref x) ref) eqn:Hx; simpl; rewrite Hx; reflexivity.
Qed.

Lemma untouched_status_settled {A : Type} ref (m : Async A) :
  preserves (fun w => payouts (db w)) m -> keeps (status_settled ref) m.
Proof. intros H w. left. apply H. Qed.

Lemma payslip_only_paid_refl x : paid_may_turn_true x x.
Proof. repeat split. intros H. exact H. Qed.

Lemma payslip_only_paid_trans x y z :
  paid_may_turn_true x y -> paid_may_turn_true y z -> paid_may_turn_true x z.
Proof.
  unfold paid_may_turn_true. intros H1 H2.
  decompose [and] H1. decompose [and] H2.
  repeat split; try congruence. auto.
Qed.

Lemma Forall2_refl {A : Type} (R : A -> A -> Prop) (l : list A) :
  (forall x, R x x) -> Forall2 R l l.
Proof. intros H. induction l; constructor; auto. Qed.

Lemma Forall2_trans {A : Type} (R : A -> A -> Prop) :
  (forall x y z, R x y -> R y z -> R x z) ->
  forall l1 l2 l3, Forall2 R l1 l2 -> Forall2 R l2 l3 -> Forall2 R l1 l3.
Proof.
  intros HR l1 l2 l3 H12. revert l3.
  induction H12 as [|x y l1 l2 Hxy _ IH]; intros l3 H23.
  - inversion H23. constructor.
  - inversion H23 as [|y' z l2' l3' Hyz H23']; subst.
    constructor; [eapply HR; eassumption | apply IH; exact H23'].
Qed.

Lemma Forall2_map_r {A : Type} (R : A -> A -> Prop) (f : A -> A) (l : list A) :
  (forall x, R x (f x)) -> Forall2 R l (map f l).
Proof. intros H. induction l; simpl; constructor; auto. Qed.

Lemma payslips_only_paid_refl w : payslips_only_paid w w.
Proof. apply Forall2_refl, payslip_only_paid_refl. Qed.

Lemma payslips_only_paid_trans a b c :
  payslips_only_paid a b -> payslips_only_paid b c -> payslips_only_paid a c.
Proof. apply Forall2_trans, payslip_only_paid_trans. Qed.

Lemma payslips_only_paid_same w w' :
  payslips (db w') = payslips (db w) -> payslips_only_paid w w'.
Proof.
  intros H. unfold payslips_only_paid. rewrite H.
  apply Forall2_refl, payslip_only_paid_refl.
Qed.

Lemma untouched_payslips_only_paid {A : Type} (m : Async A) :
  preserves (fun w => payslips (db w)) m -> keeps payslips_only_paid m.
Proof.
  intros H w. unfold payslips_only_paid. rewrite (H w).
  apply Forall2_refl, payslip_only_paid_refl.
Qed.

Lemma status_may_change_refl x : status_may_change x x.
Proof. exists (po_status x). destruct x. reflexivity. Qed.

Lemma status_may_change_trans x y z :
  status_may_change x y -> status_may_change y z -> status_may_change x z.
Proof. intros (s1 & ->) (s2 & ->). exists s2. reflexivity. Qed.

Lemma payouts_only_status_refl w : payouts_only_status w w.
Proof. apply Forall2_refl, status_may_change_refl. Qed.

Lemma payouts_only_status_trans a b c :
  payouts_only_status a b -> payouts_only_status b c -> payouts_only_status a c.
Proof. apply Forall2_trans, status_may_change_trans. Qed.

Lemma payouts_only_status_same w w' :
  payouts (db w') = payouts (db w) -> payouts_only_status w w'.
Proof.
  intros H. unfold payouts_only_status. rewrite H.
  apply Forall2_refl, status_may_change_refl.
Qed.

Lemma untouched_payouts_only_status {A : Type} (m : Async A) :
  preserves (fun w => payouts (db w)) m -> keeps payouts_only_status m.
Proof.
  intros H w. unfold payouts_only_status. rewrite (H w).
  apply Forall2_refl, status_may_change_refl.
Qed.

Section Verification.

Variable E : Env.

Lemma ask_provider_frame {X : Type} (f : World -> X) payout :
  (forall c w, f (log_call c w) = f w) ->
  (forall i j w, f (set_flutterwave i j w) = f w) ->
  preserves f (ask_provider E payout).
Proof.
  intros Hlog Hflw. unfold ask_provider.
  destruct (match po_bank payout with
            | Some b => String.eqb b "M-Pesa"
            | None => false
            end).
  - apply verify_mpesa_frame. exact Hlog.
  - apply verify_bank_frame; assumption.
Qed.

Lemma ask_provider_status payout w o w1 :
  ask_provider E payout w = (Ok o, w1) ->
  fst o = "SUCCESS" \/ fst o = "FAILED" \/ fst o = "PENDING".
Proof.
  unfold ask_provider.
  destruct (match po_bank payout with
            | Some b => String.eqb b "M-Pesa"
            | None => false
            end); intros H.
  - apply verify_mpesa_status in H. tauto.
  - apply verify_bank_status in H. exact H.
Qed.

Lemma mark_payslip_paid_only_paid ref :
  keeps payslips_only_paid (Payroll.mark_payslip_paid ref).
Proof.
  unfold Payroll.mark_payslip_paid.
  apply keeps_bind; [apply payslips_only_paid_trans | | ].
  - apply untouched_payslips_only_paid.
    unfold Prisma.payslip_findFirst_payoutRef. frame.
  - intros [slip|]; [ | apply keeps_ret, payslips_only_paid_refl].
    unfold Prisma.payslip_update. apply keeps_call.
    + apply payslips_only_paid_trans.
    + intros f w. apply payslips_only_paid_same. reflexivity.
    + intros w. destruct (existsb _ _); [ | apply payslips_only_paid_refl].
      unfold payslips_only_paid. simpl. apply Forall2_map_r. intros x.
      destruct (String.eqb (ps_id x) (ps_id slip));
        [ | apply payslip_only_paid_refl].
      repeat split.
Qed.

(** The shape of [verifyPayrollPayment] with the block that asks the
    provider named. *)
Lemma verifyPayrollPayment_shape ref :
  Payroll.verifyPayrollPayment E ref =
  try_catch
    (payout <- Prisma.payout_findUnique ref ;;
     match payout with
     | None => throw ("Payout with reference " ++ ref ++ " not found")
     | Some payout =>
         outcome <- ask_provider E payout ;;
         Prisma.payout_update_status ref (fst outcome) ;;;
         (if String.eqb (fst outcome) "SUCCESS"
          then Payroll.mark_payslip_paid ref else ret tt) ;;;
         ret (Payroll.Verified (fst outcome) (snd outcome))
     end)
    (fun error => ret (Payroll.VerifyFailed error)).
Proof. reflexivity. Qed.

Lemma verifyPayrollPayment_keeps (R : World -> World -> Prop) ref :
  (forall w, R w w) ->
  (forall a b c, R a b -> R b c -> R a c) ->
  (forall f w, R w (set_faults f w)) ->
  (forall payout, keeps R (ask_provider E payout)) ->
  (forall s, s = "SUCCESS" \/ s = "FAILED" \/ s = "PENDING" ->
             keeps R (Prisma.payout_update_status ref s)) ->
  keeps R (Payroll.mark_payslip_paid ref) ->
  keeps R (Payroll.verifyPayrollPayment E ref).
Proof.
  intros Hrefl Htrans Hplan Hask Hupdate Hmark.
  rewrite verifyPayrollPayment_shape.
  apply keeps_try_catch; [exact Htrans | | intros e; apply keeps_ret; exact Hrefl].
  apply keeps_bind; [exact Htrans | | ].
  - unfold Prisma.payout_findUnique, Prisma.read.
    apply keeps_call; [exact Htrans | exact Hplan | intros w; apply Hrefl].
  - intros [payout|]; [ | apply keeps_throw; exact Hrefl].
    apply (keeps_bind_post _ Htrans
             (fun o => fst o = "SUCCESS" \/ fst o = "FAILED" \/ fst o = "PENDING")).
    + intros w o w1. apply ask_provider_status.
    + apply Hask.
    + intros o Ho.
      apply keeps_bind; [exact Htrans | apply Hupdate; exact Ho | ].
      intros _. apply keeps_bind; [exact Htrans | | ].
      { destruct (String.eqb (fst o) "SUCCESS");
          [exact Hmark | apply keeps_ret; exact Hrefl]. }
      intros _. apply keeps_ret. exact Hrefl.
Qed.

Lemma payout_update_status_settled ref s :
  s = "SUCCESS" \/ s = "FAILED" \/ s = "PENDING" ->
  keeps (status_settled ref) (Prisma.payout_update_status ref s).
Proof.
  intros Hs. unfold Prisma.payout_update_status. apply keeps_call.
  - apply status_settled_trans.
  - intros f w. left. reflexivity.
  - intros w. destruct (existsb _ _); [ | left; reflexivity].
    right. exists s. split; [exact Hs | reflexivity].
Qed.

Lemma payout_update_status_only_status ref s :
  keeps payouts_only_status (Prisma.payout_update_status ref s).
Proof.
  unfold Prisma.payout_update_status. apply keeps_call.
  - apply payouts_only_status_trans.
  - intros f w. apply payouts_only_status_same. reflexivity.
  - intros w. destruct (existsb _ _); [ | apply payouts_only_status_refl].
    unfold payouts_only_status. simpl. apply Forall2_map_r. intros x.
    destruct (String.eqb (po_ref x) ref);
      [exists s; reflexivity | apply status_may_change_refl].
Qed.

Lemma verifyPayrollPayment_only_status ref :
  keeps payouts_only_status (Payroll.verifyPayrollPayment E ref).
Proof.
  apply verifyPayrollPayment_keeps.
  - apply payouts_only_status_refl.
  - apply payouts_only_status_trans.
  - intros f w. apply payouts_only_status_same. reflexivity.
  - intros payout. apply untouched_payouts_only_status.
    apply ask_provider_frame; reflexivity.
  - intros s _. apply payout_update_status_only_status.
  - apply untouched_payouts_only_status, mark_payslip_paid_payouts.
Qed.

Lemma verifyPayrollPayment_only_paid ref :
  keeps payslips_only_paid (Payroll.verifyPayrollPayment E ref).
Proof.
  apply verifyPayrollPayment_keeps.
  - apply payslips_only_paid_refl.
  - apply payslips_only_paid_trans.
  - intros f w. apply payslips_only_paid_same. reflexivity.
  - intros payout. apply untouched_payslips_only_paid.
    apply ask_provider_frame; reflexivity.
  - intros s _. apply untouched_payslips_only_paid.
    unfold Prisma.payout_update_status. frame.
  - apply mark_payslip_paid_only_paid.
Qed.

Lemma verifyPayrollPayment_other_tables ref :
  preserves (fun w => (reference_tables w, notifications (db w)))
            (Payroll.verifyPayrollPayment E ref).
Proof.
  rewrite verifyPayrollPayment_shape.
  apply preserves_try_catch; [ | intros; apply preserves_ret].
  apply preserves_bind; [unfold Prisma.payout_findUnique; frame | ].
  intros [payout|]; [ | apply preserves_throw].
  apply preserves_bind; [apply ask_provider_frame; reflexivity | ].
  intros o.
  unfold Payroll.mark_payslip_paid, Prisma.payslip_findFirst_payoutRef,
    Prisma.payslip_update, Prisma.payout_update_status.
  frame.
Qed.

Lemma verification_calls_are_verifications w payout :
  forallb is_verification (verification_calls E w payout) = true
  /\ (length (verification_calls E w payout) <= 1)%nat.
Proof.
  unfold verification_calls.
  destruct (match po_bank payout with
            | Some b => String.eqb b "M-Pesa"
            | None => false
            end); [split; [reflexivity | simpl; lia] | ].
  destruct (flutterwave_available E w); split; simpl; try reflexivity; lia.
Qed.

Lemma verifyPayrollPayment_made ref w :
  exists made,
    calls (snd (Payroll.verifyPayrollPayment E ref w)) = calls w ++ made
    /\ forallb is_verification made = true /\ (length made <= 1)%nat.
Proof.
  rewrite verifyPayrollPayment_calls.
  destruct (next_calls_run 1 (faults w));
    [ | exists []; repeat split; simpl; lia].
  destruct (find _ (payouts (db w))) as [payout|];
    [ | exists []; repeat split; simpl; lia].
  exists (verification_calls E w payout). split; [reflexivity | ].
  apply verification_calls_are_verifications.
Qed.

Lemma for_of_verify_made (chosen : list Payout) : forall w,
  exists made,
    calls (snd (for_of chosen
                  (fun payout => Payroll.verifyPayrollPayment E (po_ref payout)) w))
    = calls w ++ made
    /\ forallb is_verification made = true
    /\ (length made <= length chosen)%nat.
Proof.
  induction chosen as [|q rest IH]; intros w.
  - exists []. simpl. rewrite app_nil_r. repeat split. lia.
  - cbn [for_of].
    destruct (verifyPayrollPayment_returns E (po_ref q) w) as (a & w1 & Hv).
    rewrite (bind_Ok _ _ _ _ _ Hv).
    destruct (verifyPayrollPayment_made (po_ref q) w) as (m1 & H1 & F1 & L1).
    rewrite Hv in H1. simpl in H1.
    destruct (IH w1) as (m2 & H2 & F2 & L2).
    exists (m1 ++ m2). rewrite H2, H1, app_assoc. split; [reflexivity | ].
    rewrite forallb_app, F1, F2, length_app. split; [reflexivity | simpl; lia].
Qed.

(** In a calm world, marking the payslip paid does not throw. *)
Lemma mark_payslip_paid_calm ref w :
  faults w = [] ->
  exists w', Payroll.mark_payslip_paid ref w = (Ok tt, w') /\ faults w' = [].
Proof.
  intros Hcalm. unfold Payroll.mark_payslip_paid,
    Prisma.payslip_findFirst_payoutRef, Prisma.read.
  unfold bind. rewrite (call_calm _ w Hcalm).
  destruct (find _ (payslips (db w))) as [slip|] eqn:Hfind.
  - unfold Prisma.payslip_update. rewrite (call_calm _ w Hcalm).
    assert (Hex : existsb (fun p => String.eqb (ps_id p) (ps_id slip))
                          (payslips (db w)) = true).
    { apply existsb_exists. exists slip. apply find_some in Hfind.
      split; [apply Hfind | apply String.eqb_refl]. }
    rewrite Hex. eexists. split; [reflexivity | exact Hcalm].
  - exists w. split; [reflexivity | exact Hcalm].
Qed.

(** What [verifyPayrollPayment] returns in a calm world. *)
Lemma verifyPayrollPayment_calm_result ref w payout :
  faults w = [] ->
  find (fun x => String.eqb (po_ref x) ref) (payouts (db w)) = Some payout ->
  fst (Payroll.verifyPayrollPayment E ref w) =
  match fst (ask_provider E payout w) with
  | Ok outcome => Ok (Payroll.Verified (fst outcome) (snd outcome))
  | Throw e => Ok (Payroll.VerifyFailed e)
  end.
Proof.
  intros Hcalm Hfind. rewrite verifyPayrollPayment_shape.
  assert (H0 : Prisma.payout_findUnique ref w = (Ok (Some payout), w)).
  { unfold Prisma.payout_findUnique, Prisma.read.
    rewrite (call_calm _ w Hcalm), Hfind. reflexivity. }
  unfold try_catch. rewrite (bind_Ok _ _ _ _ _ H0).
  pose proof (ask_provider_frame db payout (fun _ _ => eq_refl)
                (fun _ _ _ => eq_refl) w) as Hdb.
  pose proof (ask_provider_frame faults payout (fun _ _ => eq_refl)
                (fun _ _ _ => eq_refl) w) as Hfaults.
  unfold bind at 1.
  destruct (ask_provider E payout w) as [[outcome|e] w1];
    simpl in Hdb, Hfaults; cbn [fst]; [ | reflexivity].
  assert (Hcalm1 : faults w1 = []) by congruence.
  assert (Hexists : existsb (fun x => String.eqb (po_ref x) ref)
                            (payouts (db w1)) = true).
  { rewrite Hdb. apply existsb_exists. apply find_some in Hfind.
    exists payout. exact Hfind. }
  unfold bind at 1. unfold Prisma.payout_update_status.
  rewrite (call_calm _ w1 Hcalm1), Hexists.
  unfold bind at 1.
  destruct (String.eqb (fst outcome) "SUCCESS"); [ | reflexivity].
  match goal with
  | |- context [Payroll.mark_payslip_paid ref ?w2] =>
      destruct (mark_payslip_paid_calm ref w2 Hcalm1) as (w3 & -> & _)
  end.
  reflexivity.
Qed.

End Verification.

Section VerificationOutcome.

Variable E : Env.

(** In a calm world, marking the payslip paid writes what
    [payslip_marked_paid] says. *)
Lemma mark_payslip_paid_calm_payslips ref w :
  faults w = [] ->
  payslips (db (snd (Payroll.mark_payslip_paid ref w)))
  = payslip_marked_paid ref (payslips (db w)).
Proof.
  intros Hcalm. unfold Payroll.mark_payslip_paid,
    Prisma.payslip_findFirst_payoutRef, Prisma.read, payslip_marked_paid.
  unfold bind. rewrite (call_calm _ w Hcalm).
  destruct (find _ (payslips (db w))) as [slip|] eqn:Hfind; [ | reflexivity].
  unfold Prisma.payslip_update. rewrite (call_calm _ w Hcalm).
  assert (Hex : existsb (fun p => String.eqb (ps_id p) (ps_id slip))
                        (payslips (db w)) = true).
  { apply existsb_exists. exists slip. apply find_some in Hfind.
    split; [apply Hfind | apply String.eqb_refl]. }
  rewrite Hex. reflexivity.
Qed.

(** The payslips after a verification in a calm world. *)
Lemma verifyPayrollPayment_calm_payslips ref w payout :
  faults w = [] ->
  find (fun x => String.eqb (po_ref x) ref) (payouts (db w)) = Some payout ->
  payslips (db (snd (Payroll.verifyPayrollPayment E ref w))) =
  match fst (ask_provider E payout w) with
  | Ok outcome =>
      if String.eqb (fst outcome) "SUCCESS"
      then payslip_marked_paid ref (payslips (db w))
      else payslips (db w)
  | Throw e => payslips (db w)
  end.
Proof.
  intros Hcalm Hfind. rewrite verifyPayrollPayment_shape.
  assert (H0 : Prisma.payout_findUnique ref w = (Ok (Some payout), w)).
  { unfold Prisma.payout_findUnique, Prisma.read.
    rewrite (call_calm _ w Hcalm), Hfind. reflexivity. }
  unfold try_catch. rewrite (bind_Ok _ _ _ _ _ H0).
  pose proof (ask_provider_frame E db payout (fun _ _ => eq_refl)
                (fun _ _ _ => eq_refl) w) as Hdb.
  pose proof (ask_provider_frame E faults payout (fun _ _ => eq_refl)
                (fun _ _ _ => eq_refl) w) as Hfaults.
  unfold bind at 1.
  destruct (ask_provider E payout w) as [[outcome|e] w1];
    simpl in Hdb, Hfaults; cbn [fst]; [ | simpl; rewrite Hdb; reflexivity].
  assert (Hcalm1 : faults w1 = []) by congruence.
  assert (Hexists : existsb (fun x => String.eqb (po_ref x) ref)
                            (payouts (db w1)) = true).
  { rewrite Hdb. apply existsb_exists. apply find_some in Hfind.
    exists payout. exact Hfind. }
  unfold bind at 1. unfold Prisma.payout_update_status.
  rewrite (call_calm _ w1 Hcalm1), Hexists.
  unfold bind at 1.
  destruct (String.eqb (fst outcome) "SUCCESS").
  - match goal with
    | |- context [Payroll.mark_payslip_paid ref ?w2] =>
        pose proof (mark_payslip_paid_calm_payslips ref w2 Hcalm1) as Hmark;
        destruct (mark_payslip_paid_calm ref w2 Hcalm1) as (w3 & Hrun & _)
    end.
    rewrite Hrun in Hmark |- *. simpl in Hmark |- *. rewrite Hmark, Hdb.
    reflexivity.
  - simpl. rewrite Hdb. reflexivity.
Qed.

End VerificationOutcome.

(** X4: [verifyPayrollPayment] with a reference that no payout carries: it
    returns the failure "Payout with reference ... not found", asks no
    provider and writes nothing. *)
Theorem verifyPayrollPayment_unknown_reference :
  forall (E : Env) (payoutRef : string) (w : World),
    next_calls_run 1 (faults w) = true ->
    (forall p, In p (payouts (db w)) -> po_ref p <> payoutRef) ->
    exists w',
      Payroll.verifyPayrollPayment E payoutRef w
      = (Ok (Payroll.VerifyFailed
               ("Payout with reference " ++ payoutRef ++ " not found")), w')
      /\ same_but_plan w w'.
Proof.
  intros E ref w Hplan Hnone. rewrite verifyPayrollPayment_shape.
  unfold Prisma.payout_findUnique, Prisma.read.
  match goal with
  | |- context [Prisma.call ?run] =>
      destruct (call_runs run w Hplan) as (w0 & Hs & _ & Hcall)
  end.
  unfold try_catch, bind. rewrite Hcall. cbv beta.
  assert (Hfind : find (fun x => String.eqb (po_ref x) ref) (payouts (db w0))
                  = None).
  { destruct (find _ _) as [p|] eqn:Hf; [exfalso | reflexivity].
    apply find_some in Hf. destruct Hf as (Hin & Heq).
    apply String.eqb_eq in Heq. destruct Hs as (Hdb & _). rewrite Hdb in Hin.
    apply (Hnone p Hin Heq). }
  rewrite Hfind. exists w0. split; [reflexivity | exact Hs].
Qed.

Lemma verifyPayrollPayment_unknown_reference_witness :
  exists w',
    Payroll.verifyPayrollPayment Sample.providers "REF-0" Sample.calm
    = (Ok (Payroll.VerifyFailed "Payout with reference REF-0 not found"), w')
    /\ same_but_plan Sample.calm w'.
Proof.
  apply (verifyPayrollPayment_unknown_reference Sample.providers "REF-0"
           Sample.calm).
  - reflexivity.
  - intros p [<- | [<- | []]]; discriminate.
Defined.

(** X5: [verifyPayrollPayment] never throws, and all it can change in the
    table of payouts is the status of the payout under its reference,
    which becomes 'SUCCESS', 'FAILED' or 'PENDING': no payout is created
    or removed and no other column is written.  The tables of employees,
    users, banks, activities and notifications are left alone. *)
Theorem verifyPayrollPayment_changes_one_status :
  forall (E : Env) (payoutRef : string) (w : World),
    let run := Payroll.verifyPayrollPayment E payoutRef w in
    (exists result, fst run = Ok result)
    /\ (payouts (db (snd run)) = payouts (db w)
        \/ exists s,
             (s = "SUCCESS" \/ s = "FAILED" \/ s = "PENDING")
             /\ payouts (db (snd run)) =
                  map (fun x => if String.eqb (po_ref x) payoutRef
                                then Prisma.with_status s x else x)
                      (payouts (db w)))
    /\ reference_tables (snd run) = reference_tables w
    /\ notifications (db (snd run)) = notifications (db w).
Proof.
  intros E ref w. cbv zeta. split; [ | split].
  - destruct (verifyPayrollPayment_returns E ref w) as (a & w' & ->).
    exists a. reflexivity.
  - apply (verifyPayrollPayment_keeps E (status_settled ref)).
    + apply status_settled_refl.
    + apply status_settled_trans.
    + intros f w0. left. reflexivity.
    + intros payout. apply untouched_status_settled.
      apply ask_provider_frame; reflexivity.
    + apply payout_update_status_settled.
    + apply untouched_status_settled, mark_payslip_paid_payouts.
  - pose proof (verifyPayrollPayment_other_tables E ref w) as H.
    split; [exact (f_equal fst H) | exact (f_equal snd H)].
Qed.

(** X6: Neither [verifyPayrollPayment] nor [reconcilePayroll] creates,
    removes or reorders a payslip, and the only column of a payslip that
    they write is [paid], which they only ever set to true: a payslip
    that was paid stays paid, whatever the provider reports. *)
Theorem verification_only_marks_payslips_paid :
  forall (E : Env) (w : World),
    (forall payoutRef,
        Forall2 paid_may_turn_true
          (payslips (db w))
          (payslips (db (snd (Payroll.verifyPayrollPayment E payoutRef w)))))
    /\ (forall month,
          Forall2 paid_may_turn_true
            (payslips (db w))
            (payslips (db (snd (Payroll.reconcilePayroll E month w))))).
Proof.
  intros E w. split.
  - intros ref. apply (verifyPayrollPayment_only_paid E ref w).
  - intros month.
    assert (H : keeps payslips_only_paid (Payroll.reconcilePayroll E month)).
    { unfold Payroll.reconcilePayroll.
      apply keeps_try_catch;
        [apply payslips_only_paid_trans | |
         intros e; apply keeps_throw, payslips_only_paid_refl].
      apply keeps_bind; [apply payslips_only_paid_trans | | ].
      - apply untouched_payslips_only_paid.
        unfold Prisma.payout_findMany. frame.
      - intros found. apply keeps_for_of.
        + apply payslips_only_paid_refl.
        + apply payslips_only_paid_trans.
        + intros payout. apply verifyPayrollPayment_only_paid. }
    apply (H w).
Qed.

(** X7: What a verification does with the answer of the provider, in a
    world without database faults and for a payout that exists.  For a
    payout that went through M-Pesa, a result code that is the number 0
    settles 'SUCCESS' and any other result code 'FAILED'.  For any other
    payout, with the Flutterwave client in place, the status 'success'
    of the answer settles 'SUCCESS', 'failed' settles 'FAILED', and
    anything else 'PENDING'.  The status settled is written to the
    payout under the reference and put into the result, over which the
    properties of the answer are then spread; on 'SUCCESS'
    the first payslip that carries the reference is marked paid, and
    otherwise the payslips are left as they were. *)
Theorem verifyPayrollPayment_settles :
  forall (E : Env) (payoutRef : string) (w : World) (payout : Payout),
    faults w = [] ->
    find (fun x => String.eqb (po_ref x) payoutRef) (payouts (db w))
      = Some payout ->
    let run := Payroll.verifyPayrollPayment E payoutRef w in
    let settled := fun status answer =>
      fst run = Ok (Payroll.Verified status (Some answer))
      /\ payouts (db (snd run)) =
           map (fun x => if String.eqb (po_ref x) payoutRef
                         then Prisma.with_status status x else x)
               (payouts (db w))
      /\ payslips (db (snd run)) =
           if String.eqb status "SUCCESS"
           then payslip_marked_paid payoutRef (payslips (db w))
           else payslips (db w) in
    if went_through_mpesa payout then
      forall v code,
        daraja_verify E (calls w) (po_transactionId payout) = Ok v ->
        Result_ResultCode v = Some code ->
        settled (if JS.strict_eq_zero code then "SUCCESS" else "FAILED") (inr v)
    else
      forall answer,
        flutterwave_available E w = true ->
        Transaction_verify E (calls w) (po_transactionId payout) = Ok answer ->
        settled (bank_status answer) (inl answer).
Proof.
  intros E ref w payout Hcalm Hfind. cbv zeta.
  pose proof (verifyPayrollPayment_calm_result E ref w payout Hcalm Hfind) as Hr.
  pose proof (verifyPayrollPayment_writes_outcome E ref w payout Hcalm Hfind)
    as Hw.
  fold (ask_provider E payout) in Hw.
  pose proof (verifyPayrollPayment_calm_payslips E ref w payout Hcalm Hfind)
    as Hs.
  pose proof (ask_provider_outcome E payout w) as Ho.
  destruct (went_through_mpesa payout).
  - intros v code Hv Hcode. rewrite Hv, Hcode in Ho.
    rewrite Ho in Hr, Hw, Hs. cbn [fst snd] in Hr, Hw, Hs.
    split; [exact Hr | ]. split; [exact Hw | exact Hs].
  - intros answer Havail Hanswer. rewrite Havail, Hanswer in Ho.
    rewrite Ho in Hr, Hw, Hs. cbn [fst snd] in Hr, Hw, Hs.
    split; [exact Hr | ]. split; [exact Hw | exact Hs].
Qed.

(** The M-Pesa payout of the sample: the answer has result code 0, so
    the payout becomes 'SUCCESS'; no payslip carries its reference. *)
Lemma verifyPayrollPayment_settles_witness :
  let run := Payroll.verifyPayrollPayment Sample.providers "AG_9" Sample.calm in
  fst run = Ok (Payroll.Verified "SUCCESS"
                  (Some (inr {| Result_ResultCode :=
                                  Some (JS.VNum (JS.Fin 0)) |})))
  /\ payouts (db (snd run))
     = [Sample.may_bank_payout;
        Prisma.with_status "SUCCESS" Sample.may_mpesa_payout]
  /\ payslips (db (snd run)) = [Sample.may_payslip].
Proof.
  cbv zeta.
  apply (verifyPayrollPayment_settles Sample.providers "AG_9" Sample.calm
           Sample.may_mpesa_payout eq_refl eq_refl
           {| Result_ResultCode := Some (JS.VNum (JS.Fin 0)) |}
           (JS.VNum (JS.Fin 0)) eq_refl eq_refl).
Defined.

(** X8: A payout that did not go through M-Pesa is marked 'FAILED' whenever
    its verification cannot be carried out, be it that the Flutterwave
    client is not configured or that the provider rejects the request:
    the error is not reported, [{ success: true, status: 'FAILED' }] is
    returned. *)
Theorem unverifiable_bank_payout_is_marked_FAILED :
  forall (E : Env) (payoutRef : string) (w : World) (payout : Payout)
         (e : string),
    faults w = [] ->
    find (fun x => String.eqb (po_ref x) payoutRef) (payouts (db w))
      = Some payout ->
    match po_bank payout with
    | Some b => String.eqb b "M-Pesa"
    | None => false
    end = false ->
    flutterwave_available E w = false
    \/ Transaction_verify E (calls w) (po_transactionId payout) = Throw e ->
    let run := Payroll.verifyPayrollPayment E payoutRef w in
    fst run = Ok (Payroll.Verified "FAILED" None)
    /\ payouts (db (snd run)) =
         map (fun x => if String.eqb (po_ref x) payoutRef
                       then Prisma.with_status "FAILED" x else x)
             (payouts (db w)).
Proof.
  intros E ref w payout e Hcalm Hfind Hbank Hdown. cbv zeta.
  assert (Hask : fst (ask_provider E payout w) = Ok ("FAILED", None)).
  { unfold ask_provider. rewrite Hbank. unfold Payroll.verify_bank, try_catch.
    pose proof (verifyPayment_spec E (po_transactionId payout) w) as Hv.
    cbv zeta in Hv.
    assert (Hthrow : exists e', fst (Flutterwave.verifyPayment E
                                       (po_transactionId payout) w) = Throw e').
    { destruct (flutterwave_available E w).
      - destruct Hdown as [Hd | Hd]; [discriminate Hd | ].
        destruct Hv as (Hv & _). rewrite Hv, Hd. exists e. reflexivity.
      - destruct Hv as (Hv & _). eexists. exact Hv. }
    destruct Hthrow as (e' & He').
    unfold bind.
    destruct (Flutterwave.verifyPayment E (po_transactionId payout) w)
      as [[v|e0] w1]; simpl in He'; [discriminate He' | reflexivity]. }
  pose proof (verifyPayrollPayment_calm_result E ref w payout Hcalm Hfind) as Hr.
  pose proof (verifyPayrollPayment_writes_outcome E ref w payout Hcalm Hfind)
    as Hw.
  fold (ask_provider E payout) in Hw.
  rewrite Hask in Hr, Hw. split; assumption.
Qed.

(** Without Flutterwave keys the bank payout of the sample ends as
    'FAILED'. *)
Lemma unverifiable_bank_payout_is_marked_FAILED_witness :
  let run := Payroll.verifyPayrollPayment Outage.providers "REF-7" Sample.calm in
  fst run = Ok (Payroll.Verified "FAILED" None)
  /\ payouts (db (snd run))
     = [Prisma.with_status "FAILED" Sample.may_bank_payout;
        Sample.may_mpesa_payout].
Proof.
  cbv zeta.
  destruct (unverifiable_bank_payout_is_marked_FAILED Outage.providers "REF-7"
              Sample.calm Sample.may_bank_payout "" eq_refl eq_refl eq_refl
              (or_introl eq_refl)) as (Hr & Hp).
  split; [exact Hr | exact Hp].
Defined.

(** X9: An M-Pesa payout is left as it is when its verification cannot be
    carried out, be it that the request to M-Pesa throws or that the
    answer has no [Result]: the failure is returned with the message of
    the error, and nothing is written.  (A bank payout in the same
    situation is marked 'FAILED'.) *)
Theorem unverifiable_mpesa_payout_is_left_alone :
  forall (E : Env) (payoutRef : string) (w : World) (payout : Payout)
         (e : string),
    faults w = [] ->
    find (fun x => String.eqb (po_ref x) payoutRef) (payouts (db w))
      = Some payout ->
    match po_bank payout with
    | Some b => String.eqb b "M-Pesa"
    | None => false
    end = true ->
    daraja_verify E (calls w) (po_transactionId payout) = Throw e
    \/ (daraja_verify E (calls w) (po_transactionId payout)
          = Ok {| Result_ResultCode := None |}
        /\ e = "Cannot read properties of undefined (reading 'ResultCode')") ->
    let run := Payroll.verifyPayrollPayment E payoutRef w in
    fst run = Ok (Payroll.VerifyFailed e)
    /\ db (snd run) = db w
    /\ calls (snd run) = calls w ++ [MpesaVerify (po_transactionId payout)].
Proof.
  intros E ref w payout e Hcalm Hfind Hbank Hdown. cbv zeta.
  rewrite verifyPayrollPayment_shape.
  assert (H0 : Prisma.payout_findUnique ref w = (Ok (Some payout), w)).
  { unfold Prisma.payout_findUnique, Prisma.read.
    rewrite (call_calm _ w Hcalm), Hfind. reflexivity. }
  unfold try_catch. rewrite (bind_Ok _ _ _ _ _ H0).
  assert (Hask : ask_provider E payout w
                 = (Throw e, log_call (MpesaVerify (po_transactionId payout)) w)).
  { unfold ask_provider. rewrite Hbank.
    unfold Payroll.verify_mpesa, bind, Payroll.verifyMpesaPayment.
    destruct Hdown as [-> | (-> & ->)]; reflexivity. }
  rewrite (bind_Throw _ _ _ _ _ Hask). repeat split.
Qed.

Lemma unverifiable_mpesa_payout_is_left_alone_witness :
  let run := Payroll.verifyPayrollPayment Outage.providers "AG_9" Sample.calm in
  fst run = Ok (Payroll.VerifyFailed "M-Pesa timeout")
  /\ db (snd run) = db Sample.calm
  /\ calls (snd run) = calls Sample.calm ++ [MpesaVerify (Some "AG_9")].
Proof.
  cbv zeta.
  apply (unverifiable_mpesa_payout_is_left_alone Outage.providers "AG_9"
           Sample.calm Sample.may_mpesa_payout "M-Pesa timeout"
           eq_refl eq_refl eq_refl (or_introl eq_refl)).
Defined.

(** X10: [reconcilePayroll] never moves money and never creates or removes a
    payout: the only provider calls it makes are requests for the state
    of a payment, at most one for each payout that the query selects,
    and all it writes to a payout is its status.  The tables of
    employees, users, banks, activities and notifications are left
    alone. *)
Theorem reconcilePayroll_only_verifies :
  forall (E : Env) (month : Date) (w : World),
    let run := Payroll.reconcilePayroll E month w in
    (exists made,
        calls (snd run) = calls w ++ made
        /\ forallb is_verification made = true
        /\ (length made
            <= length (filter (selected month) (payouts (db w))))%nat)
    /\ Forall2 status_may_change (payouts (db w)) (payouts (db (snd run)))
    /\ reference_tables (snd run) = reference_tables w
    /\ notifications (db (snd run)) = notifications (db w).
Proof.
  intros E month w. cbv zeta. split; [ | split].
  - pose proof (reconcilePayroll_unfold E month w) as H.
    destruct (next_calls_run 1 (faults w)).
    + destruct H as (w0 & (_ & Hc & _) & _ & -> & _).
      destruct (for_of_verify_made E (filter (selected month) (payouts (db w))) w0)
        as (made & Hmade & Hver & Hlen).
      exists made. rewrite Hmade, Hc. repeat split; assumption.
    + destruct H as (_ & (_ & Hc & _)). exists []. rewrite Hc, app_nil_r.
      repeat split. simpl. lia.
  - assert (H : keeps payouts_only_status (Payroll.reconcilePayroll E month)).
    { unfold Payroll.reconcilePayroll.
      apply keeps_try_catch;
        [apply payouts_only_status_trans | |
         intros e; apply keeps_throw, payouts_only_status_refl].
      apply keeps_bind; [apply payouts_only_status_trans | | ].
      - apply untouched_payouts_only_status.
        unfold Prisma.payout_findMany. frame.
      - intros found. apply keeps_for_of.
        + apply payouts_only_status_refl.
        + apply payouts_only_status_trans.
        + intros payout. apply verifyPayrollPayment_only_status. }
    apply (H w).
  - assert (H : preserves (fun w0 => (reference_tables w0, notifications (db w0)))
                          (Payroll.reconcilePayroll E month)).
    { unfold Payroll.reconcilePayroll.
      apply preserves_try_catch; [ | intros; apply preserves_throw].
      apply preserves_bind; [unfold Prisma.payout_findMany; frame | ].
      intros found. apply preserves_for_of. intros payout.
      apply verifyPayrollPayment_other_tables. }
    specialize (H w).
    split; [exact (f_equal fst H) | exact (f_equal snd H)].
Qed.

(* ===================================================================== *)
(** * One payslip for an employee and a month *)
(* ===================================================================== *)

Lemma order_kept_refl w : order_kept w w.
Proof. intros H. exact H. Qed.

Lemma order_kept_trans a b c : order_kept a b -> order_kept b c -> order_kept a c.
Proof. unfold order_kept. auto. Qed.

Lemma untouched_order_kept {A : Type} (m : Async A) :
  preserves (fun w => payslips (db w)) m -> keeps order_kept m.
Proof.
  intros H w. specialize (H w). cbv beta in H.
  unfold order_kept, payslips_in_order. rewrite H. auto.
Qed.

(** An update of payslips that keeps employee and month keeps the
    order. *)
Lemma update_in_order (f : Payslip -> Payslip) (slips : list Payslip) :
  (forall x, ps_employeeId (f x) = ps_employeeId x /\ ps_month (f x) = ps_month x) ->
  payslip_months_well_formed slips /\ one_payslip_per_month slips ->
  payslip_months_well_formed (map f slips) /\ one_payslip_per_month (map f slips).
Proof.
  intros Hf (Hwf & Hone). split.
  - intros s Hs. apply in_map_iff in Hs. destruct Hs as (x & <- & Hx).
    rewrite (proj2 (Hf x)). apply Hwf, Hx.
  - intros i j s t Hi Hj He Hm.
    rewrite nth_error_map in Hi, Hj.
    destruct (nth_error slips i) as [x|] eqn:Hxi; [ | discriminate Hi].
    destruct (nth_error slips j) as [y|] eqn:Hyj; [ | discriminate Hj].
    injection Hi as <-. injection Hj as <-.
    destruct (Hf x) as (Hex & Hmx). destruct (Hf y) as (Hey & Hmy).
    rewrite Hex, Hey in He. rewrite Hmx, Hmy in Hm.
    apply (Hone i j x y Hxi Hyj He Hm).
Qed.

Lemma first_of_month_well_formed month :
  well_formed month -> well_formed (new_Date (getFullYear month) (getMonth month)).
Proof.
  destruct month as [y mo s]. unfold well_formed, new_Date, getFullYear, getMonth.
  simpl. intros (Hmo & _).
  rewrite (Z.mod_small mo 12) by lia. split; [exact Hmo | ].
  unfold days_in_month.
  destruct (mo =? 1)%Z; [destruct (is_leap_year _); lia | ].
  destruct ((mo =? 3)%Z || (mo =? 5)%Z || (mo =? 8)%Z || (mo =? 10)%Z); lia.
Qed.

Lemma first_of_month_same month :
  well_formed month ->
  same_calendar_month (new_Date (getFullYear month) (getMonth month))
                      (queried_month month).
Proof.
  destruct month as [y mo s]. unfold well_formed, same_calendar_month, new_Date,
    queried_month, getFullYear, getMonth. simpl. intros (Hmo & _).
  rewrite (Z.div_small mo 12) by lia. rewrite (Z.mod_small mo 12) by lia.
  split; [lia | reflexivity].
Qed.

(** A payslip for a month in which the employee has none is added
    without loss of order. *)
Lemma create_in_order (employeeId : string) (month : Date) (slips : list Payslip)
    (new : Payslip) :
  well_formed month ->
  payslip_of_month employeeId month slips = None ->
  ps_employeeId new = employeeId ->
  ps_month new = new_Date (getFullYear month) (getMonth month) ->
  payslip_months_well_formed slips /\ one_payslip_per_month slips ->
  payslip_months_well_formed (slips ++ [new])
  /\ one_payslip_per_month (slips ++ [new]).
Proof.
  intros Hmonth Hnone Hemp Hnew (Hwf & Hone).
  assert (Hfresh : forall x, In x slips -> ps_employeeId x = employeeId ->
                             same_calendar_month (ps_month x)
                               (queried_month month) -> False).
  { intros x Hx He Hm.
    pose proof (find_none _ _ Hnone x Hx) as Hfalse. cbv beta in Hfalse.
    rewrite He, String.eqb_refl in Hfalse. rewrite <- andb_assoc in Hfalse.
    cbn [andb] in Hfalse.
    apply (month_range_iff month (ps_month x) Hmonth (Hwf x Hx)) in Hm.
    rewrite Hm in Hfalse. discriminate Hfalse. }
  assert (Hsame : forall x, same_calendar_month (ps_month x) (ps_month new) ->
                            same_calendar_month (ps_month x)
                              (queried_month month)).
  { intros x (Hy & Hm). rewrite Hnew in Hy, Hm.
    destruct (first_of_month_same month Hmonth) as (Hy' & Hm').
    split; congruence. }
  split.
  - intros s Hs. apply in_app_or in Hs. destruct Hs as [Hs | [<- | []]].
    + apply Hwf, Hs.
    + rewrite Hnew. apply first_of_month_well_formed, Hmonth.
  - intros i j s t Hi Hj He Hm.
    destruct (Nat.lt_ge_cases i (length slips)) as [Li | Li];
      destruct (Nat.lt_ge_cases j (length slips)) as [Lj | Lj].
    + rewrite nth_error_app1 in Hi, Hj by assumption.
      apply (Hone i j s t Hi Hj He Hm).
    + exfalso. rewrite nth_error_app1 in Hi by assumption.
      rewrite nth_error_app2 in Hj by assumption.
      destruct (j - length slips)%nat as [|k]; simpl in Hj;
        [ | destruct k; discriminate Hj].
      injection Hj as <-.
      apply (Hfresh s (nth_error_In _ _ Hi)); [congruence | ].
      apply Hsame, Hm.
    + exfalso. rewrite nth_error_app1 in Hj by assumption.
      rewrite nth_error_app2 in Hi by assumption.
      destruct (i - length slips)%nat as [|k]; simpl in Hi;
        [ | destruct k; discriminate Hi].
      injection Hi as <-.
      apply (Hfresh t (nth_error_In _ _ Hj)); [congruence | ].
      apply Hsame. destruct Hm as (Hy & Hmo). split; congruence.
    + assert (Hi' : nth_error (slips ++ [new]) i <> None) by congruence.
      assert (Hj' : nth_error (slips ++ [new]) j <> None) by congruence.
      apply nth_error_Some in Hi', Hj'.
      rewrite length_app in Hi', Hj'. simpl in Hi', Hj'. lia.
Qed.

Section PayslipOrder.

Variable E : Env.
Variable month : Date.
Hypothesis month_well_formed : well_formed month.

Lemma record_payslip_order_kept p ref :
  keeps order_kept (Payroll.record_payslip E p month ref).
Proof.
  intros w.
  destruct (Payroll.record_payslip E p month ref w) as [[[]|e] w'] eqn:Hrun;
    cbn [snd].
  - apply record_payslip_Ok in Hrun. unfold order_kept, payslips_in_order.
    rewrite Hrun.
    destruct (payslip_of_month (Payroll.employeeId p) month (payslips (db w)))
      as [slip|] eqn:Hslip.
    + apply update_in_order. intros x.
      destruct (String.eqb (ps_id x) (ps_id slip)); split; reflexivity.
    + destruct (find _ (employees (db w))) as [details|]; [ | auto].
      apply (create_in_order (Payroll.employeeId p) month);
        [exact month_well_formed | exact Hslip | reflexivity | reflexivity].
  - apply record_payslip_throws_clean in Hrun.
    unfold order_kept, payslips_in_order. rewrite Hrun. auto.
Qed.

Lemma processPayrollPayment_order_kept p d :
  keeps order_kept (Payroll.processPayrollPayment E p month d).
Proof.
  unfold Payroll.processPayrollPayment.
  apply keeps_try_catch; [apply order_kept_trans | | ].
  - unfold Payroll.processPayrollPayment_try.
    apply keeps_bind; [apply order_kept_trans | | ].
    + apply untouched_order_kept.
      unfold Prisma.employee_findUnique_include. frame.
    + intros [employee|]; [ | apply keeps_throw, order_kept_refl].
      apply keeps_bind; [apply order_kept_trans | | intros ids; cbv zeta].
      { apply untouched_order_kept.
        apply (pay_frame E (fun w => payslips (db w))); reflexivity. }
      apply keeps_bind; [apply order_kept_trans | | intros _].
      { apply record_payslip_order_kept. }
      apply keeps_bind; [apply order_kept_trans | | intros _].
      { apply untouched_order_kept, record_payout_payslips. }
      apply keeps_bind; [apply order_kept_trans | | intros _].
      { apply untouched_order_kept, notify_employee_payslips. }
      apply keeps_ret, order_kept_refl.
  - intros e. apply keeps_bind; [apply order_kept_trans | | intros _].
    + apply untouched_order_kept. intros w. apply notify_admin_payslips.
    + apply keeps_ret, order_kept_refl.
Qed.

Lemma processBulkPayroll_loop_order_kept d payments :
  forall results,
    keeps order_kept (Payroll.processBulkPayroll_loop E payments month d results).
Proof.
  induction payments as [|p rest IH]; intros results; cbn [Payroll.processBulkPayroll_loop].
  - apply keeps_ret, order_kept_refl.
  - apply keeps_bind; [apply order_kept_trans | | intros r; apply IH].
    apply processPayrollPayment_order_kept.
Qed.

End PayslipOrder.

(** X11: Payroll runs never give an employee a second payslip for a calendar
    month: if no employee has two payslips in one month before
    [processPayrollPayment] or [processBulkPayroll], none has
    afterwards, whether the payments succeed or fail, and whatever the
    database rejects on the way.  (The payslips are taken to carry dates
    of the runtime.) *)
Theorem payroll_keeps_one_payslip_per_month :
  forall (E : Env) (month : Date) (description : string) (w : World),
    well_formed month ->
    payslip_months_well_formed (payslips (db w)) ->
    one_payslip_per_month (payslips (db w)) ->
    (forall p,
        one_payslip_per_month
          (payslips (db (snd (Payroll.processPayrollPayment E p month
                                description w)))))
    /\ (forall payments,
          one_payslip_per_month
            (payslips (db (snd (Payroll.processBulkPayroll E payments month
                                  description w))))).
Proof.
  intros E month d w Hmonth Hwf Hone. split.
  - intros p.
    apply (processPayrollPayment_order_kept E month Hmonth p d w).
    split; assumption.
  - intros payments. unfold Payroll.processBulkPayroll.
    apply (processBulkPayroll_loop_order_kept E month Hmonth d payments [] w).
    split; assumption.
Qed.

(** The M-Pesa payment of the sample for June 2024, where the only
    payslip is that of May. *)
Lemma payroll_keeps_one_payslip_per_month_witness :
  one_payslip_per_month
    (payslips (db (snd (Payroll.processPayrollPayment Sample.providers
                          Sample.mpesa_payment Sample.june_2024 "Salary"
                          Sample.calm)))).
Proof.
  apply (payroll_keeps_one_payslip_per_month Sample.providers Sample.june_2024
           "Salary" Sample.calm).
  - unfold well_formed. simpl. lia.
  - intros s [<- | []]. unfold well_formed. simpl. lia.
  - intros i j s t Hi Hj _ _.
    destruct i as [|i]; [ | destruct i; discriminate Hi].
    destruct j as [|j]; [reflexivity | destruct j; discriminate Hj].
Defined.

(* ===================================================================== *)
(** * Bulk payroll: batches and provider calls *)
(* ===================================================================== *)

Section Batches.

Variable E : Env.
Variable month : Date.
Variable description : string.

(** The results pushed before the loop are only carried along. *)
Lemma loop_carries ps : forall results w,
  Payroll.processBulkPayroll_loop E ps month description results w
  = (out <- Payroll.processBulkPayroll_loop E ps month description [] ;;
     ret (results ++ out)) w.
Proof.
  induction ps as [|p rest IH]; intros results w.
  - simpl. unfold bind, ret. rewrite app_nil_r. reflexivity.
  - destruct (processPayrollPayment_returns E month description
                (Payroll.validatedPayment p) w) as (r & w1 & Hp).
    rewrite (loop_step _ _ _ _ _ _ _ _ _ Hp).
    unfold bind at 1. rewrite (loop_step _ _ _ _ _ _ _ _ _ Hp).
    rewrite (IH (results ++ [r]) w1), (IH ([] ++ [r]) w1).
    unfold bind, ret.
    destruct (Payroll.processBulkPayroll_loop E rest month description [] w1)
      as [[out|e] w2]; [ | reflexivity].
    rewrite <- app_assoc. reflexivity.
Qed.

Lemma loop_app xs : forall ys results w,
  Payroll.processBulkPayroll_loop E (xs ++ ys) month description results w
  = (pushed <- Payroll.processBulkPayroll_loop E xs month description results ;;
     Payroll.processBulkPayroll_loop E ys month description pushed) w.
Proof.
  induction xs as [|p rest IH]; intros ys results w.
  - reflexivity.
  - destruct (processPayrollPayment_returns E month description
                (Payroll.validatedPayment p) w) as (r & w1 & Hp).
    cbn [app]. rewrite (loop_step _ _ _ _ _ _ _ _ _ Hp).
    unfold bind at 1. rewrite (loop_step _ _ _ _ _ _ _ _ _ Hp).
    rewrite (IH ys (results ++ [r]) w1). reflexivity.
Qed.

(** The calls that a payment is due to make: at most one, and it moves
    money. *)
Lemma provider_calls_due_shape p w :
  forallb is_initiation (provider_calls_due E p month description w) = true
  /\ (length (provider_calls_due E p month description w) <= 1)%nat.
Proof.
  unfold provider_calls_due, provider_calls_for.
  destruct (next_calls_run 1 (faults w)); [ | split; [reflexivity | simpl; lia]].
  destruct (Prisma.employee_with_relations _ _);
    [ | split; [reflexivity | simpl; lia]].
  repeat match goal with
         | |- context [if ?c then _ else _] => destruct c
         end; split; simpl; try reflexivity; lia.
Qed.

(** The calls of the loop: every call moves money, there is at most one
    for each payment and at least one for each success. *)
Lemma loop_made ps : forall results w,
  exists out made w',
    Payroll.processBulkPayroll_loop E ps month description results w
      = (Ok (results ++ out), w')
    /\ calls w' = calls w ++ made
    /\ forallb is_initiation made = true
    /\ (length (filter Payroll.success out) <= length made)%nat
    /\ (length made <= length ps)%nat.
Proof.
  induction ps as [|p rest IH]; intros results w.
  - exists [], [], w. simpl. rewrite !app_nil_r. repeat split; lia.
  - destruct (processPayrollPayment_calls E (Payroll.validatedPayment p)
                month description w) as (r & Hr & Hcalls & Hnone).
    destruct (Payroll.processPayrollPayment E (Payroll.validatedPayment p)
                month description w) as [r0 w1] eqn:Hp.
    simpl in Hr, Hcalls. subst r0.
    destruct (provider_calls_due_shape (Payroll.validatedPayment p) w)
      as (Hinit & Hone).
    destruct (IH (results ++ [r]) w1) as (out & made & w' & Hloop & Hc & Hi & Hs & Hl).
    exists (r :: out),
           (provider_calls_due E (Payroll.validatedPayment p) month description w
            ++ made), w'.
    rewrite (loop_step _ _ _ _ _ _ _ _ _ Hp), Hloop, <- app_assoc.
    split; [reflexivity | ].
    split; [rewrite Hc, Hcalls, app_assoc; reflexivity | ].
    split; [rewrite forallb_app, Hinit, Hi; reflexivity | ].
    rewrite length_app. cbn [filter length].
    destruct (Payroll.success r) eqn:Hsuccess.
    + destruct (provider_calls_due E (Payroll.validatedPayment p) month
                  description w) as [|c cs].
      * specialize (Hnone eq_refl). congruence.
      * simpl in *. lia.
    + lia.
Qed.

End Batches.

(** X12: A bulk payroll can be run in batches: running the payments [xs]
    and then the payments [ys] gives the results and leaves the
    database, the provider calls and everything else exactly as one run
    over [xs ++ ys]. *)
Theorem processBulkPayroll_in_batches :
  forall (E : Env) (xs ys : list Payroll.EmployeePayment) (month : Date)
         (description : string) (w : World),
    Payroll.processBulkPayroll E (xs ++ ys) month description w
    = (first <- Payroll.processBulkPayroll E xs month description ;;
       second <- Payroll.processBulkPayroll E ys month description ;;
       ret (first ++ second)) w.
Proof.
  intros E xs ys month description w. unfold Payroll.processBulkPayroll.
  rewrite loop_app. unfold bind at 1 2.
  destruct (Payroll.processBulkPayroll_loop E xs month description [] w)
    as [[first|e] w1]; [ | reflexivity].
  apply loop_carries.
Qed.

(** X13: The provider calls of a bulk payroll: each of them asks a provider
    to move money (none is a verification), there is at most one for
    each payment, and there are at least as many as results with
    [success: true]: no payment is reported as successful without its
    provider having been called. *)
Theorem processBulkPayroll_provider_calls :
  forall (E : Env) (payments : list Payroll.EmployeePayment) (month : Date)
         (description : string) (w : World),
    exists results made w',
      Payroll.processBulkPayroll E payments month description w
        = (Ok results, w')
      /\ calls w' = calls w ++ made
      /\ forallb is_initiation made = true
      /\ (length (filter Payroll.success results) <= length made)%nat
      /\ (length made <= length payments)%nat.
Proof.
  intros E payments month description w. unfold Payroll.processBulkPayroll.
  destruct (loop_made E month description payments [] w)
    as (out & made & w' & H).
  exists out, made, w'. exact H.
Qed.

(* ===================================================================== *)
(** * From a payment to its verification *)
(* ===================================================================== *)

Section PaymentThenVerification.

Variable E : Env.

Lemma processBankTransfer_available a acc bank narr ben :
  preserves (flutterwave_available E)
            (Flutterwave.processBankTransfer E a acc bank narr ben).
Proof.
  unfold Flutterwave.processBankTransfer, Flutterwave.Transfer_initiate_call.
  apply preserves_try_catch; [ | intros; apply preserves_throw].
  apply preserves_bind.
  - intros w. apply initializeFlutterwave_available.
  - intros inst. destruct (negb inst); [apply preserves_throw | ].
    destruct (negb (JS.typeof_number a) || JS.le_zero a);
      [apply preserves_throw | ].
    cbv zeta. destruct (JS.le_zero (JS.Math_round a)); [apply preserves_throw | ].
    intros w. reflexivity.
Qed.

Lemma pay_available p employee month d :
  preserves (flutterwave_available E) (Payroll.pay E p employee month d).
Proof.
  unfold Payroll.pay.
  destruct (String.eqb (Payroll.paymentMethod p) "bank").
  - unfold Payroll.pay_by_bank.
    destruct (negb (JS.truthy (Payroll.bankAccNo p))); [apply preserves_throw | ].
    cbv zeta.
    match goal with
    | |- context [negb (JS.truthy ?c)] => destruct (negb (JS.truthy c))
    end; [apply preserves_throw | ].
    match goal with
    | |- context [if ?c then _ else _] => destruct c
    end; [apply preserves_throw | ].
    apply preserves_bind.
    + apply processBankTransfer_available.
    + intros r. apply preserves_ret.
  - destruct (String.eqb (Payroll.paymentMethod p) "mpesa").
    + unfold Payroll.pay_by_mpesa.
      destruct (negb (JS.truthy (Payroll.phone p))); [apply preserves_throw | ].
      apply preserves_bind.
      * intros w. reflexivity.
      * intros r. apply preserves_ret.
    + apply preserves_throw.
Qed.

Lemma processPayrollPayment_available p month d :
  preserves (flutterwave_available E) (Payroll.processPayrollPayment E p month d).
Proof.
  unfold Payroll.processPayrollPayment.
  apply preserves_try_catch.
  - unfold Payroll.processPayrollPayment_try.
    apply preserves_bind; [unfold Prisma.employee_findUnique_include; frame | ].
    intros [employee|]; [ | apply preserves_throw].
    apply preserves_bind; [apply pay_available | intros ids; cbv zeta].
    unfold Payroll.record_payslip, Payroll.record_payout, Payroll.notify_employee,
      Payroll.payout_reference, Prisma.payslip_findFirst_month,
      Prisma.employee_findUnique, Prisma.payslip_update, Prisma.payslip_create,
      Prisma.payout_create, Prisma.notification_create.
    frame.
  - intros e.
    unfold Payroll.notify_admin, Prisma.user_findFirst_role,
      Prisma.notification_create.
    frame.
Qed.

(** A payout is only created under a reference that no payout has. *)
Lemma record_payout_fresh p employee tx ref w w' :
  Payroll.record_payout E p employee tx ref w = (Ok tt, w') ->
  forall q, In q (payouts (db w)) ->
            String.eqb (po_ref q)
              (if JS.truthy ref then JS.text ref
               else ("PAYOUT_" ++ timestamp_text E (clock w))%string) = false.
Proof.
  unfold Payroll.record_payout. intros H.
  rewrite (bind_Ok _ _ _ _ _ (payout_reference_runs E ref w)) in H.
  unfold Prisma.payout_create in H.
  assert (Hdb' : db (if JS.truthy ref then w else advance w) = db w)
    by (destruct (JS.truthy ref); reflexivity).
  apply call_inv in H. destruct H as [(e & He & _) | (w0 & Hs & H)];
    [discriminate He | ].
  destruct Hs as (Hdb & _).
  destruct (existsb _ (payouts (db w0))) eqn:Hex in H; [discriminate H | ].
  intros q Hq. rewrite Hdb, Hdb' in Hex.
  destruct (String.eqb (po_ref q) _) eqn:Heq; [ | reflexivity].
  assert (Htrue : existsb (fun p0 => String.eqb (po_ref p0)
                    (if JS.truthy ref then JS.text ref
                     else ("PAYOUT_" ++ timestamp_text E (clock w))%string))
                    (payouts (db w)) = true).
  { apply existsb_exists. exists q. split; assumption. }
  congruence.
Qed.

Lemma find_last {A : Type} (f : A -> bool) (l : list A) (x : A) :
  (forall y, In y l -> f y = false) -> f x = true ->
  find f (l ++ [x]) = Some x.
Proof.
  intros Hl Hx. induction l as [|y rest IH]; simpl.
  - rewrite Hx. reflexivity.
  - rewrite (Hl y (or_introl eq_refl)). apply IH.
    intros z Hz. apply Hl. right. exact Hz.
Qed.

(** A successful payment, seen from the world it leaves: the payout it
    created is the one found under its reference, and the client of the
    bank provider is there if the payment went through it. *)
Lemma processPayrollPayment_leaves_payout p month d w r w' :
  Payroll.processPayrollPayment E p month d w = (Ok r, w') ->
  Payroll.success r = true ->
  exists employee,
    let ref := if JS.truthy (Payroll.payoutRef r)
               then JS.text (Payroll.payoutRef r)
               else ("PAYOUT_" ++ timestamp_text E (clock w))%string in
    let row :=
      {| po_ref := ref;
         po_employeeId := Payroll.employeeId p;
         po_amount := Payroll.amount p;
         po_status := "PROCESSING";
         po_type := "SALARY";
         po_bank := if String.eqb (Payroll.paymentMethod p) "bank"
                    then JS.or_else (Payroll.bankId p)
                           (option_map bank_name (employee_bank employee))
                    else Some "M-Pesa";
         po_transactionId := Payroll.transactionId r;
         po_createdAt := if JS.truthy (Payroll.payoutRef r)
                         then clock w else next_instant w |} in
    (forall q, In q (payouts (db w)) -> String.eqb (po_ref q) ref = false)
    /\ find (fun x => String.eqb (po_ref x) ref) (payouts (db w')) = Some row
    /\ (String.eqb (Payroll.paymentMethod p) "bank" = true ->
        flutterwave_available E w' = true).
Proof.
  intros Hrun Hsuccess.
  pose proof (processPayrollPayment_available p month d w) as Havail.
  pose proof (processPayrollPayment_calls E p month d w) as Hcalls.
  cbv zeta in Hcalls. rewrite Hrun in Havail, Hcalls. cbn [fst snd] in *.
  destruct Hcalls as (r' & Hr' & _ & Hnone). injection Hr' as <-.
  rewrite processPayrollPayment_unfold in Hrun.
  destruct (Payroll.processPayrollPayment_try E p month d w)
    as [[r0|e] wt] eqn:Htry.
  2:{ injection Hrun as <- _. discriminate Hsuccess. }
  injection Hrun as -> ->.
  apply processPayrollPayment_try_Ok_inv in Htry.
  destruct Htry as (employee & w0 & ids & w1 & w2 & w3
                    & H0 & Hp & H2 & H3 & H4 & ->).
  apply read_Ok_inv in H0. destruct H0 as (Hs0 & Hemp).
  pose proof Hs0 as (Hdb0 & _ & Hclock0 & _ & _ & _ & Hticks0).
  pose proof (preserves_run _ _ _ _ _ (pay_db E p employee month d) Hp) as Hdb1.
  pose proof (preserves_run _ _ _ _ _ (pay_clock E p employee month d) Hp) as Hclock1.
  pose proof (preserves_run _ _ _ _ _ (record_payslip_payouts E p month (snd ids)) H2)
    as Hpo2.
  pose proof (preserves_run _ _ _ _ _ (record_payslip_clock E p month (snd ids)) H2)
    as Hclock2.
  pose proof (preserves_run _ _ _ _ _
                (pay_frame E ticks p employee month d
                   (fun _ _ => eq_refl) (fun _ _ _ => eq_refl)) Hp) as Hticks1.
  pose proof (preserves_run _ _ _ _ _ (record_payslip_ticks E p month (snd ids)) H2)
    as Hticks2.
  assert (Hnext : next_instant w2 = next_instant w).
  { unfold next_instant. rewrite Hticks2, Hticks1, Hticks0, Hclock2, Hclock1,
      Hclock0. reflexivity. }
  pose proof (record_payout_Ok E p employee (fst ids) (snd ids) w2 w3 H3) as Hpayouts.
  pose proof (record_payout_fresh p employee (fst ids) (snd ids) w2 w3 H3) as Hfresh.
  pose proof (preserves_run _ _ _ _ _ (notify_employee_payouts E employee month) H4)
    as Hpo4.
  cbv beta in *. cbn [Payroll.payoutRef Payroll.transactionId] in *.
  rewrite Hnext in Hpayouts.
  rewrite Hclock2, Hclock1, Hclock0 in Hfresh, Hpayouts.
  rewrite Hpo2, Hdb1, Hdb0 in Hfresh, Hpayouts.
  exists employee. cbv zeta. split; [exact Hfresh | ]. split.
  - rewrite Hpo4, Hpayouts. apply find_last; [exact Hfresh | ].
    cbn [po_ref]. apply String.eqb_refl.
  - intros Hbank. rewrite Havail.
    unfold provider_calls_due in Hnone.
    destruct (next_calls_run 1 (faults w));
      [ | specialize (Hnone eq_refl); discriminate Hnone].
    rewrite <- Hemp in Hnone. unfold provider_calls_for in Hnone.
    rewrite Hbank in Hnone.
    destruct (flutterwave_available E w); [reflexivity | ].
    rewrite andb_false_r in Hnone. cbn [andb] in Hnone.
    specialize (Hnone eq_refl). discriminate Hnone.
Qed.

End PaymentThenVerification.

(** X14: From a payment to its verification: after a successful
    [processPayrollPayment] whose result carries a reference, the payout
    found under that reference is the one just created, still
    'PROCESSING', and a [verifyPayrollPayment] of that reference asks
    exactly one provider for the transaction id of the result: M-Pesa
    when the payout is marked 'M-Pesa' (as it is for every payment that
    is not by 'bank'), the bank provider otherwise, whose client is then
    always there. *)
Theorem paid_payout_can_be_verified :
  forall (E : Env) (p : Payroll.EmployeePayment) (month : Date)
         (description : string) (w : World)
         (r : Payroll.ProcessPayrollResult) (w' : World),
    Payroll.processPayrollPayment E p month description w = (Ok r, w') ->
    Payroll.success r = true ->
    JS.truthy (Payroll.payoutRef r) = true ->
    next_calls_run 1 (faults w') = true ->
    exists row,
      find (fun x => String.eqb (po_ref x) (JS.text (Payroll.payoutRef r)))
           (payouts (db w')) = Some row
      /\ ~ In row (payouts (db w))
      /\ po_status row = "PROCESSING"
      /\ po_employeeId row = Payroll.employeeId p
      /\ po_transactionId row = Payroll.transactionId r
      /\ (Payroll.paymentMethod p <> "bank" -> po_bank row = Some "M-Pesa")
      /\ calls (snd (Payroll.verifyPayrollPayment E
                       (JS.text (Payroll.payoutRef r)) w'))
         = calls w' ++
           [if match po_bank row with
               | Some b => String.eqb b "M-Pesa"
               | None => false
               end
            then MpesaVerify (Payroll.transactionId r)
            else FlwTransactionVerify (Payroll.transactionId r)].
Proof.
  intros E p month d w r w' Hrun Hsuccess Href Hplan.
  destruct (processPayrollPayment_leaves_payout E p month d w r w' Hrun Hsuccess)
    as (employee & Hfresh & Hfind & Havail).
  rewrite Href in Hfresh, Hfind.
  eexists. split; [exact Hfind | ].
  split.
  { intros Hin. specialize (Hfresh _ Hin). cbn [po_ref] in Hfresh.
    rewrite String.eqb_refl in Hfresh. discriminate Hfresh. }
  split; [reflexivity | ]. split; [reflexivity | ]. split; [reflexivity | ].
  split.
  { intros Hbank. cbn [po_bank].
    destruct (String.eqb_spec (Payroll.paymentMethod p) "bank") as [Hb|Hb];
      [contradiction | reflexivity]. }
  rewrite verifyPayrollPayment_calls, Hplan, Hfind.
  unfold verification_calls. cbn [po_bank po_transactionId].
  destruct (String.eqb (Payroll.paymentMethod p) "bank") eqn:Hb.
  - rewrite (Havail eq_refl).
    destruct (match JS.or_else _ _ with Some b => _ | None => false end);
      reflexivity.
  - reflexivity.
Qed.

(** The M-Pesa payment of the sample, then its verification. *)
Lemma paid_payout_can_be_verified_witness :
  let paid := Payroll.processPayrollPayment Sample.providers
                Sample.mpesa_payment Sample.june_2024 "Salary" Sample.calm in
  exists row,
    find (fun x => String.eqb (po_ref x) "AG_1") (payouts (db (snd paid)))
      = Some row
    /\ po_status row = "PROCESSING"
    /\ calls (snd (Payroll.verifyPayrollPayment Sample.providers "AG_1" (snd paid)))
       = calls (snd paid) ++ [MpesaVerify (Some "AG_1")].
Proof.
  cbv zeta.
  destruct (paid_payout_can_be_verified Sample.providers Sample.mpesa_payment
              Sample.june_2024 "Salary" Sample.calm
              {| Payroll.success := true; Payroll.transactionId := Some "AG_1";
                 Payroll.error := None; Payroll.payoutRef := Some "AG_1" |}
              (snd (Payroll.processPayrollPayment Sample.providers
                      Sample.mpesa_payment Sample.june_2024 "Salary" Sample.calm)))
    as (row & Hfind & _ & Hstatus & _ & _ & Hbank & Hcalls).
  - vm_compute. reflexivity.
  - reflexivity.
  - reflexivity.
  - reflexivity.
  - exists row. split; [exact Hfind | ]. split; [exact Hstatus | ].
    rewrite (Hbank ltac:(discriminate)) in Hcalls. exact Hcalls.
Defined.

(* ===================================================================== *)
(** * The errors that a payment reports *)
(* ===================================================================== *)

Section Rejections.

Variable E : Env.

(** Why [processBankTransfer] throws when it makes no call, and what it
    hands on when it makes one. *)
Lemma processBankTransfer_outcome a acc bank narr ben w :
  fst (Flutterwave.processBankTransfer E a acc bank narr ben w) =
  if negb (flutterwave_available E w) then
    Throw "Flutterwave not configured. Payment processing unavailable."
  else if JS.le_zero a then
    Throw ("Invalid amount provided: " ++ number_text E a
           ++ ". Amount must be a positive number.")
  else if JS.le_zero (JS.Math_round a) then
    Throw ("Amount must be a positive number after validation. Provided: "
           ++ number_text E a)
  else
    Transfer_initiate E (calls w)
      {| account_number := acc; amount := JS.Math_round a; account_bank := bank;
         narration := narr; currency := "KES"; beneficiary_name := ben |}.
Proof.
  unfold Flutterwave.processBankTransfer. rewrite try_catch_rethrow.
  destruct (initializeFlutterwave_spec E w) as (w0 & Hi & Hc).
  rewrite (bind_Ok _ _ _ _ _ Hi).
  destruct (flutterwave_available E w); simpl; [ | reflexivity].
  destruct (JS.le_zero a); simpl; [reflexivity | ].
  destruct (JS.le_zero (JS.Math_round a)); simpl; [reflexivity | ].
  unfold Flutterwave.Transfer_initiate_call. simpl. rewrite Hc. reflexivity.
Qed.

(** A payment block that throws makes the run return the failure with
    its message. *)
Lemma processPayrollPayment_pay_throws p month d w employee e :
  next_calls_run 1 (faults w) = true ->
  Prisma.employee_with_relations (Payroll.employeeId p) (db w) = Some employee ->
  (forall w0, same_but_plan w w0 ->
              fst (Payroll.pay E p employee month d w0) = Throw e) ->
  fst (Payroll.processPayrollPayment E p month d w) = Ok (failed_with e).
Proof.
  intros Hplan Hemp Hpay. rewrite processPayrollPayment_unfold.
  unfold Payroll.processPayrollPayment_try,
    Prisma.employee_findUnique_include, Prisma.read.
  match goal with
  | |- context [Prisma.call ?run] =>
      destruct (call_runs run w Hplan) as (w0 & Hs & _ & Hcall)
  end.
  unfold bind at 1. rewrite Hcall. cbv beta.
  pose proof Hs as (Hdb & _). rewrite Hdb, Hemp.
  specialize (Hpay w0 Hs). unfold bind.
  destruct (Payroll.pay E p employee month d w0) as [[ids|e0] w1];
    simpl in Hpay; [discriminate Hpay | ].
  injection Hpay as ->. reflexivity.
Qed.

Lemma processPayrollPayment_unknown_employee p month d w :
  next_calls_run 1 (faults w) = true ->
  Prisma.employee_with_relations (Payroll.employeeId p) (db w) = None ->
  fst (Payroll.processPayrollPayment E p month d w)
  = Ok (failed_with ("Employee with ID " ++ Payroll.employeeId p ++ " not found")).
Proof.
  intros Hplan Hemp. rewrite processPayrollPayment_unfold.
  unfold Payroll.processPayrollPayment_try,
    Prisma.employee_findUnique_include, Prisma.read.
  match goal with
  | |- context [Prisma.call ?run] =>
      destruct (call_runs run w Hplan) as (w0 & Hs & _ & Hcall)
  end.
  unfold bind at 1. rewrite Hcall. cbv beta.
  pose proof Hs as (Hdb & _). rewrite Hdb, Hemp. reflexivity.
Qed.

Lemma same_but_plan_available w w0 :
  same_but_plan w w0 -> flutterwave_available E w0 = flutterwave_available E w.
Proof.
  intros (_ & _ & _ & _ & Hi & Hf & _). unfold flutterwave_available.
  rewrite Hi, Hf. reflexivity.
Qed.

(** The outcome of the block for a bank transfer that passed the checks
    of [processPayrollPayment]. *)
Lemma pay_by_bank_checked p employee month d w :
  Payroll.paymentMethod p = "bank" ->
  JS.truthy (Payroll.bankAccNo p) = true ->
  JS.truthy (bank_code_for p employee) = true ->
  JS.le_zero (Payroll.amount p) = false ->
  forall e,
    fst (Flutterwave.processBankTransfer E (Payroll.amount p)
           (JS.text (Payroll.bankAccNo p)) (JS.text (bank_code_for p employee))
           (Payroll.payment_narration E d month) (beneficiary_for employee) w)
      = Throw e ->
    fst (Payroll.pay E p employee month d w) = Throw e.
Proof.
  intros Hm Hacc Hcode Hamount e Hthrow.
  unfold Payroll.pay, Payroll.pay_by_bank. rewrite Hm. cbn [String.eqb Ascii.eqb Bool.eqb].
  rewrite Hacc. cbn [negb]. cbv zeta.
  change (match employee_bank employee with
          | Some b => JS.or_else (Some (bank_code b)) (Some (bank_name b))
          | None => Payroll.bankId p
          end) with (bank_code_for p employee).
  rewrite Hcode, Hamount. cbn [negb orb JS.typeof_number].
  unfold bind.
  change (JS.text (JS.or_else
            (JS.or_else match employee_user employee with
                        | Some u => user_name u
                        | None => None
                        end (emp_staffNo (employee_row employee)))
            (Some "Employee"))) with (beneficiary_for employee).
  destruct (Flutterwave.processBankTransfer E (Payroll.amount p)
              (JS.text (Payroll.bankAccNo p)) (JS.text (bank_code_for p employee))
              (Payroll.payment_narration E d month) (beneficiary_for employee) w)
    as [[r|e0] w1]; simpl in Hthrow; [discriminate Hthrow | ].
  injection Hthrow as ->. reflexivity.
Qed.

End Rejections.

(** X15: The errors that [processPayrollPayment] reports when the lookup of
    the employee is not rejected.  An unknown employee, a payment method
    other than 'bank' and 'mpesa', a bank payment without account
    number, without bank code or with an amount [<= 0], an M-Pesa
    payment without phone number: each is returned as
    [{ success: false, error }] with its own message, the checks being
    made in this order.  A bank payment that passed them fails with the
    message of [processBankTransfer] when the Flutterwave client is not
    configured or the amount rounds to zero, and with the provider's
    message when the provider throws; so does an M-Pesa payment when
    M-Pesa throws. *)
Theorem processPayrollPayment_reports :
  forall (E : Env) (p : Payroll.EmployeePayment) (month : Date)
         (description : string) (w : World),
    next_calls_run 1 (faults w) = true ->
    let failure := fun message =>
      fst (Payroll.processPayrollPayment E p month description w)
      = Ok (failed_with message) in
    (Prisma.employee_with_relations (Payroll.employeeId p) (db w) = None ->
     failure ("Employee with ID " ++ Payroll.employeeId p ++ " not found")%string)
    /\ forall employee,
         Prisma.employee_with_relations (Payroll.employeeId p) (db w)
           = Some employee ->
         (Payroll.paymentMethod p <> "bank" ->
          Payroll.paymentMethod p <> "mpesa" ->
          failure ("Invalid payment method: " ++ Payroll.paymentMethod p)%string)
         /\ (Payroll.paymentMethod p = "mpesa" ->
             (JS.truthy (Payroll.phone p) = false ->
              failure "Phone number required for M-Pesa payment")
             /\ (forall e,
                   JS.truthy (Payroll.phone p) = true ->
                   daraja_initiate E (calls w) (Payroll.amount p)
                     (Payroll.cleanPhone (JS.text (Payroll.phone p)))
                     (Payroll.payment_narration E description month) = Throw e ->
                   failure e))
         /\ (Payroll.paymentMethod p = "bank" ->
             (JS.truthy (Payroll.bankAccNo p) = false ->
              failure "Bank account number required for bank transfer")
             /\ (JS.truthy (Payroll.bankAccNo p) = true ->
                 (JS.truthy (bank_code_for p employee) = false ->
                  failure ("Bank code not found for employee "
                           ++ Payroll.employeeId p)%string)
                 /\ (JS.truthy (bank_code_for p employee) = true ->
                     (JS.le_zero (Payroll.amount p) = true ->
                      failure ("Invalid payment amount for employee "
                               ++ Payroll.employeeId p ++ ": "
                               ++ number_text E (Payroll.amount p)
                               ++ ". Amount must be a positive number.")%string)
                     /\ (JS.le_zero (Payroll.amount p) = false ->
                         (flutterwave_available E w = false ->
                          failure "Flutterwave not configured. Payment processing unavailable.")
                         /\ (flutterwave_available E w = true ->
                             (JS.le_zero (JS.Math_round (Payroll.amount p)) = true ->
                              failure ("Amount must be a positive number after validation. Provided: "
                                       ++ number_text E (Payroll.amount p))%string)
                             /\ (forall e,
                                   JS.le_zero (JS.Math_round (Payroll.amount p))
                                     = false ->
                                   Transfer_initiate E (calls w)
                                     {| account_number :=
                                          JS.text (Payroll.bankAccNo p);
                                        amount := JS.Math_round (Payroll.amount p);
                                        account_bank :=
                                          JS.text (bank_code_for p employee);
                                        narration :=
                                          Payroll.payment_narration E description
                                            month;
                                        currency := "KES";
                                        beneficiary_name :=
                                          beneficiary_for employee |}
                                     = Throw e ->
                                   failure e)))))).
Proof.
  intros E p month d w Hplan. cbv zeta. split.
  { apply processPayrollPayment_unknown_employee. exact Hplan. }
  intros employee Hemp.
  assert (Hfail : forall e,
             (forall w0, same_but_plan w w0 ->
                         fst (Payroll.pay E p employee month d w0) = Throw e) ->
             fst (Payroll.processPayrollPayment E p month d w)
             = Ok (failed_with e)).
  { intros e. apply processPayrollPayment_pay_throws; assumption. }
  split; [ | split].
  - intros Hb Hm. apply Hfail. intros w0 _. unfold Payroll.pay.
    apply String.eqb_neq in Hb, Hm. rewrite Hb, Hm. reflexivity.
  - intros Hm. split.
    + intros Hphone. apply Hfail. intros w0 _.
      unfold Payroll.pay, Payroll.pay_by_mpesa. rewrite Hm, Hphone. reflexivity.
    + intros e Hphone Hthrow. apply Hfail. intros w0 (_ & Hc & _).
      unfold Payroll.pay, Payroll.pay_by_mpesa. rewrite Hm, Hphone.
      cbn [String.eqb Ascii.eqb Bool.eqb negb].
      unfold bind, Payroll.initiateMpesaPayment. rewrite Hc, Hthrow.
      reflexivity.
  - intros Hm. split.
    + intros Hacc. apply Hfail. intros w0 _.
      unfold Payroll.pay, Payroll.pay_by_bank. rewrite Hm, Hacc. reflexivity.
    + intros Hacc. split.
      * intros Hcode. apply Hfail. intros w0 _.
        unfold Payroll.pay, Payroll.pay_by_bank. rewrite Hm, Hacc.
        cbn [String.eqb Ascii.eqb Bool.eqb negb]. cbv zeta.
        change (match employee_bank employee with
                | Some b => JS.or_else (Some (bank_code b)) (Some (bank_name b))
                | None => Payroll.bankId p
                end) with (bank_code_for p employee).
        rewrite Hcode. reflexivity.
      * intros Hcode. split.
        -- intros Hamount. apply Hfail. intros w0 _.
           unfold Payroll.pay, Payroll.pay_by_bank. rewrite Hm, Hacc.
           cbn [String.eqb Ascii.eqb Bool.eqb negb]. cbv zeta.
           change (match employee_bank employee with
                   | Some b => JS.or_else (Some (bank_code b)) (Some (bank_name b))
                   | None => Payroll.bankId p
                   end) with (bank_code_for p employee).
           rewrite Hcode, Hamount. cbn [negb orb]. rewrite orb_true_r.
           reflexivity.
        -- intros Hamount.
           assert (Hbank : forall e,
                      (forall w0, same_but_plan w w0 ->
                         fst (Flutterwave.processBankTransfer E (Payroll.amount p)
                                (JS.text (Payroll.bankAccNo p))
                                (JS.text (bank_code_for p employee))
                                (Payroll.payment_narration E d month)
                                (beneficiary_for employee) w0) = Throw e) ->
                      fst (Payroll.processPayrollPayment E p month d w)
                      = Ok (failed_with e)).
           { intros e He. apply Hfail. intros w0 Hs.
             apply pay_by_bank_checked; try assumption. apply He, Hs. }
           split.
           ++ intros Havail. apply Hbank. intros w0 Hs.
              rewrite processBankTransfer_outcome,
                (same_but_plan_available E w w0 Hs), Havail. reflexivity.
           ++ intros Havail. split.
              ** intros Hround. apply Hbank. intros w0 Hs.
                 rewrite processBankTransfer_outcome,
                   (same_but_plan_available E w w0 Hs), Havail, Hamount, Hround.
                 reflexivity.
              ** intros e Hround Hthrow. apply Hbank. intros w0 Hs.
                 rewrite processBankTransfer_outcome,
                   (same_but_plan_available E w w0 Hs), Havail, Hamount, Hround.
                 destruct Hs as (_ & Hc & _). rewrite Hc. exact Hthrow.
Qed.

(** Without Flutterwave keys the bank payment of the sample is turned
    down before any provider is reached. *)
Lemma processPayrollPayment_reports_witness :
  fst (Payroll.processPayrollPayment Outage.providers Sample.bank_payment
         Sample.june_2024 "Salary" Sample.calm)
  = Ok (failed_with "Flutterwave not configured. Payment processing unavailable.").
Proof.
  destruct (processPayrollPayment_reports Outage.providers Sample.bank_payment
              Sample.june_2024 "Salary" Sample.calm eq_refl) as (_ & H).
  destruct (H {| employee_row := Sample.ann;
                 employee_user := Some Sample.ann_user;
                 employee_bank := Some Sample.kcb |} eq_refl)
    as (_ & _ & Hbank).
  destruct (Hbank eq_refl) as (_ & Hacc).
  destruct (Hacc eq_refl) as (_ & Hcode).
  destruct (Hcode eq_refl) as (_ & Hamount).
  destruct (Hamount eq_refl) as (Hdown & _).
  apply Hdown. reflexivity.
Defined.

(* ===================================================================== *)
(** * More on the phone number sent to M-Pesa *)
(* ===================================================================== *)

Lemma filter_chars_fixed keep s :
  JS.all_chars keep s = true -> JS.filter_chars keep s = s.
Proof.
  induction s as [|c rest IH]; simpl; [reflexivity | ].
  intros H. apply andb_true_iff in H. destruct H as (Hc & Hrest).
  rewrite Hc, (IH Hrest). reflexivity.
Qed.

Lemma filter_chars_length keep s :
  (String.length (JS.filter_chars keep s) <= String.length s)%nat.
Proof.
  induction s as [|c rest IH]; simpl; [lia | ].
  destruct (keep c); simpl; lia.
Qed.

(** X16: Cleaning a phone number twice is cleaning it once; the numbers that
    cleaning leaves as they are, are the strings of digits; and cleaning
    never makes a number longer: no country code is put in front of a
    number that was written without one. *)
Theorem cleanPhone_idempotent :
  forall s : string,
    Payroll.cleanPhone (Payroll.cleanPhone s) = Payroll.cleanPhone s
    /\ (Payroll.cleanPhone s = s <-> JS.all_chars JS.is_digit s = true)
    /\ (String.length (Payroll.cleanPhone s) <= String.length s)%nat.
Proof.
  intros s.
  destruct (cleanPhone_digits s) as (Hs & Hd).
  destruct (cleanPhone_digits (Payroll.cleanPhone s)) as (Hss & _).
  split; [ | split].
  - rewrite Hss. apply filter_chars_fixed. exact Hd.
  - split.
    + intros H. rewrite <- H. exact Hd.
    + intros H. rewrite Hs. apply filter_chars_fixed. exact H.
  - rewrite Hs. apply filter_chars_length.
Qed.

(** X17: A number written with the country code of Kenya, with or without
    the plus sign in front, is sent to M-Pesa starting with 254. *)
Theorem cleanPhone_keeps_country_code :
  forall s : string,
    String.prefix "+254" s = true \/ String.prefix "254" s = true ->
    String.prefix "254" (Payroll.cleanPhone s) = true.
Proof. intros s H. apply cleanPhone_country_code. exact H. Qed.

Lemma cleanPhone_keeps_country_code_witness :
  String.prefix "254" (Payroll.cleanPhone "+254 712-345 678") = true.
Proof.
  apply (cleanPhone_keeps_country_code "+254 712-345 678").
  left. reflexivity.
Defined.

(* ===================================================================== *)
(** * What the endpoint for banks writes *)
(* ===================================================================== *)

Lemma bind_inv {A B : Type} (m : Async A) (k : A -> Async B) w r w' :
  bind m k w = (r, w') ->
  (exists a w1, m w = (Ok a, w1) /\ k a w1 = (r, w'))
  \/ (exists e, m w = (Throw e, w') /\ r = Throw e).
Proof.
  unfold bind. destruct (m w) as [[a|e] w1]; intros H.
  - left. exists a, w1. split; [reflexivity | exact H].
  - right. exists e. injection H as <- <-. split; reflexivity.
Qed.

Section BankEffects.

Variable E : Env.

(** The creation of a bank either rejects and writes nothing, or adds
    the bank under a code that no bank had. *)
Lemma bank_create_spec name code w r w' :
  Prisma.bank_create E name code w = (r, w') ->
  (db w' = db w /\ exists e, r = Throw e)
  \/ (exists b, r = Ok b /\ bank_code b = code
                /\ db w' = set_banks (banks (db w) ++ [b]) (db w)
                /\ forall k, In k (banks (db w)) -> bank_code k <> code).
Proof.
  unfold Prisma.bank_create. intros H. apply call_inv in H.
  destruct H as [(e & -> & Hs & _) | (w0 & Hs & H)].
  - left. split; [apply Hs | exists e; reflexivity].
  - destruct Hs as (Hdb & _).
    destruct (existsb _ (banks (db w0))) eqn:Hex.
    + injection H as <- <-. left. split; [exact Hdb | eexists; reflexivity].
    + injection H as <- <-. right. eexists.
      split; [reflexivity | ]. split; [reflexivity | ].
      split; [simpl; rewrite Hdb; reflexivity | ].
      intros k Hk Hcode. rewrite Hdb in Hex.
      assert (Htrue : existsb (fun b => String.eqb (bank_code b) code)
                              (banks (db w)) = true).
      { apply existsb_exists. exists k. split; [exact Hk | ].
        apply String.eqb_eq. exact Hcode. }
      congruence.
Qed.

(** The creation of an activity either rejects and writes nothing, or
    adds the activity. *)
Lemma activity_create_spec a w r w' :
  Prisma.activity_create a w = (r, w') ->
  (db w' = db w /\ exists e, r = Throw e)
  \/ (r = Ok tt /\ db w' = set_activities (activities (db w) ++ [a]) (db w)).
Proof.
  unfold Prisma.activity_create, Prisma.write. intros H. apply call_inv in H.
  destruct H as [(e & -> & Hs & _) | (w0 & Hs & H)].
  - left. split; [apply Hs | exists e; reflexivity].
  - destruct Hs as (Hdb & _). injection H as <- <-. right.
    split; [reflexivity | ]. simpl. rewrite Hdb. reflexivity.
Qed.

Lemma bank_findUnique_value_db code :
  preserves db (BanksRoute.bank_findUnique_value code).
Proof.
  unfold BanksRoute.bank_findUnique_value, Prisma.bank_findUnique_code.
  destruct code; frame.
Qed.

(** What a caller that passed the guard can bring about: nothing, with
    an answer of 400 if there is an answer; or one new bank, with the
    answer 201 that carries it if there is an answer. *)
Lemma POST_authorised_effects request session w r w' :
  BanksRoute.POST_authorised E request session w = (r, w') ->
  tables_beside_banks w' = tables_beside_banks w
  /\ ((db w' = db w
       /\ forall response, r = Ok response -> BanksRoute.status response = 400%Z)
      \/ exists b,
           bank_added b w w'
           /\ forall response,
                r = Ok response ->
                response = {| BanksRoute.status := 201;
                              BanksRoute.body := BanksRoute.CreatedBody b |}).
Proof.
  assert (Hquiet : forall (x : World) (res : Result BanksRoute.Response),
             db x = db w ->
             (forall response, res = Ok response ->
                               BanksRoute.status response = 400%Z) ->
             tables_beside_banks x = tables_beside_banks w
             /\ ((db x = db w
                  /\ forall response, res = Ok response ->
                                      BanksRoute.status response = 400%Z)
                 \/ exists b,
                      bank_added b w x
                      /\ forall response,
                           res = Ok response ->
                           response = {| BanksRoute.status := 201;
                                         BanksRoute.body :=
                                           BanksRoute.CreatedBody b |})).
  { intros x res Hdb Hres. split.
    - unfold tables_beside_banks. rewrite Hdb. reflexivity.
    - left. split; assumption. }
  unfold BanksRoute.POST_authorised, BanksRoute.await. intros H.
  apply bind_inv in H. destruct H as [(body & w1 & Hj & H) | (e & Hj & ->)].
  2:{ injection Hj as _ <-. apply Hquiet; [reflexivity | discriminate]. }
  injection Hj as _ <-.
  destruct body as [|name code].
  { injection H as <- <-. apply Hquiet; [reflexivity | discriminate]. }
  destruct (negb (JS.value_truthy name) || negb (JS.value_truthy code)).
  { injection H as <- <-. apply Hquiet; [reflexivity | ].
    intros response Hr. injection Hr as <-. reflexivity. }
  apply bind_inv in H. destruct H as [(existing & w2 & H1 & H) | (e & H1 & ->)].
  2:{ apply Hquiet; [ | discriminate].
      apply (preserves_run _ _ _ _ _ (bank_findUnique_value_db code) H1). }
  pose proof (preserves_run _ _ _ _ _ (bank_findUnique_value_db code) H1) as Hdb2.
  destruct existing as [existing|].
  { injection H as <- <-. apply Hquiet; [exact Hdb2 | ].
    intros response Hr. injection Hr as <-. reflexivity. }
  apply bind_inv in H. destruct H as [(n & w3 & Hn & H) | (e & Hn & ->)].
  2:{ apply Hquiet; [ | discriminate].
      destruct name; injection Hn as _ <-; exact Hdb2. }
  assert (w3 = w2) by (destruct name; try discriminate Hn;
                       injection Hn as _ <-; reflexivity).
  subst w3.
  apply bind_inv in H. destruct H as [(c & w4 & Hc & H) | (e & Hc & ->)].
  2:{ apply Hquiet; [ | discriminate].
      destruct code; injection Hc as _ <-; exact Hdb2. }
  assert (w4 = w2) by (destruct code; try discriminate Hc;
                       injection Hc as _ <-; reflexivity).
  subst w4.
  apply bind_inv in H. destruct H as [(b & w5 & Hb & H) | (e & Hb & ->)].
  2:{ apply Hquiet; [ | discriminate].
      apply bank_create_spec in Hb.
      destruct Hb as [(Hdb & _) | (b & Hb & _)]; [congruence | discriminate Hb]. }
  apply bank_create_spec in Hb.
  destruct Hb as [(_ & e & He) | (b' & Hb' & Hcode & Hdb5 & Hfresh)];
    [discriminate He | ].
  injection Hb' as <-. rewrite Hdb2 in Hdb5, Hfresh.
  assert (Hadded : forall (x : World) (res : Result BanksRoute.Response),
             (db x = db w5
              \/ exists a, db x = set_activities (activities (db w5) ++ [a]) (db w5)
                           /\ ac_action a = "ADD_BANK" /\ ac_bankId a = bank_id b
                           /\ ac_bankCode a = bank_code b) ->
             (forall response,
                 res = Ok response ->
                 response = {| BanksRoute.status := 201;
                               BanksRoute.body := BanksRoute.CreatedBody b |}) ->
             tables_beside_banks x = tables_beside_banks w
             /\ ((db x = db w
                  /\ forall response, res = Ok response ->
                                      BanksRoute.status response = 400%Z)
                 \/ exists b0,
                      bank_added b0 w x
                      /\ forall response,
                           res = Ok response ->
                           response = {| BanksRoute.status := 201;
                                         BanksRoute.body :=
                                           BanksRoute.CreatedBody b0 |})).
  { intros x res Hx Hres. split.
    - unfold tables_beside_banks.
      destruct Hx as [-> | (a & -> & _)]; rewrite Hdb5; reflexivity.
    - right. exists b. split; [ | exact Hres].
      unfold bank_added. rewrite Hcode.
      destruct Hx as [-> | (a & -> & Ha)]; rewrite Hdb5; cbn.
      + split; [reflexivity | ]. split; [exact Hfresh | left; reflexivity].
      + split; [reflexivity | ]. split; [exact Hfresh | ].
        right. exists a. split; [reflexivity | ].
        rewrite <- Hcode. exact Ha. }
  apply bind_inv in H. destruct H as [(employee & w6 & He & H) | (e & He & ->)].
  2:{ apply Hadded; [left | discriminate].
      unfold Prisma.employee_findFirst_userId in He.
      apply read_inv in He. apply He. }
  assert (Hdb6 : db w6 = db w5).
  { unfold Prisma.employee_findFirst_userId in He. apply read_inv in He.
    apply He. }
  apply bind_inv in H. destruct H as [([] & w7 & Ha & H) | (e & Ha & ->)].
  - injection H as <- <-.
    apply Hadded; [ | intros response Hr; injection Hr as <-; reflexivity].
    destruct employee as [employee|].
    + apply activity_create_spec in Ha.
      destruct Ha as [(Hdb7 & _) | (_ & Hdb7)].
      * left. congruence.
      * right. eexists. rewrite Hdb7, Hdb6.
        split; [reflexivity | ]. repeat split.
    + injection Ha as <-. left. exact Hdb6.
  - apply Hadded; [ | discriminate].
    destruct employee as [employee|]; [ | discriminate Ha].
    apply activity_create_spec in Ha.
    destruct Ha as [(Hdb7 & _) | (Hr & _)]; [ | discriminate Hr].
    left. congruence.
Qed.

End BankEffects.

(** X18: What the endpoint for banks can write, whatever the request and
    whatever the database does: either nothing at all, or one new bank,
    under a code that no bank had, and at most the activity that records
    it.  It writes nothing when it answers 401 or 400; when it answers
    201 the bank of the answer is the one added.  A new bank can also
    come with the answer 500, when a call after its creation is
    rejected.  No other table is written. *)
Theorem banks_POST_writes :
  forall (E : Env) (request : BanksRoute.Request) (w : World),
    let run := BanksRoute.POST E request w in
    exists response,
      fst run = Ok response
      /\ tables_beside_banks (snd run) = tables_beside_banks w
      /\ ((db (snd run) = db w
           /\ BanksRoute.status response <> 201%Z)
          \/ exists b,
               bank_added b w (snd run)
               /\ (response = {| BanksRoute.status := 201;
                                 BanksRoute.body := BanksRoute.CreatedBody b |}
                   \/ BanksRoute.status response = 500%Z)).
Proof.
  intros E request w. cbv zeta.
  destruct (BanksRoute.getServerSession request) as [session|e] eqn:Hs.
  2:{ unfold BanksRoute.POST, try_catch, bind, BanksRoute.await. rewrite Hs.
      eexists. split; [reflexivity | ]. split; [reflexivity | ].
      left. split; [reflexivity | discriminate]. }
  rewrite (POST_with_session E request session w Hs).
  destruct (BanksRoute.unauthorized session).
  { eexists. split; [reflexivity | ]. split; [reflexivity | ].
    left. split; [reflexivity | discriminate]. }
  unfold try_catch.
  destruct (BanksRoute.POST_authorised E request session w) as [r w'] eqn:Hrun.
  apply POST_authorised_effects in Hrun.
  destruct Hrun as (Htables & Hcases).
  destruct r as [response|e]; cbn [fst snd ret].
  - exists response. split; [reflexivity | ]. split; [exact Htables | ].
    destruct Hcases as [(Hdb & H400) | (b & Hadded & H201)].
    + left. split; [exact Hdb | ]. rewrite (H400 response eq_refl). discriminate.
    + right. exists b. split; [exact Hadded | left; apply H201; reflexivity].
  - eexists. split; [reflexivity | ]. split; [exact Htables | ].
    destruct Hcases as [(Hdb & _) | (b & Hadded & _)].
    + left. split; [exact Hdb | discriminate].
    + right. exists b. split; [exact Hadded | right; reflexivity].
Qed.

(** A bank that is created although the answer is 500: the lookup of
    the caller's employee is rejected after the bank was stored. *)
Lemma bank_created_with_answer_500 :
  let w := Sample.with_plan [None; None; Some "connection lost"] in
  let run := BanksRoute.POST Sample.providers
               (Sample.add_bank (Some Sample.finance_officer)
                  (JS.VStr "Equity") (JS.VStr "68")) w in
  fst run = Ok {| BanksRoute.status := 500;
                  BanksRoute.body := BanksRoute.ErrorBody "Failed to add bank" |}
  /\ banks (db (snd run))
     = banks (db w) ++ [created_bank Sample.providers w "Equity" "68"].
Proof. vm_compute. split; reflexivity. Qed.

(* ===================================================================== *)
(** * The page that prepares a payroll run *)
(* ===================================================================== *)

Lemma includes_true_iff ids x : PayrollPage.includes ids x = true <-> In x ids.
Proof.
  unfold PayrollPage.includes. rewrite existsb_exists. split.
  - intros (y & Hy & Heq). apply String.eqb_eq in Heq. subst y. exact Hy.
  - intros H. exists x. split; [exact H | apply String.eqb_refl].
Qed.

Lemma includes_app a b x :
  PayrollPage.includes (a ++ b) x
  = PayrollPage.includes a x || PayrollPage.includes b x.
Proof. unfold PayrollPage.includes. apply existsb_app. Qed.

Lemma includes_without ids e x :
  PayrollPage.includes (filter (fun id => negb (String.eqb id e)) ids) x
  = PayrollPage.includes ids x && negb (String.eqb x e).
Proof.
  unfold PayrollPage.includes. induction ids as [|y rest IH]; simpl;
    [reflexivity | ].
  destruct (String.eqb y e) eqn:Hye; simpl; rewrite IH.
  - apply String.eqb_eq in Hye.
    destruct (String.eqb x y) eqn:Hxy; simpl; [ | reflexivity].
    apply String.eqb_eq in Hxy.
    assert (Hxe : String.eqb x e = true) by (apply String.eqb_eq; congruence).
    rewrite Hxe, andb_false_r. reflexivity.
  - apply String.eqb_neq in Hye.
    destruct (String.eqb x y) eqn:Hxy; simpl; [ | reflexivity].
    apply String.eqb_eq in Hxy.
    assert (Hxe : String.eqb x e = false) by (apply String.eqb_neq; congruence).
    rewrite Hxe. reflexivity.
Qed.

Lemma toggle_flips e prev :
  PayrollPage.includes (PayrollPage.toggleEmployeeSelection e prev) e
  = negb (PayrollPage.includes prev e).
Proof.
  unfold PayrollPage.toggleEmployeeSelection.
  destruct (PayrollPage.includes prev e) eqn:Hin.
  - rewrite includes_without, String.eqb_refl, andb_false_r. reflexivity.
  - rewrite includes_app, Hin. unfold PayrollPage.includes. simpl.
    rewrite String.eqb_refl. reflexivity.
Qed.

Lemma toggle_others e prev x :
  x <> e ->
  PayrollPage.includes (PayrollPage.toggleEmployeeSelection e prev) x
  = PayrollPage.includes prev x.
Proof.
  intros Hx. apply String.eqb_neq in Hx.
  unfold PayrollPage.toggleEmployeeSelection.
  destruct (PayrollPage.includes prev e).
  - rewrite includes_without, Hx, andb_true_r. reflexivity.
  - rewrite includes_app. unfold PayrollPage.includes at 2. simpl.
    rewrite Hx, !orb_false_r. reflexivity.
Qed.

Lemma NoDup_snoc {A : Type} (l : list A) (x : A) :
  NoDup l -> ~ In x l -> NoDup (l ++ [x]).
Proof.
  induction l as [|y rest IH]; simpl; intros Hnd Hx.
  - constructor; [intros [] | constructor].
  - inversion Hnd as [|z zs Hy Hrest]; subst. constructor.
    + intros Hin. apply in_app_or in Hin. destruct Hin as [Hin | [-> | []]].
      * apply Hy, Hin.
      * apply Hx. left. reflexivity.
    + apply IH; [exact Hrest | ]. intros Hin. apply Hx. right. exact Hin.
Qed.

(** X19: A click on the box of an employee flips the employee in the
    selection and leaves every other employee as selected as before; a
    selection without repeats stays without repeats; and two clicks on
    the same box give back the same set of selected employees. *)
Theorem toggleEmployeeSelection_flips :
  forall (employeeId : string) (prev : list string),
    let next := PayrollPage.toggleEmployeeSelection employeeId prev in
    PayrollPage.includes next employeeId
      = negb (PayrollPage.includes prev employeeId)
    /\ (forall other, other <> employeeId ->
                      PayrollPage.includes next other
                      = PayrollPage.includes prev other)
    /\ (NoDup prev -> NoDup next)
    /\ (forall x, PayrollPage.includes
                    (PayrollPage.toggleEmployeeSelection employeeId next) x
                  = PayrollPage.includes prev x).
Proof.
  intros e prev. cbv zeta. split; [apply toggle_flips | ].
  split; [intros x Hx; apply toggle_others; exact Hx | ]. split.
  - intros Hnd. unfold PayrollPage.toggleEmployeeSelection.
    destruct (PayrollPage.includes prev e) eqn:Hin.
    + apply NoDup_filter. exact Hnd.
    + apply NoDup_snoc; [exact Hnd | ].
      intros H. apply includes_true_iff in H. congruence.
  - intros x. destruct (String.eqb_spec x e) as [->|Hx].
    + rewrite !toggle_flips. apply negb_involutive.
    + rewrite !(toggle_others _ _ _ Hx). reflexivity.
Qed.

Lemma submitted_payments_Some method employees ids payments :
  PayrollPage.submitted_payments method employees ids = Some payments ->
  payments = map (PayrollPage.payment_of method)
                 (PayrollPage.validEmployees method employees ids)
  /\ payments <> [].
Proof.
  unfold PayrollPage.submitted_payments. intros H.
  destruct ids as [|i rest]; [discriminate H | ].
  destruct (PayrollPage.validEmployees method employees (i :: rest))
    as [|v vs]; [discriminate H | ].
  injection H as <-. split; [reflexivity | discriminate].
Qed.

Lemma validEmployees_In method employees ids emp :
  In emp (PayrollPage.validEmployees method employees ids)
  <-> In emp employees
      /\ PayrollPage.includes ids (PayrollPage.id emp) = true
      /\ PayrollPage.has_payment_information method emp = true.
Proof.
  unfold PayrollPage.validEmployees, PayrollPage.selectedEmployeeDetails.
  rewrite !filter_In. tauto.
Qed.

(** X20: The payments that the page submits: there is at least one; each is
    the payment of a selected employee of the table, by the method
    chosen, with the employee's salary as the amount; for 'mpesa' each
    carries a phone number that is neither empty nor 'N/A', for any
    other method an account number and a bank name that are neither
    empty nor 'N/A'; and no selected employee with that information is
    left out. *)
Theorem submitted_payments_are_complete :
  forall (method : string) (employees : list PayrollPage.Employee)
         (ids : list string) (payments : list Payroll.EmployeePayment),
    PayrollPage.submitted_payments method employees ids = Some payments ->
    payments <> []
    /\ (forall p,
          In p payments ->
          Payroll.paymentMethod p = method
          /\ In (Payroll.employeeId p) ids
          /\ (exists emp, In emp employees
                          /\ PayrollPage.id emp = Payroll.employeeId p
                          /\ Payroll.amount p = PayrollPage.salary emp)
          /\ if String.eqb method "mpesa"
             then JS.truthy (Payroll.phone p) = true
                  /\ Payroll.phone p <> Some "N/A"
             else JS.truthy (Payroll.bankAccNo p) = true
                  /\ Payroll.bankAccNo p <> Some "N/A"
                  /\ JS.truthy (Payroll.bankId p) = true
                  /\ Payroll.bankId p <> Some "N/A")
    /\ (forall emp,
          In emp employees -> In (PayrollPage.id emp) ids ->
          PayrollPage.has_payment_information method emp = true ->
          In (PayrollPage.payment_of method emp) payments).
Proof.
  intros method employees ids payments H.
  apply submitted_payments_Some in H. destruct H as (-> & Hne).
  split; [exact Hne | ]. split.
  - intros p Hp. apply in_map_iff in Hp. destruct Hp as (emp & <- & Hemp).
    apply validEmployees_In in Hemp. destruct Hemp as (Hin & Hsel & Hinfo).
    split; [reflexivity | ].
    split; [apply includes_true_iff; exact Hsel | ].
    split; [exists emp; repeat split; exact Hin | ].
    unfold PayrollPage.has_payment_information in Hinfo.
    cbn [PayrollPage.payment_of Payroll.phone Payroll.bankAccNo Payroll.bankId].
    destruct (String.eqb method "mpesa").
    + apply andb_true_iff in Hinfo. destruct Hinfo as (Hinfo & _).
      apply andb_true_iff in Hinfo. destruct Hinfo as (Ht & Hna).
      split; [exact Ht | ]. intros Heq. rewrite Heq in Hna. discriminate Hna.
    + apply andb_true_iff in Hinfo. destruct Hinfo as (Hinfo & Hbna).
      apply andb_true_iff in Hinfo. destruct Hinfo as (Hinfo & Hbe).
      apply andb_true_iff in Hinfo. destruct Hinfo as (Ht & Hna).
      split; [exact Ht | ].
      split; [intros Heq; rewrite Heq in Hna; discriminate Hna | ].
      split; [exact Hbe | ].
      intros Heq. injection Heq as Heq. rewrite Heq in Hbna. discriminate Hbna.
  - intros emp Hin Hsel Hinfo. apply in_map. apply validEmployees_In.
    split; [exact Hin | ]. split; [apply includes_true_iff; exact Hsel | exact Hinfo].
Qed.

(** Both employees of the sample are selected for 'mpesa'; only the one
    with a phone number is submitted. *)
Lemma submitted_payments_are_complete_witness :
  [PayrollPage.payment_of "mpesa" Roster.ann] <> []
  /\ In (PayrollPage.payment_of "mpesa" Roster.ann)
        [PayrollPage.payment_of "mpesa" Roster.ann].
Proof.
  destruct (submitted_payments_are_complete "mpesa" Roster.table
              ["emp-1"; "emp-2"] [PayrollPage.payment_of "mpesa" Roster.ann]
              eq_refl) as (Hne & _ & Hall).
  split; [exact Hne | ].
  apply (Hall Roster.ann).
  - left. reflexivity.
  - left. reflexivity.
  - reflexivity.
Defined.

(** For the two payment methods of the page, the test behind the list
    of eligible employees and the test at submission agree. *)
Lemma tests_agree method emp :
  method = "bank" \/ method = "mpesa" ->
  PayrollPage.has_payment_information method emp
  = PayrollPage.matchesPaymentMethod method emp.
Proof.
  unfold PayrollPage.has_payment_information, PayrollPage.matchesPaymentMethod.
  intros [-> | ->]; cbn [String.eqb Ascii.eqb Bool.eqb andb]; [ | reflexivity].
  destruct (JS.truthy (PayrollPage.bankAccNo emp)),
    (String.eqb (JS.text (PayrollPage.bankAccNo emp)) "N/A"),
    (String.eqb (PayrollPage.bank emp) ""),
    (String.eqb (PayrollPage.bank emp) "N/A"); reflexivity.
Qed.

Lemma filter_same {A : Type} (f : A -> bool) (l : list A) :
  (forall x, In x l -> f x = true) -> filter f l = l.
Proof.
  induction l as [|x rest IH]; simpl; intros H; [reflexivity | ].
  rewrite (H x (or_introl eq_refl)). f_equal. apply IH.
  intros y Hy. apply H. right. exact Hy.
Qed.

(** With unique keys, selecting the keys of a filtered table selects the
    filtered table. *)
Lemma selected_of_filtered (keep : PayrollPage.Employee -> bool)
    (employees : list PayrollPage.Employee) :
  NoDup (map PayrollPage.id employees) ->
  PayrollPage.selectedEmployeeDetails employees
    (map PayrollPage.id (filter keep employees))
  = filter keep employees.
Proof.
  intros Hnd. unfold PayrollPage.selectedEmployeeDetails.
  apply filter_ext_in. intros emp Hemp.
  destruct (keep emp) eqn:Hkeep.
  - apply includes_true_iff. apply in_map. apply filter_In.
    split; assumption.
  - destruct (PayrollPage.includes _ _) eqn:Hinc; [exfalso | reflexivity].
    apply includes_true_iff in Hinc. apply in_map_iff in Hinc.
    destruct Hinc as (other & Hid & Hother). apply filter_In in Hother.
    destruct Hother as (Hin & Hk).
    rewrite (NoDup_map_In_eq PayrollPage.id employees other emp Hnd Hin Hemp Hid)
      in Hk.
    congruence.
Qed.

(** X21: Select all, then process: when the keys of the table are unique
    and the selection does not already have the size of the list of
    eligible employees, [toggleSelectAll] selects the eligible
    employees, and a submission by the method of the page ('bank' or
    'mpesa') then pays exactly these, in the order of the table: nobody
    who is shown as eligible is skipped for missing information. *)
Theorem select_all_submits_the_eligible :
  forall (matchesSearch : PayrollPage.Employee -> bool) (method : string)
         (employees : list PayrollPage.Employee) (selected : list string),
    method = "bank" \/ method = "mpesa" ->
    NoDup (map PayrollPage.id employees) ->
    List.length selected
      <> List.length (PayrollPage.eligibleEmployees matchesSearch method employees) ->
    let eligible := PayrollPage.eligibleEmployees matchesSearch method employees in
    let ids := PayrollPage.toggleSelectAll selected eligible in
    PayrollPage.validEmployees method employees ids = eligible
    /\ PayrollPage.submitted_payments method employees ids
       = match eligible with
         | [] => None
         | _ => Some (map (PayrollPage.payment_of method) eligible)
         end.
Proof.
  intros search method employees selected Hmethod Hnd Hlen. cbv zeta.
  assert (Hids : PayrollPage.toggleSelectAll selected
                   (PayrollPage.eligibleEmployees search method employees)
                 = map PayrollPage.id
                       (PayrollPage.eligibleEmployees search method employees)).
  { unfold PayrollPage.toggleSelectAll.
    destruct (Nat.eqb_spec (List.length selected)
                (List.length (PayrollPage.eligibleEmployees search method
                                employees))) as [Heq|_];
      [contradiction | reflexivity]. }
  rewrite Hids.
  assert (Hvalid : PayrollPage.validEmployees method employees
                     (map PayrollPage.id
                        (PayrollPage.eligibleEmployees search method employees))
                   = PayrollPage.eligibleEmployees search method employees).
  { unfold PayrollPage.validEmployees, PayrollPage.eligibleEmployees.
    rewrite (selected_of_filtered _ employees Hnd).
    apply filter_same. intros emp Hemp. apply filter_In in Hemp.
    destruct Hemp as (_ & Hk). apply andb_true_iff in Hk.
    rewrite (tests_agree method emp Hmethod). apply Hk. }
  split; [exact Hvalid | ].
  unfold PayrollPage.submitted_payments. rewrite Hvalid.
  destruct (PayrollPage.eligibleEmployees search method employees) as [|e es];
    [ | reflexivity].
  reflexivity.
Qed.

(** The sample with the method 'bank': only one of the two employees has
    an account, and selecting all submits that one. *)
Lemma select_all_submits_the_eligible_witness :
  PayrollPage.validEmployees "bank" Roster.table
    (PayrollPage.toggleSelectAll []
       (PayrollPage.eligibleEmployees Roster.any_employee "bank" Roster.table))
  = PayrollPage.eligibleEmployees Roster.any_employee "bank" Roster.table.
Proof.
  apply (select_all_submits_the_eligible Roster.any_employee "bank"
           Roster.table []).
  - left. reflexivity.
  - repeat constructor; simpl; intuition discriminate.
  - simpl. discriminate.
Defined.
